(** * Encrypted task store: storage layer of the task tracker

    Shallow embedding of the three variants of the tracker
    ([TaskManager.py], [tracker_Encryption.py], [tracker_Log.py]) and the
    properties of their storage layer: key lookup, encrypt/decrypt round
    trip, content hashing, backups and the task mutations that call them.

    The Python functions become computations in a state-and-exception
    monad over a [world]: the files and directories on disk, the
    environment, umask and privileges of the process, the console, the log
    and the sources of time and randomness. *)

From Stdlib Require Import ZArith Strings.String Strings.Ascii Strings.Byte.
From Stdlib Require Import Numbers.DecimalString.
From stdpp Require Import base gmap strings list fin_maps.

Set Warnings "-register-all".

(** ** Python values *)

(** [str] values are strings of code points below 256, one character per
    code point; [bytes] values are lists of bytes. *)
Abbreviation pystr := string (only parsing).
Abbreviation bytes := (list Byte.byte) (only parsing).

(** The values [json.loads] can return, floats apart.  A [dict] keeps its
    insertion order, which [json.dumps] follows. *)
Inductive pyval : Type :=
  | PNone
  | PBool (b : bool)
  | PInt (n : Z)
  | PStr (s : pystr)
  | PList (l : list pyval)
  | PDict (d : list (pystr * pyval)).

(** The exceptions the modelled code can meet. *)
Inductive exn : Type :=
  | ValueError (msg : pystr)
  | FileNotFoundError (path : pystr)
  | PermissionError (path : pystr)
  | InvalidToken
  | JSONDecodeError
  | UnicodeDecodeError
  | KeyError (key : pystr)
  | TypeError
  | AttributeError
  | EOFError.

Inductive result (A : Type) : Type :=
  | Ok (a : A)
  | Raise (e : exn).
Arguments Ok {A} a.
Arguments Raise {A} e.

Inductive level : Type := INFO | WARNING | ERROR.

(** ** The libraries the program calls

    [cryptography.fernet], [hashlib], [json] and the [str] codec are not
    code of the program: they are an interface.  Randomness and the clock
    of [Fernet.encrypt] enter as the [nonce] argument. *)
Class Platform : Type := {
  (** [Fernet(key)] accepts the key (32 url-safe base64-encoded bytes). *)
  fernet_key_ok : bytes -> bool;
  (** [Fernet.generate_key()] from 32 random bytes. *)
  fernet_generate_key : bytes -> bytes;
  (** [Fernet(key).encrypt(data)] with the randomness it draws. *)
  fernet_encrypt : bytes -> bytes -> bytes -> bytes;
  (** [Fernet(key).decrypt(token)]; [None] is [InvalidToken]. *)
  fernet_decrypt : bytes -> bytes -> option bytes;
  (** [hashlib.sha256(b).hexdigest()]. *)
  sha256_hexdigest : bytes -> pystr;
  (** [s.encode()]. *)
  str_encode : pystr -> bytes;
  (** [b.decode()]; [None] is [UnicodeDecodeError]. *)
  bytes_decode : bytes -> option pystr;
  (** [json.dumps(v)]. *)
  json_dumps : pyval -> pystr;
  (** [json.loads(s)]; [None] is [JSONDecodeError]. *)
  json_loads : pystr -> option pyval;
  (** [int(s)]; [None] is [ValueError]. *)
  py_int : pystr -> option Z;
  (** [str(v)], as an f-string formats [v]. *)
  py_str : pyval -> pystr
}.

(** The documented contracts of the libraries, assumed only where a
    theorem names them. *)
Definition fernet_roundtrip `{Platform} : Prop :=
  forall key nonce data,
    fernet_key_ok key = true ->
    fernet_decrypt key (fernet_encrypt key nonce data) = Some data.

Definition codec_roundtrip `{Platform} : Prop :=
  forall s, bytes_decode (str_encode s) = Some s.

(** ** The world *)

Record world : Type := mkWorld {
  (** files opened in binary mode, by path *)
  files : gmap string (list Byte.byte);
  (** directories; a path names a file or a directory, not both *)
  dirs : gset string;
  (** text of [tasks_hash.sha256], the one file opened in text mode, kept
      apart from the files opened in binary mode *)
  hash_file : option pystr;
  (** the [ENCRYPTION_KEY] binding of the environment *)
  environ : option pystr;
  (** the file mode creation mask of the process *)
  umask : Z;
  log : list (level * pystr);
  (** lines still to be read by [input()] *)
  stdin : list pystr;
  stdout : list pystr;
  (** readings to come of [datetime.now().strftime("%Y%m%d_%H%M%S")]:
      two readings within one second are equal *)
  clock : nat -> pystr;
  (** draws to come of the system's randomness *)
  urandom : nat -> list Byte.byte;
  (** every [file.write] and [shutil.copy] so far: destination and bytes *)
  writes : list (pystr * list Byte.byte);
  (** permission bits of the directories, which the user of the process
      owns *)
  dir_mode : pystr -> Z;
  (** the process is exempt from permission checks (effective uid 0) *)
  superuser : bool
}.

Definition set_files (f : gmap string (list Byte.byte)) (w : world) : world :=
  mkWorld f (dirs w) (hash_file w) (environ w) (umask w) (log w)
          (stdin w) (stdout w) (clock w) (urandom w) (writes w) (dir_mode w) (superuser w).
Definition set_dirs (d : gset string) (w : world) : world :=
  mkWorld (files w) d (hash_file w) (environ w) (umask w) (log w)
          (stdin w) (stdout w) (clock w) (urandom w) (writes w) (dir_mode w) (superuser w).
Definition set_hash_file (h : option pystr) (w : world) : world :=
  mkWorld (files w) (dirs w) h (environ w) (umask w) (log w)
          (stdin w) (stdout w) (clock w) (urandom w) (writes w) (dir_mode w) (superuser w).
Definition set_umask (u : Z) (w : world) : world :=
  mkWorld (files w) (dirs w) (hash_file w) (environ w) u (log w)
          (stdin w) (stdout w) (clock w) (urandom w) (writes w) (dir_mode w) (superuser w).
Definition set_log (l : list (level * pystr)) (w : world) : world :=
  mkWorld (files w) (dirs w) (hash_file w) (environ w) (umask w) l
          (stdin w) (stdout w) (clock w) (urandom w) (writes w) (dir_mode w) (superuser w).
Definition set_stdin (i : list pystr) (w : world) : world :=
  mkWorld (files w) (dirs w) (hash_file w) (environ w) (umask w) (log w)
          i (stdout w) (clock w) (urandom w) (writes w) (dir_mode w) (superuser w).
Definition set_stdout (o : list pystr) (w : world) : world :=
  mkWorld (files w) (dirs w) (hash_file w) (environ w) (umask w) (log w)
          (stdin w) o (clock w) (urandom w) (writes w) (dir_mode w) (superuser w).
Definition set_clock (c : nat -> pystr) (w : world) : world :=
  mkWorld (files w) (dirs w) (hash_file w) (environ w) (umask w) (log w)
          (stdin w) (stdout w) c (urandom w) (writes w) (dir_mode w) (superuser w).
Definition set_urandom (r : nat -> list Byte.byte) (w : world) : world :=
  mkWorld (files w) (dirs w) (hash_file w) (environ w) (umask w) (log w)
          (stdin w) (stdout w) (clock w) r (writes w) (dir_mode w) (superuser w).
Definition set_writes (t : list (pystr * list Byte.byte)) (w : world) : world :=
  mkWorld (files w) (dirs w) (hash_file w) (environ w) (umask w) (log w)
          (stdin w) (stdout w) (clock w) (urandom w) t (dir_mode w) (superuser w).
Definition set_dir_mode (m : pystr -> Z) (w : world) : world :=
  mkWorld (files w) (dirs w) (hash_file w) (environ w) (umask w) (log w)
          (stdin w) (stdout w) (clock w) (urandom w) (writes w) m
          (superuser w).

(** ** The monad of the program: state and exceptions

    An exception keeps the world as it was when it was raised. *)
Definition M (A : Type) : Type := world -> result A * world.

Definition ret {A} (a : A) : M A := fun w => (Ok a, w).
Definition raise {A} (e : exn) : M A := fun w => (Raise e, w).
Definition bind {A B} (c : M A) (k : A -> M B) : M B :=
  fun w => match c w with
           | (Ok a, w1) => k a w1
           | (Raise e, w1) => (Raise e, w1)
           end.

Notation "x <- c ;; k" := (bind c (fun x => k))
  (at level 100, c at next level, right associativity).
Notation "c ;; k" := (bind c (fun _ => k))
  (at level 100, right associativity).

(** Lifting of library results. *)
Definition lift_opt {A} (o : option A) (e : exn) : M A :=
  match o with Some a => ret a | None => raise e end.

(** ** Operating system and runtime primitives

    The program keeps its files in the working directory, which the
    process can read and write, and reads them back as the user who wrote
    them.  Permissions are modelled where the program decides them: the
    umask it sets, the mode of the directory it makes under that umask,
    and the copies it makes into that directory. *)

(** [os.path.exists(p)]. *)
Definition os_path_exists (p : pystr) : M bool :=
  fun w => (Ok (match files w !! p with
                | Some _ => true
                | None => bool_decide (p ∈ dirs w)
                end), w).

(** The mode [os.makedirs] gives a new directory: [0o777] less the bits
    of the umask of the process. *)
Definition new_dir_mode (mask : Z) : Z := Z.ldiff 511 mask.

(** The owner may search the directory ([0o100]), write it ([0o200]). *)
Definition owner_x (mode : Z) : bool := Z.testbit mode 6.
Definition owner_w (mode : Z) : bool := Z.testbit mode 7.

(** [os.makedirs(p)], called on a path that does not exist, in the
    working directory. *)
Definition os_makedirs (p : pystr) : M unit :=
  fun w => (Ok tt,
            set_dir_mode (fun q => if String.eqb q p
                                   then new_dir_mode (umask w)
                                   else dir_mode w q)
              (set_dirs ({[ p ]} ∪ dirs w) w)).

Fixpoint has_slash (p : pystr) : bool :=
  match p with
  | EmptyString => false
  | String c r => Ascii.eqb c "/"%char || has_slash r
  end.

(** The directory part of a path: the path up to and including its last
    ['/']; empty for a path in the working directory. *)
Fixpoint parent (p : pystr) : pystr :=
  match p with
  | EmptyString => EmptyString
  | String c r =>
      if Ascii.eqb c "/"%char || has_slash r then String c (parent r)
      else EmptyString
  end.

(** What stands against creating or overwriting the file [p]: its
    directory is missing ([FileNotFoundError]), or its owner may not
    search it, or may not write it when [p] is a new file
    ([PermissionError]).  Nothing does for a path in the working
    directory, or for a process exempt from permission checks. *)
Definition write_refused (w : world) (p : pystr) : option exn :=
  match parent p with
  | EmptyString => None
  | d =>
      if negb (bool_decide (d ∈ dirs w)) then Some (FileNotFoundError p)
      else if superuser w then None
      else if owner_x (dir_mode w d)
              && (owner_w (dir_mode w d)
                  || bool_decide (is_Some (files w !! p)))
      then None
      else Some (PermissionError p)
  end.

(** [os.umask(m)]. *)
Definition os_umask (m : Z) : M unit :=
  fun w => (Ok tt, set_umask m w).

(** [os.getenv("ENCRYPTION_KEY")]. *)
Definition os_getenv : M (option pystr) :=
  fun w => (Ok (environ w), w).

(** [open(p, 'wb')] on a path in the working directory: the file is
    created or truncated at once. *)
Definition open_wb (p : pystr) : M unit :=
  fun w => (Ok tt, set_files (<[ p := [] ]> (files w)) w).

(** [file.write(data)] on the file opened at [p]. *)
Definition file_write (p : pystr) (data : bytes) : M unit :=
  fun w => (Ok tt,
            set_writes (writes w ++ [(p, data)])
              (set_files (<[ p := default [] (files w !! p) ++ data ]> (files w)) w)).

(** [open(p, 'rb')] and [file.read()]. *)
Definition read_rb (p : pystr) : M bytes :=
  fun w => match files w !! p with
           | Some b => (Ok b, w)
           | None => (Raise (FileNotFoundError p), w)
           end.

(** [shutil.copy(src, dst)] from a file in the working directory: the
    source is opened first, then the destination. *)
Definition shutil_copy (src dst : pystr) : M unit :=
  fun w => match files w !! src with
           | Some b =>
               match write_refused w dst with
               | Some e => (Raise e, w)
               | None => (Ok tt, set_writes (writes w ++ [(dst, b)])
                                   (set_files (<[ dst := b ]> (files w)) w))
               end
           | None => (Raise (FileNotFoundError src), w)
           end.

(** [datetime.now().strftime("%Y%m%d_%H%M%S")]. *)
Definition datetime_now_strftime : M pystr :=
  fun w => (Ok (clock w 0%nat), set_clock (fun n => clock w (S n)) w).

(** One draw of randomness ([os.urandom]). *)
Definition os_urandom : M bytes :=
  fun w => (Ok (urandom w 0%nat), set_urandom (fun n => urandom w (S n)) w).

Definition logging (lv : level) (msg : pystr) : M unit :=
  fun w => (Ok tt, set_log (log w ++ [(lv, msg)]) w).

(** [print(s)]. *)
Definition print (s : pystr) : M unit :=
  fun w => (Ok tt, set_stdout (stdout w ++ [s]) w).

(** [input(prompt)]: [EOFError] once the input is exhausted. *)
Definition input (prompt : pystr) : M pystr :=
  fun w => let w1 := set_stdout (stdout w ++ [prompt]) w in
           match stdin w with
           | [] => (Raise EOFError, w1)
           | l :: rest => (Ok l, set_stdin rest w1)
           end.

(** ** Operations on [str] and on containers *)

(** [c.isspace()] on the code points below 256. *)
Definition is_space (c : ascii) : bool :=
  let n := nat_of_ascii c in
  ((9 <=? n) && (n <=? 13) || (28 <=? n) && (n <=? 32)
   || (n =? 133) || (n =? 160))%nat.

Fixpoint str_rev_app (s acc : pystr) : pystr :=
  match s with
  | EmptyString => acc
  | String c r => str_rev_app r (String c acc)
  end.

Fixpoint lstrip (s : pystr) : pystr :=
  match s with
  | EmptyString => EmptyString
  | String c r => if is_space c then lstrip r else s
  end.

(** [s.strip()]. *)
Definition strip (s : pystr) : pystr :=
  str_rev_app (lstrip (str_rev_app (lstrip s) "")) "".

(** [not s] for a [str]. *)
Definition str_empty (s : pystr) : bool :=
  match s with EmptyString => true | _ => false end.

(** [str(n)] for an [int]. *)
Definition str_of_int (n : Z) : pystr :=
  NilZero.string_of_int (Z.to_int n).

Fixpoint dict_get (k : pystr) (d : list (pystr * pyval)) : option pyval :=
  match d with
  | [] => None
  | (k', v) :: r => if String.eqb k' k then Some v else dict_get k r
  end.

(** [d[k] = v]: the key keeps its place, a new key goes last. *)
Fixpoint dict_set (k : pystr) (v : pyval) (d : list (pystr * pyval))
  : list (pystr * pyval) :=
  match d with
  | [] => [(k, v)]
  | (k', v') :: r =>
      if String.eqb k' k then (k', v) :: r else (k', v') :: dict_set k v r
  end.

(** [x[k]] for a [str] key. *)
Definition py_getitem (x : pyval) (k : pystr) : M pyval :=
  match x with
  | PDict d => lift_opt (dict_get k d) (KeyError k)
  | _ => raise TypeError
  end.

(** [x[k] = v] for a [str] key; the updated object is returned. *)
Definition py_setitem (x : pyval) (k : pystr) (v : pyval) : M pyval :=
  match x with
  | PDict d => ret (PDict (dict_set k v d))
  | _ => raise TypeError
  end.

(** [len(x)]. *)
Definition py_len (x : pyval) : M Z :=
  match x with
  | PList l => ret (Z.of_nat (length l))
  | PDict d => ret (Z.of_nat (length d))
  | PStr s => ret (Z.of_nat (String.length s))
  | _ => raise TypeError
  end.

(** [x.append(v)]; the updated object is returned. *)
Definition py_append (x v : pyval) : M pyval :=
  match x with
  | PList l => ret (PList (l ++ [v]))
  | _ => raise AttributeError
  end.

Fixpoint str_chars (s : pystr) : list pyval :=
  match s with
  | EmptyString => []
  | String c r => PStr (String c EmptyString) :: str_chars r
  end.

(** The items [for t in x] goes through. *)
Definition py_iter (x : pyval) : M (list pyval) :=
  match x with
  | PList l => ret l
  | PDict d => ret (map (fun kv => PStr (fst kv)) d)
  | PStr s => ret (str_chars s)
  | _ => raise TypeError
  end.

(** [x == n] for an [int] [n]; [True == 1] and [False == 0] in Python. *)
Definition py_eq_int (x : pyval) (n : Z) : bool :=
  match x with
  | PInt m => (m =? n)%Z
  | PBool b => ((if b then 1 else 0) =? n)%Z
  | _ => false
  end.

(** [not x] is [negb (py_truthy x)]. *)
Definition py_truthy (x : pyval) : bool :=
  match x with
  | PNone => false
  | PBool b => b
  | PInt n => negb (n =? 0)%Z
  | PStr s => negb (str_empty s)
  | PList l => match l with [] => false | _ => true end
  | PDict d => match d with [] => false | _ => true end
  end.

(** [x.get(k, dflt)]. *)
Definition py_get (x : pyval) (k : pystr) (dflt : pyval) : M pyval :=
  match x with
  | PDict d => ret (default dflt (dict_get k d))
  | _ => raise AttributeError
  end.

(** A line feed followed by [s]. *)
Definition nl (s : pystr) : pystr := String (ascii_of_nat 10) s.

(** The object [x] with the items [l] its iteration yields replaced:
    only a list holds objects that can have been changed in place. *)
Definition with_items (x : pyval) (l : list pyval) : pyval :=
  match x with
  | PList _ => PList l
  | _ => x
  end.

(** ** [TaskManager.py]: environment key, content hash, archival backups *)

Module TaskManager.
Section Program.
Context `{Platform}.

Definition LOG_FILE : pystr := "task_tracker.log".
Definition KEY_FILE : pystr := "encryption_key.key".
Definition FILE : pystr := "tasks.json".
Definition HASH_FILE : pystr := "tasks_hash.sha256".
Definition BACKUP_FOLDER : pystr := "backups/".

(** [Fernet(key)]: the object is determined by its key. *)
Definition Fernet (key : bytes) : M bytes :=
  if fernet_key_ok key then ret key
  else raise (ValueError "Fernet key must be 32 url-safe base64-encoded bytes.").

(** [fernet.encrypt(data)]. *)
Definition Fernet_encrypt (fernet data : bytes) : M bytes :=
  nonce <- os_urandom ;;
  ret (fernet_encrypt fernet nonce data).

(** [fernet.decrypt(token)]. *)
Definition Fernet_decrypt (fernet token : bytes) : M bytes :=
  lift_opt (fernet_decrypt fernet token) InvalidToken.

Definition generate_key : M unit :=
  r <- os_urandom ;;
  let key := fernet_generate_key r in
  open_wb KEY_FILE ;;
  file_write KEY_FILE key ;;
  logging INFO ("Encryption key created: " +:+ KEY_FILE).

Definition load_key : M bytes :=
  key <- os_getenv ;;
  match key with
  | None | Some EmptyString =>
      raise (ValueError "ENCRYPTION_KEY environment variable not set")
  | Some k => ret (str_encode k)
  end.

Definition encrypt_data (data : pystr) : M bytes :=
  key <- load_key ;;
  fernet <- Fernet key ;;
  encrypted <- Fernet_encrypt fernet (str_encode data) ;;
  ret encrypted.

Definition decrypt_data (encrypted_data : bytes) : M pystr :=
  key <- load_key ;;
  fernet <- Fernet key ;;
  raw <- Fernet_decrypt fernet encrypted_data ;;
  decrypted <- lift_opt (bytes_decode raw) UnicodeDecodeError ;;
  ret decrypted.

Definition secure_file_creation (filepath : pystr) : M unit :=
  e <- os_path_exists filepath ;;
  if negb e then
    os_umask 127 ;;
    open_wb filepath ;;
    enc <- encrypt_data (json_dumps (PList [])) ;;
    file_write filepath enc ;;
    logging INFO ("File created with secure permissions: " +:+ filepath)
  else ret tt.

(** The path [os.path.join(BACKUP_FOLDER, f"tasks_{timestamp}.json")]. *)
Definition backup_path (timestamp : pystr) : pystr :=
  BACKUP_FOLDER +:+ "tasks_" +:+ timestamp +:+ ".json".

Definition create_backup : M unit :=
  e <- os_path_exists BACKUP_FOLDER ;;
  (if negb e then os_makedirs BACKUP_FOLDER else ret tt) ;;
  timestamp <- datetime_now_strftime ;;
  let backup_file := backup_path timestamp in
  shutil_copy FILE backup_file ;;
  logging INFO ("Backup created: " +:+ backup_file).

Definition calculate_hash (data : pystr) : pystr :=
  sha256_hexdigest (str_encode data).

(** [open(HASH_FILE, 'w')] and [hash_file.write(hash_value)]: the text
    replaces what the integrity file held; the write is recorded with the
    bytes of the text, one per character. *)
Definition save_hash (hash_value : pystr) : M unit :=
  fun w => (Ok tt,
            set_writes (writes w ++
                        [(HASH_FILE, String.list_byte_of_string hash_value)])
              (set_hash_file (Some hash_value) w)).

Definition verify_integrity (data : pystr) : M bool :=
  fun w =>
    match hash_file w with
    | None =>
        (logging WARNING "Hash file not found. Integrity check skipped." ;;
         ret true) w
    | Some stored_hash =>
        let calculated_hash := calculate_hash data in
        if String.eqb stored_hash calculated_hash then
          (logging INFO "Data integrity verified." ;; ret true) w
        else
          (logging ERROR
             "Data integrity check failed! Possible tampering detected." ;;
           ret false) w
    end.

Definition load_tasks : M pyval :=
  secure_file_creation FILE ;;
  encrypted_data <- read_rb FILE ;;
  match encrypted_data with
  | [] => ret (PList [])
  | _ =>
      decrypted_data <- decrypt_data encrypted_data ;;
      ok <- verify_integrity decrypted_data ;;
      if ok then lift_opt (json_loads decrypted_data) JSONDecodeError
      else
        logging ERROR
          "Data integrity verification failed. Returning empty task list." ;;
        ret (PList [])
  end.

Definition save_tasks (tasks : pyval) : M unit :=
  create_backup ;;
  let data := json_dumps tasks in
  encrypted_data <- encrypt_data data ;;
  open_wb FILE ;;
  file_write FILE encrypted_data ;;
  let hash_value := calculate_hash data in
  save_hash hash_value ;;
  logging INFO
    "Tasks successfully saved, encrypted, and integrity hash updated.".

(** The task [add_task] builds. *)
Definition new_task (id : Z) (title description : pystr) : pyval :=
  PDict [("id", PInt id); ("title", PStr title);
         ("description", PStr description); ("status", PStr "not done")].

Definition add_task : M unit :=
  raw_title <- input "Enter task title: " ;;
  let title := strip raw_title in
  if str_empty title then
    logging ERROR "Task title cannot be empty" ;;
    print "Error: Task title cannot be empty."
  else
    raw_description <- input "Enter task description: " ;;
    let description := strip raw_description in
    if str_empty description then
      logging ERROR "Task description cannot be empty" ;;
      print "Error: Task description cannot be empty."
    else
      tasks <- load_tasks ;;
      n <- py_len tasks ;;
      let task := new_task (n + 1) title description in
      tasks' <- py_append tasks task ;;
      save_tasks tasks' ;;
      logging INFO ("Task '" +:+ title +:+ "' added with ID "
                    +:+ str_of_int (n + 1)) ;;
      print ("Task '" +:+ title +:+ "' added.").

(** [any(task['id'] == task_id for task in tasks)]. *)
Fixpoint any_id_eq (items : list pyval) (task_id : Z) : M bool :=
  match items with
  | [] => ret false
  | task :: rest =>
      v <- py_getitem task "id" ;;
      if py_eq_int v task_id then ret true else any_id_eq rest task_id
  end.

(** The [while True] loop of [get_valid_task_id].  Every round reads one
    line, so the loop is defined by recursion on the lines [pending] on
    the input.  On exhausted input [input] raises [EOFError], which the
    [except ValueError] clause lets through; the [[]] branches stand past
    that point and are not reached when [pending] is the pending input. *)
Fixpoint get_valid_task_id_loop (tasks : pyval) (pending : list pystr)
  : M Z :=
  line <- input "Enter task ID: " ;;
  match py_int (strip line) with
  | None =>
      logging ERROR "Invalid input for task ID. Numeric value required." ;;
      print "Error: Please enter a valid numeric task ID." ;;
      match pending with
      | [] => raise EOFError
      | _ :: rest => get_valid_task_id_loop tasks rest
      end
  | Some task_id =>
      items <- py_iter tasks ;;
      found <- any_id_eq items task_id ;;
      if negb found then
        logging ERROR ("Task ID " +:+ str_of_int task_id +:+ " not found.") ;;
        print ("Error: Task ID " +:+ str_of_int task_id
               +:+ " does not exist.") ;;
        match pending with
        | [] => raise EOFError
        | _ :: rest => get_valid_task_id_loop tasks rest
        end
      else ret task_id
  end.

Definition get_valid_task_id : M Z :=
  tasks <- load_tasks ;;
  fun w => get_valid_task_id_loop tasks (stdin w) w.

(** The [while True] loop of [update_task_status] reading the choice. *)
Fixpoint status_choice_loop (pending : list pystr) : M pystr :=
  raw <- input "Enter your choice (1 or 2): " ;;
  let status_choice := strip raw in
  if String.eqb status_choice "1" then ret "in progress"
  else if String.eqb status_choice "2" then ret "done"
  else
    logging ERROR ("Invalid choice for task status: " +:+ status_choice) ;;
    print "Error: Invalid choice. Please enter 1 or 2." ;;
    match pending with
    | [] => raise EOFError
    | _ :: rest => status_choice_loop rest
    end.

(** The [for task in tasks] loop of [update_task_status]: [seen] are the
    items already visited, as they now are, [todo] the items to come. *)
Fixpoint update_status_loop (tasks : pyval) (task_id : Z)
    (new_status : pystr) (seen todo : list pyval) : M unit :=
  match todo with
  | [] => ret tt
  | task :: rest =>
      v <- py_getitem task "id" ;;
      if py_eq_int v task_id then
        task' <- py_setitem task "status" (PStr new_status) ;;
        save_tasks (with_items tasks (seen ++ task' :: rest)) ;;
        logging INFO ("Task ID " +:+ str_of_int task_id
                      +:+ " status updated to '" +:+ new_status +:+ "'") ;;
        print ("Task ID " +:+ str_of_int task_id
               +:+ " status updated to '" +:+ new_status +:+ "'.") ;;
        update_status_loop tasks task_id new_status (seen ++ [task']) rest
      else
        update_status_loop tasks task_id new_status (seen ++ [task]) rest
  end.

Definition update_task_status : M unit :=
  task_id <- get_valid_task_id ;;
  print ("Is the task (ID " +:+ str_of_int task_id
         +:+ ") 1. In progress 2. Done") ;;
  new_status <- (fun w => status_choice_loop (stdin w) w) ;;
  tasks <- load_tasks ;;
  items <- py_iter tasks ;;
  update_status_loop tasks task_id new_status [] items.

(** The [for task in tasks] loop of [display_tasks]. *)
Fixpoint display_loop (items : list pyval) : M unit :=
  match items with
  | [] => ret tt
  | task :: rest =>
      description <- py_get task "description"
                       (PStr "No description available") ;;
      id <- py_getitem task "id" ;;
      title <- py_getitem task "title" ;;
      status <- py_getitem task "status" ;;
      print ("ID: " +:+ py_str id +:+ ", Title: " +:+ py_str title
             +:+ ", Description: " +:+ py_str description
             +:+ ", Status: " +:+ py_str status) ;;
      display_loop rest
  end.

Definition display_tasks : M unit :=
  tasks <- load_tasks ;;
  if negb (py_truthy tasks) then
    logging INFO "No tasks available to display." ;;
    print "No tasks available."
  else
    print (nl "Existing Tasks:") ;;
    items <- py_iter tasks ;;
    display_loop items.

(** The [for task in tasks] loop of [update_task_title]. *)
Fixpoint update_title_loop (tasks : pyval) (task_id : Z)
    (new_title : pystr) (seen todo : list pyval) : M unit :=
  match todo with
  | [] => ret tt
  | task :: rest =>
      v <- py_getitem task "id" ;;
      if py_eq_int v task_id then
        task' <- py_setitem task "title" (PStr new_title) ;;
        save_tasks (with_items tasks (seen ++ task' :: rest)) ;;
        logging INFO ("Task ID " +:+ str_of_int task_id
                      +:+ " title updated to '" +:+ new_title +:+ "'") ;;
        print ("Task ID " +:+ str_of_int task_id
               +:+ " title updated to '" +:+ new_title +:+ "'.") ;;
        update_title_loop tasks task_id new_title (seen ++ [task']) rest
      else
        update_title_loop tasks task_id new_title (seen ++ [task]) rest
  end.

Definition update_task_title : M unit :=
  task_id <- get_valid_task_id ;;
  raw <- input "Enter new task title: " ;;
  let new_title := strip raw in
  if str_empty new_title then
    logging ERROR "Task title cannot be empty" ;;
    print "Error: Task title cannot be empty."
  else
    tasks <- load_tasks ;;
    items <- py_iter tasks ;;
    update_title_loop tasks task_id new_title [] items.

(** The [for task in tasks] loop of [update_task_description]. *)
Fixpoint update_description_loop (tasks : pyval) (task_id : Z)
    (new_description : pystr) (seen todo : list pyval) : M unit :=
  match todo with
  | [] => ret tt
  | task :: rest =>
      v <- py_getitem task "id" ;;
      if py_eq_int v task_id then
        task' <- py_setitem task "description" (PStr new_description) ;;
        save_tasks (with_items tasks (seen ++ task' :: rest)) ;;
        logging INFO ("Task ID " +:+ str_of_int task_id
                      +:+ " description updated") ;;
        print ("Task ID " +:+ str_of_int task_id
               +:+ " description updated.") ;;
        update_description_loop tasks task_id new_description
          (seen ++ [task']) rest
      else
        update_description_loop tasks task_id new_description
          (seen ++ [task]) rest
  end.

Definition update_task_description : M unit :=
  task_id <- get_valid_task_id ;;
  raw <- input "Enter new task description: " ;;
  let new_description := strip raw in
  if str_empty new_description then
    logging ERROR "Task description cannot be empty" ;;
    print "Error: Task description cannot be empty."
  else
    tasks <- load_tasks ;;
    items <- py_iter tasks ;;
    update_description_loop tasks task_id new_description [] items.

(** The first [rounds] rounds of the [while True] loop of [main]. *)
Fixpoint main (rounds : nat) : M unit :=
  match rounds with
  | O => ret tt
  | S rounds' =>
      display_tasks ;;
      print (nl "Choose an action:") ;;
      print "1. Add a new task" ;;
      print "2. Update task status (In progress / Done)" ;;
      print "3. Change the title of a task" ;;
      print "4. Change the description of a task" ;;
      print "5. Exit" ;;
      raw <- input (nl "Enter your choice (1-5): ") ;;
      let choice := strip raw in
      if String.eqb choice "1" then add_task ;; main rounds'
      else if String.eqb choice "2" then update_task_status ;; main rounds'
      else if String.eqb choice "3" then update_task_title ;; main rounds'
      else if String.eqb choice "4" then
        update_task_description ;; main rounds'
      else if String.eqb choice "5" then
        logging INFO "User exited the task tracker" ;;
        print "Exiting Task Tracker. Goodbye!"
      else
        logging WARNING ("Invalid choice: " +:+ choice) ;;
        print "Invalid choice. Please enter a number between 1 and 5." ;;
        main rounds'
  end.

(** The script run as a program. *)
Definition script (rounds : nat) : M unit :=
  logging INFO "Task Tracker started" ;;
  main rounds.

End Program.
End TaskManager.

(** ** [tracker_Encryption.py]: key file, rolling backup, console messages *)

Module TrackerEncryption.
Section Program.
Context `{Platform}.

Definition KEY_FILE : pystr := "encryption_key.key".
Definition FILE : pystr := "tasks.json".

Definition Fernet (key : bytes) : M bytes :=
  if fernet_key_ok key then ret key
  else raise (ValueError "Fernet key must be 32 url-safe base64-encoded bytes.").

Definition Fernet_encrypt (fernet data : bytes) : M bytes :=
  nonce <- os_urandom ;;
  ret (fernet_encrypt fernet nonce data).

Definition Fernet_decrypt (fernet token : bytes) : M bytes :=
  lift_opt (fernet_decrypt fernet token) InvalidToken.

Definition generate_key : M unit :=
  r <- os_urandom ;;
  let key := fernet_generate_key r in
  open_wb KEY_FILE ;;
  file_write KEY_FILE key ;;
  print ("Encryption key created: " +:+ KEY_FILE).

Definition load_key : M bytes :=
  e <- os_path_exists KEY_FILE ;;
  (if negb e then
     print "Encryption key not found. Generating new key..." ;;
     generate_key
   else print ("Encryption key loaded from " +:+ KEY_FILE)) ;;
  read_rb KEY_FILE.

Definition encrypt_data (data : pystr) : M bytes :=
  key <- load_key ;;
  fernet <- Fernet key ;;
  encrypted <- Fernet_encrypt fernet (str_encode data) ;;
  ret encrypted.

Definition decrypt_data (encrypted_data : bytes) : M pystr :=
  key <- load_key ;;
  fernet <- Fernet key ;;
  raw <- Fernet_decrypt fernet encrypted_data ;;
  decrypted <- lift_opt (bytes_decode raw) UnicodeDecodeError ;;
  ret decrypted.

Definition secure_file_creation (filepath : pystr) : M unit :=
  e <- os_path_exists filepath ;;
  if negb e then
    os_umask 127 ;;
    open_wb filepath ;;
    enc <- encrypt_data (json_dumps (PList [])) ;;
    file_write filepath enc
  else ret tt.

Definition backup_tasks_file : M unit :=
  e <- os_path_exists FILE ;;
  if e then
    let backup_file := FILE +:+ ".bak" in
    shutil_copy FILE backup_file ;;
    print ("Encrypted backup created: " +:+ backup_file)
  else ret tt.

Definition load_tasks : M pyval :=
  secure_file_creation FILE ;;
  encrypted_data <- read_rb FILE ;;
  match encrypted_data with
  | [] => ret (PList [])
  | _ =>
      decrypted_data <- decrypt_data encrypted_data ;;
      lift_opt (json_loads decrypted_data) JSONDecodeError
  end.

(** The file is opened, and so truncated, before the data is encrypted. *)
Definition save_tasks (tasks : pyval) : M unit :=
  backup_tasks_file ;;
  open_wb FILE ;;
  let data := json_dumps tasks in
  encrypted_data <- encrypt_data data ;;
  file_write FILE encrypted_data.

Definition new_task (id : Z) (title description : pystr) : pyval :=
  PDict [("id", PInt id); ("title", PStr title);
         ("description", PStr description); ("status", PStr "not done")].

Definition add_task : M unit :=
  raw_title <- input "Enter task title: " ;;
  let title := strip raw_title in
  if str_empty title then print "Error: Task title cannot be empty."
  else
    raw_description <- input "Enter task description: " ;;
    let description := strip raw_description in
    if str_empty description then
      print "Error: Task description cannot be empty."
    else
      tasks <- load_tasks ;;
      n <- py_len tasks ;;
      let task := new_task (n + 1) title description in
      tasks' <- py_append tasks task ;;
      save_tasks tasks' ;;
      print ("Task '" +:+ title +:+ "' added.").

Fixpoint any_id_eq (items : list pyval) (task_id : Z) : M bool :=
  match items with
  | [] => ret false
  | task :: rest =>
      v <- py_getitem task "id" ;;
      if py_eq_int v task_id then ret true else any_id_eq rest task_id
  end.

Fixpoint get_valid_task_id_loop (tasks : pyval) (pending : list pystr)
  : M Z :=
  line <- input "Enter task ID: " ;;
  match py_int (strip line) with
  | None =>
      print "Error: Please enter a valid numeric task ID." ;;
      match pending with
      | [] => raise EOFError
      | _ :: rest => get_valid_task_id_loop tasks rest
      end
  | Some task_id =>
      items <- py_iter tasks ;;
      found <- any_id_eq items task_id ;;
      if negb found then
        print ("Error: Task ID " +:+ str_of_int task_id
               +:+ " does not exist.") ;;
        match pending with
        | [] => raise EOFError
        | _ :: rest => get_valid_task_id_loop tasks rest
        end
      else ret task_id
  end.

Definition get_valid_task_id : M Z :=
  tasks <- load_tasks ;;
  fun w => get_valid_task_id_loop tasks (stdin w) w.

Fixpoint status_choice_loop (pending : list pystr) : M pystr :=
  raw <- input "Enter your choice (1 or 2): " ;;
  let status_choice := strip raw in
  if String.eqb status_choice "1" then ret "in progress"
  else if String.eqb status_choice "2" then ret "done"
  else
    print "Error: Invalid choice. Please enter 1 or 2." ;;
    match pending with
    | [] => raise EOFError
    | _ :: rest => status_choice_loop rest
    end.

Fixpoint update_status_loop (tasks : pyval) (task_id : Z)
    (new_status : pystr) (seen todo : list pyval) : M unit :=
  match todo with
  | [] => ret tt
  | task :: rest =>
      v <- py_getitem task "id" ;;
      if py_eq_int v task_id then
        task' <- py_setitem task "status" (PStr new_status) ;;
        save_tasks (with_items tasks (seen ++ task' :: rest)) ;;
        print ("Task ID " +:+ str_of_int task_id
               +:+ " status updated to '" +:+ new_status +:+ "'.") ;;
        update_status_loop tasks task_id new_status (seen ++ [task']) rest
      else
        update_status_loop tasks task_id new_status (seen ++ [task]) rest
  end.

Definition update_task_status : M unit :=
  task_id <- get_valid_task_id ;;
  print ("Is the task (ID " +:+ str_of_int task_id
         +:+ ") 1. In progress 2. Done") ;;
  new_status <- (fun w => status_choice_loop (stdin w) w) ;;
  tasks <- load_tasks ;;
  items <- py_iter tasks ;;
  update_status_loop tasks task_id new_status [] items.

Fixpoint display_loop (items : list pyval) : M unit :=
  match items with
  | [] => ret tt
  | task :: rest =>
      description <- py_get task "description"
                       (PStr "No description available") ;;
      id <- py_getitem task "id" ;;
      title <- py_getitem task "title" ;;
      status <- py_getitem task "status" ;;
      print ("ID: " +:+ py_str id +:+ ", Title: " +:+ py_str title
             +:+ ", Description: " +:+ py_str description
             +:+ ", Status: " +:+ py_str status) ;;
      display_loop rest
  end.

Definition display_tasks : M unit :=
  tasks <- load_tasks ;;
  if negb (py_truthy tasks) then print "No tasks available."
  else
    print (nl "Existing Tasks:") ;;
    items <- py_iter tasks ;;
    display_loop items.

Fixpoint update_title_loop (tasks : pyval) (task_id : Z)
    (new_title : pystr) (seen todo : list pyval) : M unit :=
  match todo with
  | [] => ret tt
  | task :: rest =>
      v <- py_getitem task "id" ;;
      if py_eq_int v task_id then
        task' <- py_setitem task "title" (PStr new_title) ;;
        save_tasks (with_items tasks (seen ++ task' :: rest)) ;;
        print ("Task ID " +:+ str_of_int task_id
               +:+ " title updated to '" +:+ new_title +:+ "'.") ;;
        update_title_loop tasks task_id new_title (seen ++ [task']) rest
      else
        update_title_loop tasks task_id new_title (seen ++ [task]) rest
  end.

Definition update_task_title : M unit :=
  task_id <- get_valid_task_id ;;
  raw <- input "Enter new task title: " ;;
  let new_title := strip raw in
  if str_empty new_title then print "Error: Task title cannot be empty."
  else
    tasks <- load_tasks ;;
    items <- py_iter tasks ;;
    update_title_loop tasks task_id new_title [] items.

Fixpoint update_description_loop (tasks : pyval) (task_id : Z)
    (new_description : pystr) (seen todo : list pyval) : M unit :=
  match todo with
  | [] => ret tt
  | task :: rest =>
      v <- py_getitem task "id" ;;
      if py_eq_int v task_id then
        task' <- py_setitem task "description" (PStr new_description) ;;
        save_tasks (with_items tasks (seen ++ task' :: rest)) ;;
        print ("Task ID " +:+ str_of_int task_id
               +:+ " description updated.") ;;
        update_description_loop tasks task_id new_description
          (seen ++ [task']) rest
      else
        update_description_loop tasks task_id new_description
          (seen ++ [task]) rest
  end.

Definition update_task_description : M unit :=
  task_id <- get_valid_task_id ;;
  raw <- input "Enter new task description: " ;;
  let new_description := strip raw in
  if str_empty new_description then
    print "Error: Task description cannot be empty."
  else
    tasks <- load_tasks ;;
    items <- py_iter tasks ;;
    update_description_loop tasks task_id new_description [] items.

(** The first [rounds] rounds of the [while True] loop of [main]. *)
Fixpoint main (rounds : nat) : M unit :=
  match rounds with
  | O => ret tt
  | S rounds' =>
      display_tasks ;;
      print (nl "Choose an action:") ;;
      print "1. Add a new task" ;;
      print "2. Update task status (In progress / Done)" ;;
      print "3. Change the title of a task" ;;
      print "4. Change the description of a task" ;;
      print "5. Exit" ;;
      raw <- input (nl "Enter your choice (1-5): ") ;;
      let choice := strip raw in
      if String.eqb choice "1" then add_task ;; main rounds'
      else if String.eqb choice "2" then update_task_status ;; main rounds'
      else if String.eqb choice "3" then update_task_title ;; main rounds'
      else if String.eqb choice "4" then
        update_task_description ;; main rounds'
      else if String.eqb choice "5" then
        print "Exiting Task Tracker. Goodbye!"
      else
        print "Invalid choice. Please enter a number between 1 and 5." ;;
        main rounds'
  end.

End Program.
End TrackerEncryption.

(** ** [tracker_Log.py]: the storage functions of the logging variant *)

Module TrackerLog.
Section Program.
Context `{Platform}.

Definition KEY_FILE : pystr := "encryption_key.key".
Definition FILE : pystr := "tasks.json".

Definition Fernet (key : bytes) : M bytes :=
  if fernet_key_ok key then ret key
  else raise (ValueError "Fernet key must be 32 url-safe base64-encoded bytes.").

Definition Fernet_encrypt (fernet data : bytes) : M bytes :=
  nonce <- os_urandom ;;
  ret (fernet_encrypt fernet nonce data).

Definition generate_key : M unit :=
  r <- os_urandom ;;
  let key := fernet_generate_key r in
  open_wb KEY_FILE ;;
  file_write KEY_FILE key ;;
  logging INFO ("Encryption key created: " +:+ KEY_FILE).

Definition load_key : M bytes :=
  e <- os_path_exists KEY_FILE ;;
  (if negb e then
     logging WARNING "Encryption key not found. Generating new key..." ;;
     generate_key
   else logging INFO ("Encryption key loaded from " +:+ KEY_FILE)) ;;
  read_rb KEY_FILE.

Definition encrypt_data (data : pystr) : M bytes :=
  key <- load_key ;;
  fernet <- Fernet key ;;
  encrypted <- Fernet_encrypt fernet (str_encode data) ;;
  ret encrypted.

Definition backup_tasks_file : M unit :=
  e <- os_path_exists FILE ;;
  if e then
    let backup_file := FILE +:+ ".bak" in
    shutil_copy FILE backup_file ;;
    logging INFO ("Backup created: " +:+ backup_file)
  else ret tt.

Definition save_tasks (tasks : pyval) : M unit :=
  backup_tasks_file ;;
  open_wb FILE ;;
  let data := json_dumps tasks in
  encrypted_data <- encrypt_data data ;;
  file_write FILE encrypted_data ;;
  logging INFO "Tasks successfully saved and encrypted".

Definition Fernet_decrypt (fernet token : bytes) : M bytes :=
  lift_opt (fernet_decrypt fernet token) InvalidToken.

Definition decrypt_data (encrypted_data : bytes) : M pystr :=
  key <- load_key ;;
  fernet <- Fernet key ;;
  raw <- Fernet_decrypt fernet encrypted_data ;;
  decrypted <- lift_opt (bytes_decode raw) UnicodeDecodeError ;;
  ret decrypted.

Definition secure_file_creation (filepath : pystr) : M unit :=
  e <- os_path_exists filepath ;;
  if negb e then
    os_umask 127 ;;
    open_wb filepath ;;
    enc <- encrypt_data (json_dumps (PList [])) ;;
    file_write filepath enc ;;
    logging INFO ("File created with secure permissions: " +:+ filepath)
  else ret tt.

Definition load_tasks : M pyval :=
  secure_file_creation FILE ;;
  encrypted_data <- read_rb FILE ;;
  match encrypted_data with
  | [] => ret (PList [])
  | _ =>
      decrypted_data <- decrypt_data encrypted_data ;;
      logging INFO "Tasks successfully loaded and decrypted" ;;
      lift_opt (json_loads decrypted_data) JSONDecodeError
  end.

Definition new_task (id : Z) (title description : pystr) : pyval :=
  PDict [("id", PInt id); ("title", PStr title);
         ("description", PStr description); ("status", PStr "not done")].

Definition add_task : M unit :=
  raw_title <- input "Enter task title: " ;;
  let title := strip raw_title in
  if str_empty title then
    logging ERROR "Task title cannot be empty" ;;
    print "Error: Task title cannot be empty."
  else
    raw_description <- input "Enter task description: " ;;
    let description := strip raw_description in
    if str_empty description then
      logging ERROR "Task description cannot be empty" ;;
      print "Error: Task description cannot be empty."
    else
      tasks <- load_tasks ;;
      n <- py_len tasks ;;
      let task := new_task (n + 1) title description in
      tasks' <- py_append tasks task ;;
      save_tasks tasks' ;;
      logging INFO ("Task '" +:+ title +:+ "' added with ID "
                    +:+ str_of_int (n + 1)) ;;
      print ("Task '" +:+ title +:+ "' added.").

Fixpoint display_loop (items : list pyval) : M unit :=
  match items with
  | [] => ret tt
  | task :: rest =>
      description <- py_get task "description"
                       (PStr "No description available") ;;
      id <- py_getitem task "id" ;;
      title <- py_getitem task "title" ;;
      status <- py_getitem task "status" ;;
      print ("ID: " +:+ py_str id +:+ ", Title: " +:+ py_str title
             +:+ ", Description: " +:+ py_str description
             +:+ ", Status: " +:+ py_str status) ;;
      display_loop rest
  end.

Definition display_tasks : M unit :=
  tasks <- load_tasks ;;
  if negb (py_truthy tasks) then
    logging INFO "No tasks available to display." ;;
    print "No tasks available."
  else
    print (nl "Existing Tasks:") ;;
    items <- py_iter tasks ;;
    display_loop items.

Fixpoint any_id_eq (items : list pyval) (task_id : Z) : M bool :=
  match items with
  | [] => ret false
  | task :: rest =>
      v <- py_getitem task "id" ;;
      if py_eq_int v task_id then ret true else any_id_eq rest task_id
  end.

Fixpoint get_valid_task_id_loop (tasks : pyval) (pending : list pystr)
  : M Z :=
  line <- input "Enter task ID: " ;;
  match py_int (strip line) with
  | None =>
      logging ERROR "Invalid input for task ID. Numeric value required." ;;
      print "Error: Please enter a valid numeric task ID." ;;
      match pending with
      | [] => raise EOFError
      | _ :: rest => get_valid_task_id_loop tasks rest
      end
  | Some task_id =>
      items <- py_iter tasks ;;
      found <- any_id_eq items task_id ;;
      if negb found then
        logging ERROR ("Task ID " +:+ str_of_int task_id +:+ " not found.") ;;
        print ("Error: Task ID " +:+ str_of_int task_id
               +:+ " does not exist.") ;;
        match pending with
        | [] => raise EOFError
        | _ :: rest => get_valid_task_id_loop tasks rest
        end
      else ret task_id
  end.

Definition get_valid_task_id : M Z :=
  tasks <- load_tasks ;;
  fun w => get_valid_task_id_loop tasks (stdin w) w.

Fixpoint status_choice_loop (pending : list pystr) : M pystr :=
  raw <- input "Enter your choice (1 or 2): " ;;
  let status_choice := strip raw in
  if String.eqb status_choice "1" then ret "in progress"
  else if String.eqb status_choice "2" then ret "done"
  else
    logging ERROR ("Invalid choice for task status: " +:+ status_choice) ;;
    print "Error: Invalid choice. Please enter 1 or 2." ;;
    match pending with
    | [] => raise EOFError
    | _ :: rest => status_choice_loop rest
    end.

Fixpoint update_status_loop (tasks : pyval) (task_id : Z)
    (new_status : pystr) (seen todo : list pyval) : M unit :=
  match todo with
  | [] => ret tt
  | task :: rest =>
      v <- py_getitem task "id" ;;
      if py_eq_int v task_id then
        task' <- py_setitem task "status" (PStr new_status) ;;
        save_tasks (with_items tasks (seen ++ task' :: rest)) ;;
        logging INFO ("Task ID " +:+ str_of_int task_id
                      +:+ " status updated to '" +:+ new_status +:+ "'") ;;
        print ("Task ID " +:+ str_of_int task_id
               +:+ " status updated to '" +:+ new_status +:+ "'.") ;;
        update_status_loop tasks task_id new_status (seen ++ [task']) rest
      else
        update_status_loop tasks task_id new_status (seen ++ [task]) rest
  end.

Definition update_task_status : M unit :=
  task_id <- get_valid_task_id ;;
  print ("Is the task (ID " +:+ str_of_int task_id
         +:+ ") 1. In progress 2. Done") ;;
  new_status <- (fun w => status_choice_loop (stdin w) w) ;;
  tasks <- load_tasks ;;
  items <- py_iter tasks ;;
  update_status_loop tasks task_id new_status [] items.

End Program.
End TrackerLog.

(** ** Sequences of Saves and the backup artifacts *)

(** [f(x)] for every [x] of [l] in turn, up to the first exception. *)
Fixpoint for_each {A} (f : A -> M unit) (l : list A) : M unit :=
  match l with
  | [] => ret tt
  | x :: r => f x ;; for_each f r
  end.

(** The snapshot files: the files under the backup folder. *)
Definition in_backup_folder (p : pystr) : bool :=
  String.prefix TaskManager.BACKUP_FOLDER p.

Definition snapshots (w : world) : gmap string (list Byte.byte) :=
  filter (fun kv => in_backup_folder (fst kv) = true) (files w).

(** The rolling backup of the key-file variants. *)
Definition BAK : pystr := TrackerEncryption.FILE +:+ ".bak".

(** A byte sequence is a store ciphertext when it is what [Fernet.encrypt]
    gives on the encoded [json.dumps] of some object. *)
Definition is_ciphertext `{Platform} (b : bytes) : Prop :=
  exists key nonce tasks,
    b = fernet_encrypt key nonce (str_encode (json_dumps tasks)).

(** What a computation adds to the record of writes. *)
Definition writes_only_ciphertext `{Platform} {A} (path : pystr) (c : M A)
  : Prop :=
  forall w r w', c w = (r, w') ->
    exists new, writes w' = writes w ++ new /\
      Forall (fun pb => fst pb = path -> is_ciphertext (snd pb)) new.

(** ** Tasks and their ids *)

(** The item is a [dict] with an ["id"]. *)
Definition has_id (t : pyval) : Prop :=
  match t with
  | PDict d => is_Some (dict_get "id" d)
  | _ => False
  end.

(** The test [task['id'] == task_id] of the loops. *)
Definition id_matches (task_id : Z) (t : pyval) : bool :=
  match t with
  | PDict d =>
      match dict_get "id" d with
      | Some v => py_eq_int v task_id
      | None => false
      end
  | _ => false
  end.

(** The item as [update_task_status] leaves it. *)
Definition mark_status (task_id : Z) (new_status : pystr) (t : pyval)
  : pyval :=
  match t with
  | PDict d =>
      if id_matches task_id t
      then PDict (dict_set "status" (PStr new_status) d)
      else t
  | _ => t
  end.

(** The list [l'] is the list [l] but for the status of the items whose
    id matches: same length, and item by item the same keys in the same
    order with the same values, the status of the matching items apart,
    which is [new_status]. *)
Definition only_status_changed (task_id : Z) (new_status : pystr)
    (l l' : list pyval) : Prop :=
  length l' = length l
  /\ forall (i : nat) (d : list (pystr * pyval)),
       l !! i = Some (PDict d) ->
       exists d',
         l' !! i = Some (PDict d')
         /\ (forall k, k <> "status" -> dict_get k d' = dict_get k d)
         /\ (id_matches task_id (PDict d) = false -> d' = d)
         /\ (id_matches task_id (PDict d) = true ->
             dict_get "status" d' = Some (PStr new_status))
         /\ (is_Some (dict_get "status" d) -> map fst d' = map fst d).

(** The world when [add_task] has read its two answers. *)
Definition after_answers (rest : list pystr) (w : world) : world :=
  set_stdin rest
    (set_stdout (stdout w ++ ["Enter task title: ";
                              "Enter task description: "]) w).

(** A computation that writes no file. *)
Definition silent {A} (c : M A) : Prop :=
  forall w r w', c w = (r, w') -> writes w' = writes w.

(** A property of every value a computation returns. *)
Definition yields {A} (Q : A -> Prop) (c : M A) : Prop :=
  forall w a w', c w = (Ok a, w') -> Q a.

(** ** Answers to the id prompt *)

(** The line is turned down by [get_valid_task_id] on the items [l]: it
    is no number, or the number of no item. *)
Definition line_rejected `{Platform} (l : list pyval) (line : pystr) : bool :=
  match py_int (strip line) with
  | None => true
  | Some n => negb (existsb (id_matches n) l)
  end.

(** The item as an update of the field [key] leaves it. *)
Definition mark_key (key : pystr) (task_id : Z) (v : pystr) (t : pyval)
  : pyval :=
  match t with
  | PDict d =>
      if id_matches task_id t then PDict (dict_set key (PStr v) d) else t
  | _ => t
  end.

(** The list [l'] is the list [l] but for the field [key] of the items
    whose id matches, which is [v]. *)
Definition only_key_changed (key : pystr) (task_id : Z) (v : pystr)
    (l l' : list pyval) : Prop :=
  length l' = length l
  /\ forall (i : nat) (d : list (pystr * pyval)),
       l !! i = Some (PDict d) ->
       exists d',
         l' !! i = Some (PDict d')
         /\ (forall k, k <> key -> dict_get k d' = dict_get k d)
         /\ (id_matches task_id (PDict d) = false -> d' = d)
         /\ (id_matches task_id (PDict d) = true ->
             dict_get key d' = Some (PStr v))
         /\ (is_Some (dict_get key d) -> map fst d' = map fst d).

(** ** Where a computation writes *)

(** Every [file.write] and [shutil.copy] of the computation, the write
    to the integrity file included, goes to a path that is [allowed]. *)
Definition writes_within {A} (allowed : pystr -> Prop) (c : M A) : Prop :=
  forall w r w', c w = (r, w') ->
    exists new, writes w' = writes w ++ new /\
      Forall (fun pb => allowed (fst pb)) new.

(** The files of [TaskManager.py]: the store, the integrity file and the
    snapshots under the backup folder. *)
Definition store_digest_or_snapshot (p : pystr) : Prop :=
  p = TaskManager.FILE \/ p = TaskManager.HASH_FILE
  \/ in_backup_folder p = true.

(** ** Taking snapshots *)

(** The mode of the backup folder as the next snapshot finds it: the mode
    of the folder when it is there, and the mode [os.makedirs] gives it
    under the umask of the process when it is not. *)
Definition backup_folder_mode (w : world) : Z :=
  if bool_decide (TaskManager.BACKUP_FOLDER ∈ dirs w)
  then dir_mode w TaskManager.BACKUP_FOLDER
  else new_dir_mode (umask w).

(** The process can take snapshots: no file stands in the place of the
    backup folder, and the process is exempt from permission checks or
    the owner may search and write the folder. *)
Definition can_snapshot (w : world) : bool :=
  match files w !! TaskManager.BACKUP_FOLDER with
  | Some _ => false
  | None =>
      superuser w
      || (owner_x (backup_folder_mode w) && owner_w (backup_folder_mode w))
  end.

(** The process cannot: it is subject to permission checks and the owner
    may not search the backup folder. *)
Definition snapshot_denied (w : world) : bool :=
  match files w !! TaskManager.BACKUP_FOLDER with
  | Some _ => false
  | None => negb (superuser w) && negb (owner_x (backup_folder_mode w))
  end.

(** ** Comparing two variants *)

(** Two worlds with the same disk, umask, randomness to come and pending
    input, in processes with the same privileges. *)
Definition disk_eq (w1 w2 : world) : Prop :=
  files w1 = files w2 /\ dirs w1 = dirs w2
  /\ urandom w1 = urandom w2 /\ umask w1 = umask w2
  /\ stdin w1 = stdin w2
  /\ dir_mode w1 = dir_mode w2 /\ superuser w1 = superuser w2.

(** Two computations that, from worlds with the same disk and input, give
    the same outcome and leave the same disk and input. *)
Definition same_storage {A} (c1 c2 : M A) : Prop :=
  forall w1 w2, disk_eq w1 w2 ->
    fst (c1 w1) = fst (c2 w2) /\ disk_eq (snd (c1 w1)) (snd (c2 w2)).

(** ** Further contracts of the libraries *)

(** A token of a valid key is never empty. *)
Definition token_nonempty `{Platform} : Prop :=
  forall key nonce data,
    fernet_key_ok key = true -> fernet_encrypt key nonce data <> [].

(** [Fernet.generate_key()] gives a key [Fernet] accepts. *)
Definition generated_key_ok `{Platform} : Prop :=
  forall r, fernet_key_ok (fernet_generate_key r) = true.

(** ** A reference platform

    A small instance of the library interface on which the model runs:
    a token is the key followed by the data, the digest and the codec are
    the bytes themselves, and documents are printed structurally. *)
Module Reference.

Fixpoint strip_prefix (k tok : list Byte.byte) : option (list Byte.byte) :=
  match k, tok with
  | [], _ => Some tok
  | a :: k', b :: tok' => if Byte.eqb a b then strip_prefix k' tok' else None
  | _ :: _, [] => None
  end.

Definition key_ok (k : list Byte.byte) : bool :=
  match k with [] => false | _ => true end.

Fixpoint dumps (v : pyval) : string :=
  match v with
  | PNone => "null"
  | PBool true => "true"
  | PBool false => "false"
  | PInt n => str_of_int n
  | PStr s => "'" +:+ s +:+ "'"
  | PList l =>
      "[" +:+ (fix items (l : list pyval) : string :=
                 match l with
                 | [] => ""
                 | x :: r => dumps x +:+ ";" +:+ items r
                 end) l +:+ "]"
  | PDict d =>
      "{" +:+ (fix items (d : list (string * pyval)) : string :=
                 match d with
                 | [] => ""
                 | (k, x) :: r => k +:+ ":" +:+ dumps x +:+ ";" +:+ items r
                 end) d +:+ "}"
  end.

(** The collection of the examples: one task. *)
Definition sample : pyval :=
  PList [PDict [("id", PInt 1); ("title", PStr "A");
                ("description", PStr "d"); ("status", PStr "not done")]].

(** A collection of three tasks. *)
Definition three_tasks : list pyval :=
  [PDict [("id", PInt 1); ("title", PStr "A");
          ("description", PStr "d"); ("status", PStr "not done")];
   PDict [("id", PInt 2); ("title", PStr "B");
          ("description", PStr "e"); ("status", PStr "not done")];
   PDict [("id", PInt 3); ("title", PStr "C");
          ("description", PStr "f"); ("status", PStr "in progress")]].

(** Reads back the documents the examples store. *)
Definition loads (s : string) : option pyval :=
  if String.eqb s (dumps (PList [])) then Some (PList [])
  else if String.eqb s (dumps sample) then Some sample
  else if String.eqb s (dumps (PList three_tasks))
       then Some (PList three_tasks)
  else None.

Definition parse_int (s : string) : option Z :=
  if String.eqb s "1" then Some 1%Z
  else if String.eqb s "2" then Some 2%Z
  else None.

Definition platform : Platform := {|
  fernet_key_ok := key_ok;
  fernet_generate_key := fun r => Byte.x6b :: r;
  fernet_encrypt := fun k _ data => k ++ data;
  fernet_decrypt := strip_prefix;
  sha256_hexdigest := String.string_of_list_byte;
  str_encode := String.list_byte_of_string;
  bytes_decode := fun b => Some (String.string_of_list_byte b);
  json_dumps := dumps;
  json_loads := loads;
  py_int := parse_int;
  py_str := dumps
|}.

(** A world with no file, the key ["k"] in the environment, a clock that
    advances one second per reading. *)
Definition tick (n : nat) : string :=
  "20240101_12000" +:+ str_of_int (Z.of_nat n).

Definition w0 : world :=
  mkWorld ∅ ∅ None (Some "k") 18 [] [] [] tick (fun _ => []) []
          (fun _ => 493%Z) false.

(** The same world without the key. *)
Definition w_unbound : world :=
  mkWorld ∅ ∅ None None 18 [] [] [] tick (fun _ => []) []
          (fun _ => 493%Z) false.

(** The world right after a first Load: the store has been created, and
    the umask of the process is the one that Load set. *)
Definition w_first_load : world :=
  snd (TaskManager.load_tasks (H := platform) w0).

(** The world at the start of a later run of the program: the store is in
    place, and the umask is the one a new process inherits. *)
Definition w_store : world := set_umask 18 w_first_load.

(** The store in place and a clock that stands still: every reading falls
    in the same second. *)
Definition w_same_second : world :=
  set_clock (fun _ => "20240101_120000") w_store.

(** The world after the sample collection has been saved. *)
Definition w_saved : world :=
  snd (TaskManager.save_tasks (H := platform) sample w_store).

(** The same, with a digest on disk that is not the digest of the store. *)
Definition w_tampered : world := set_hash_file (Some "0000") w_saved.

(** The saved world with a title and a description typed in. *)
Definition w_add : world := set_stdin ["  B "; "e"] w_saved.

(** The saved world with a blank title typed in. *)
Definition w_blank : world := set_stdin ["   "] w_saved.

(** The saved world with the id 1 and the choice 2 typed in. *)
Definition w_update : world := set_stdin ["1"; " 2"] w_saved.

(** A world of the key-file variants: key file and store in place. *)
Definition w_keyfile : world :=
  mkWorld {[ "encryption_key.key" := [Byte.x6b];
             "tasks.json" := [Byte.x6b; Byte.x5b; Byte.x5d] ]}
          ∅ None None 18 [] [] [] tick (fun _ => []) []
          (fun _ => 493%Z) false.

(** The saved world with the key binding removed. *)
Definition w_saved_unbound : world :=
  mkWorld (files w_saved) (dirs w_saved) (hash_file w_saved) None
          (umask w_saved) (log w_saved) [] [] (clock w_saved)
          (urandom w_saved) (writes w_saved) (dir_mode w_saved)
          (superuser w_saved).

(** The saved world with another key bound. *)
Definition w_saved_other_key : world :=
  mkWorld (files w_saved) (dirs w_saved) (hash_file w_saved) (Some "x")
          (umask w_saved) (log w_saved) [] [] (clock w_saved)
          (urandom w_saved) (writes w_saved) (dir_mode w_saved)
          (superuser w_saved).

(** The tampered world with a title and a description typed in. *)
Definition w_tampered_add : world := set_stdin ["B"; "e"] w_tampered.

(** The saved world with two wrong answers, then the id 1, typed in. *)
Definition w_retry : world := set_stdin ["abc"; "2"; "1"; "5"] w_saved.

(** A world of the key-file variants with a key file [Fernet] rejects. *)
Definition w_rejected_key : world :=
  mkWorld {[ "encryption_key.key" := [];
             "tasks.json" := [Byte.x6b; Byte.x5b; Byte.x5d] ]}
          ∅ None None 18 [] [] [] tick (fun _ => []) []
          (fun _ => 493%Z) false.

(** The first world with a session typed in: add a task, then exit. *)
Definition w_first_session : world := set_stdin ["1"; "A"; "d"; "5"] w0.

(** A later run with a session typed in: add a task, then exit. *)
Definition w_later_session : world :=
  set_stdin ["1"; "A"; "d"; "5"] w_store.

(** The world after the three tasks have been saved, with the id 2 and
    the choice 2 typed in, and with the id 2 and a new title. *)
Definition w_saved3 : world :=
  snd (TaskManager.save_tasks (H := platform) (PList three_tasks) w_store).
Definition w_update3 : world := set_stdin ["2"; " 2"] w_saved3.
Definition w_rename3 : world := set_stdin ["2"; " Z "] w_saved3.

(** The same world with a backup folder of mode [0o600], as a Save under
    the umask [0o177] makes it. *)
Definition w_update3_locked : world := set_dir_mode (fun _ => 384%Z) w_update3.

(** The key-file world after the sample has been saved, with a title and
    a description typed in. *)
Definition w_keyfile_saved_add : world :=
  set_stdin ["B"; "e"]
    (snd (TrackerEncryption.save_tasks (H := platform) sample w_keyfile)).

(** The key-file world after the three tasks have been saved, with the id
    2 and the choice 1 typed in. *)
Definition w_keyfile_update3 : world :=
  set_stdin ["2"; "1"]
    (snd (TrackerEncryption.save_tasks (H := platform) (PList three_tasks)
            w_keyfile)).

End Reference.

(** * Properties *)

(** ** Evaluation of monadic code in proofs *)

(** Nothing stands against writing a file in the working directory. *)
Lemma write_refused_cwd (w : world) (p : string) :
  has_slash p = false -> write_refused w p = None.
Proof.
  intros Hp. unfold write_refused.
  destruct p as [|x p]; [reflexivity|]. cbn [has_slash] in Hp.
  cbn [parent]. rewrite Hp. reflexivity.
Qed.

Lemma write_refused_bak (w : world) : write_refused w "tasks.json.bak" = None.
Proof. apply write_refused_cwd. reflexivity. Qed.

Ltac mred :=
  unfold bind, ret, raise, lift_opt, os_path_exists, os_makedirs, os_umask,
    os_getenv, open_wb, file_write, read_rb, shutil_copy,
    datetime_now_strftime, os_urandom, logging, print, input;
  cbn [negb andb orb
       files dirs hash_file environ umask log stdin stdout clock urandom writes
       dir_mode superuser
       set_files set_dirs set_hash_file set_umask set_log set_stdin set_stdout
       set_clock set_urandom set_writes set_dir_mode fst snd];
  rewrite ?write_refused_bak.

Ltac mred_in H :=
  unfold bind, ret, raise, lift_opt, os_path_exists, os_makedirs, os_umask,
    os_getenv, open_wb, file_write, read_rb, shutil_copy,
    datetime_now_strftime, os_urandom, logging, print, input in H;
  cbn [negb andb orb
       files dirs hash_file environ umask log stdin stdout clock urandom writes
       dir_mode superuser
       set_files set_dirs set_hash_file set_umask set_log set_stdin set_stdout
       set_clock set_urandom set_writes set_dir_mode fst snd] in H;
  rewrite ?write_refused_bak in H.

(** ** The reference platform meets the library contracts *)

Lemma reference_strip_prefix (k data : list Byte.byte) :
  Reference.strip_prefix k (k ++ data) = Some data.
Proof.
  induction k as [|a k IH]; simpl; [reflexivity|].
  rewrite (Byte.byte_dec_lb eq_refl). exact IH.
Qed.

Lemma reference_fernet_roundtrip : @fernet_roundtrip Reference.platform.
Proof. intros key nonce data _. apply reference_strip_prefix. Qed.

Lemma reference_codec_roundtrip : @codec_roundtrip Reference.platform.
Proof.
  intros s. simpl. f_equal. apply String.string_of_list_byte_of_string.
Qed.

(** ** Key lookup, cipher and digest of [TaskManager.py] *)

Section TaskManagerFacts.
Context `{Platform}.

Lemma load_key_bound (w : world) (K : string) :
  environ w = Some K -> K <> "" ->
  TaskManager.load_key w = (Ok (str_encode K), w).
Proof.
  intros HK Hne. unfold TaskManager.load_key, bind, os_getenv.
  rewrite HK. destruct K; [congruence|reflexivity].
Qed.

(** C6: with no [ENCRYPTION_KEY] binding, [load_key] raises the
    configuration error [ValueError] and leaves the world as it is: no
    key is generated and nothing is written. *)
Theorem load_key_unbound_raises (w : world) :
  environ w = None ->
  TaskManager.load_key w
  = (Raise (ValueError "ENCRYPTION_KEY environment variable not set"), w).
Proof.
  intros Hnone. unfold TaskManager.load_key, bind, os_getenv.
  rewrite Hnone. reflexivity.
Qed.

(** C8: when the integrity file is absent, [verify_integrity] returns
    [True] for every plaintext, after a warning. *)
Theorem verify_integrity_no_digest (w : world) (P : string) :
  hash_file w = None ->
  TaskManager.verify_integrity P w
  = (Ok true,
     set_log (log w ++ [(WARNING,
                         "Hash file not found. Integrity check skipped.")]) w).
Proof.
  intros Hnone. unfold TaskManager.verify_integrity. rewrite Hnone.
  reflexivity.
Qed.

(** C7: once [save_hash] has stored the digest of [P], [verify_integrity]
    returns [True] on [P], and [False] on every [P'] whose digest differs
    from the stored one. *)
Theorem verify_integrity_after_save_hash (w : world) (P P' : string) :
  fst ((TaskManager.save_hash (TaskManager.calculate_hash P) ;;
        TaskManager.verify_integrity P) w) = Ok true
  /\ (TaskManager.calculate_hash P' <> TaskManager.calculate_hash P ->
      fst ((TaskManager.save_hash (TaskManager.calculate_hash P) ;;
            TaskManager.verify_integrity P') w) = Ok false).
Proof.
  split.
  - unfold bind, TaskManager.save_hash, TaskManager.verify_integrity.
    simpl. rewrite String.eqb_refl. reflexivity.
  - intros Hneq.
    unfold bind, TaskManager.save_hash, TaskManager.verify_integrity.
    simpl.
    destruct (String.eqb_spec (TaskManager.calculate_hash P)
                (TaskManager.calculate_hash P')) as [Heq|_].
    + congruence.
    + reflexivity.
Qed.

Lemma decrypt_data_ok (w : world) (K : string) (enc raw : list Byte.byte)
    (P : string) :
  environ w = Some K -> K <> "" ->
  fernet_key_ok (str_encode K) = true ->
  fernet_decrypt (str_encode K) enc = Some raw ->
  bytes_decode raw = Some P ->
  TaskManager.decrypt_data enc w = (Ok P, w).
Proof.
  intros HK Hne Hok Hdec Hraw.
  unfold TaskManager.decrypt_data, bind.
  rewrite (load_key_bound w K HK Hne).
  unfold TaskManager.Fernet. rewrite Hok. unfold ret.
  unfold TaskManager.Fernet_decrypt. rewrite Hdec. simpl.
  rewrite Hraw. reflexivity.
Qed.

Lemma encrypt_data_ok (w : world) (K data : string) :
  environ w = Some K -> K <> "" ->
  fernet_key_ok (str_encode K) = true ->
  TaskManager.encrypt_data data w
  = (Ok (fernet_encrypt (str_encode K) (urandom w 0%nat) (str_encode data)),
     set_urandom (fun n => urandom w (S n)) w).
Proof.
  intros HK Hne Hok.
  unfold TaskManager.encrypt_data, bind.
  rewrite (load_key_bound w K HK Hne).
  unfold TaskManager.Fernet. rewrite Hok. reflexivity.
Qed.

(** C4: under a valid key [K] bound in the environment, decrypting what
    [encrypt_data] made of the serialized collection gives the serialized
    collection back. *)
Theorem decrypt_encrypt_roundtrip (w : world) (K : string) (C : pyval) :
  fernet_roundtrip -> codec_roundtrip ->
  environ w = Some K -> K <> "" ->
  fernet_key_ok (str_encode K) = true ->
  fst ((enc <- TaskManager.encrypt_data (json_dumps C) ;;
        TaskManager.decrypt_data enc) w)
  = Ok (json_dumps C).
Proof.
  intros Hfernet Hcodec HK Hne Hok.
  unfold bind at 1. rewrite (encrypt_data_ok w K _ HK Hne Hok).
  erewrite decrypt_data_ok; [reflexivity|exact HK|exact Hne|exact Hok| |].
  - apply Hfernet. exact Hok.
  - apply Hcodec.
Qed.

(** C1: when the store is in place, holds a token that decrypts to [P],
    and the stored digest [D] is not the digest of [P], [load_tasks]
    returns the empty list, not the decrypted data, and does not raise;
    the world is as before but for the two error records in the log. *)
Theorem load_tasks_integrity_mismatch (w w1 : world) (K : string)
    (enc raw : list Byte.byte) (P D : string) :
  TaskManager.secure_file_creation TaskManager.FILE w = (Ok tt, w1) ->
  files w1 !! TaskManager.FILE = Some enc -> enc <> [] ->
  environ w1 = Some K -> K <> "" ->
  fernet_key_ok (str_encode K) = true ->
  fernet_decrypt (str_encode K) enc = Some raw ->
  bytes_decode raw = Some P ->
  hash_file w1 = Some D ->
  D <> TaskManager.calculate_hash P ->
  TaskManager.load_tasks w
  = (Ok (PList []),
     set_log (log w1 ++
       [(ERROR, "Data integrity check failed! Possible tampering detected.");
        (ERROR, "Data integrity verification failed. Returning empty task list.")])
       w1).
Proof.
  intros Hcreate Hfile Hne HK HKne Hok Hdec Hraw HD Hneq.
  unfold TaskManager.load_tasks. unfold bind at 1. rewrite Hcreate.
  unfold bind at 1. unfold read_rb. rewrite Hfile.
  destruct enc as [|b enc']; [congruence|].
  unfold bind at 1.
  rewrite (decrypt_data_ok w1 K _ raw P HK HKne Hok Hdec Hraw).
  unfold bind at 1. unfold TaskManager.verify_integrity. rewrite HD.
  destruct (String.eqb_spec D (TaskManager.calculate_hash P)) as [Heq|_];
    [congruence|].
  unfold bind, logging, ret, set_log. simpl.
  rewrite <- app_assoc. reflexivity.
Qed.

End TaskManagerFacts.

(** ** One Save of [TaskManager.py] *)

Section TaskManagerSave.
Context `{Platform}.

Lemma backup_path_not_FILE (ts : string) :
  TaskManager.backup_path ts <> TaskManager.FILE.
Proof. discriminate. Qed.

Lemma str_length_app (a b : string) :
  String.length (a +:+ b) = (String.length a + String.length b)%nat.
Proof. induction a as [|x a IH]; simpl; [reflexivity|]. rewrite IH. reflexivity. Qed.

Lemma str_app_inj_r (t a b : string) : a +:+ t = b +:+ t -> a = b.
Proof.
  revert b. induction a as [|x a IH]; intros [|y b] E; simpl in E.
  - reflexivity.
  - apply (f_equal String.length) in E.
    rewrite ?str_length_app in E. simpl in E.
    rewrite ?str_length_app in E. lia.
  - apply (f_equal String.length) in E.
    rewrite ?str_length_app in E. simpl in E.
    rewrite ?str_length_app in E. lia.
  - injection E as -> E. f_equal. apply IH. exact E.
Qed.

Lemma backup_path_inj (ts ts' : string) :
  TaskManager.backup_path ts = TaskManager.backup_path ts' -> ts = ts'.
Proof.
  unfold TaskManager.backup_path. intros E.
  apply (inj (String.app TaskManager.BACKUP_FOLDER)) in E.
  apply (inj (String.app "tasks_")) in E.
  apply str_app_inj_r in E. exact E.
Qed.

(** *** Paths and permissions *)

Lemma has_slash_app (a b : string) :
  has_slash (a +:+ b) = has_slash a || has_slash b.
Proof.
  induction a as [|x a IH]; simpl; [reflexivity|].
  rewrite IH. apply orb_assoc.
Qed.

Lemma parent_no_slash (s : string) : has_slash s = false -> parent s = "".
Proof.
  destruct s as [|x s]; [reflexivity|]. cbn [has_slash parent].
  intros ->. reflexivity.
Qed.

Lemma parent_in_dir (d s : string) :
  has_slash s = false -> parent (d +:+ String "/" s) = d +:+ "/".
Proof.
  intros Hs. induction d as [|x d IH].
  - simpl. rewrite (parent_no_slash s Hs). reflexivity.
  - simpl. rewrite has_slash_app. simpl. rewrite !orb_true_r.
    rewrite IH. reflexivity.
Qed.

Lemma parent_backup_path (ts : string) :
  has_slash ts = false ->
  parent (TaskManager.backup_path ts) = TaskManager.BACKUP_FOLDER.
Proof.
  intros Hts.
  change (TaskManager.backup_path ts)
    with ("backups" +:+ String "/" ("tasks_" +:+ (ts +:+ ".json"))).
  rewrite parent_in_dir; [reflexivity|].
  rewrite !has_slash_app, Hts. reflexivity.
Qed.

Lemma backup_path_not_folder (ts : string) :
  TaskManager.backup_path ts <> TaskManager.BACKUP_FOLDER.
Proof. unfold TaskManager.backup_path. cbn. discriminate. Qed.

(** A snapshot may be written into a backup folder that is there and that
    the owner may search and write. *)
Lemma write_refused_snapshot (w : world) (ts : string) :
  has_slash ts = false ->
  TaskManager.BACKUP_FOLDER ∈ dirs w ->
  superuser w
  || (owner_x (dir_mode w TaskManager.BACKUP_FOLDER)
      && owner_w (dir_mode w TaskManager.BACKUP_FOLDER)) = true ->
  write_refused w (TaskManager.backup_path ts) = None.
Proof.
  intros Hts Hin Hperm. unfold write_refused.
  rewrite (parent_backup_path ts Hts).
  change TaskManager.BACKUP_FOLDER with "backups/" in *. cbv iota.
  rewrite (bool_decide_eq_true_2 _ Hin). cbn [negb].
  destruct (superuser w); [reflexivity|]. cbn [orb] in Hperm.
  apply andb_true_iff in Hperm as (-> & ->). reflexivity.
Qed.

(** It is refused to a process subject to permission checks when the
    owner may not search the folder. *)
Lemma write_refused_snapshot_denied (w : world) (ts : string) :
  has_slash ts = false ->
  TaskManager.BACKUP_FOLDER ∈ dirs w ->
  superuser w = false ->
  owner_x (dir_mode w TaskManager.BACKUP_FOLDER) = false ->
  write_refused w (TaskManager.backup_path ts)
  = Some (PermissionError (TaskManager.backup_path ts)).
Proof.
  intros Hts Hin Hsu Hx. unfold write_refused.
  rewrite (parent_backup_path ts Hts).
  change TaskManager.BACKUP_FOLDER with "backups/" in *. cbv iota.
  rewrite (bool_decide_eq_true_2 _ Hin), Hsu, Hx. reflexivity.
Qed.

Lemma can_snapshot_ext (w w' : world) :
  files w' !! TaskManager.BACKUP_FOLDER = files w !! TaskManager.BACKUP_FOLDER ->
  dirs w' = dirs w ->
  dir_mode w' = dir_mode w ->
  umask w' = umask w -> superuser w' = superuser w ->
  can_snapshot w' = can_snapshot w /\ snapshot_denied w' = snapshot_denied w.
Proof.
  intros Hf Hd Hm Hu Hs. unfold can_snapshot, snapshot_denied,
    backup_folder_mode.
  rewrite Hf, Hd, Hm, Hu, Hs. auto.
Qed.

(** [create_backup] in a process that can take snapshots: the store is
    copied under the timestamp read, and the process can take the next
    snapshot too. *)
Lemma tm_create_backup_ok (w : world) (c : list Byte.byte) :
  files w !! TaskManager.FILE = Some c ->
  can_snapshot w = true ->
  has_slash (clock w 0%nat) = false ->
  exists w',
    TaskManager.create_backup w = (Ok tt, w')
    /\ files w' = <[TaskManager.backup_path (clock w 0%nat) := c]> (files w)
    /\ environ w' = environ w /\ clock w' = (fun n => clock w (S n))
    /\ urandom w' = urandom w /\ stdin w' = stdin w
    /\ hash_file w' = hash_file w
    /\ writes w' = writes w ++ [(TaskManager.backup_path (clock w 0%nat), c)]
    /\ umask w' = umask w /\ superuser w' = superuser w
    /\ TaskManager.BACKUP_FOLDER ∈ dirs w'
    /\ dir_mode w' TaskManager.BACKUP_FOLDER = backup_folder_mode w
    /\ can_snapshot w' = true.
Proof.
  intros Hc Hcan Hts.
  unfold can_snapshot in Hcan.
  destruct (files w !! TaskManager.BACKUP_FOLDER) as [?|] eqn:Hnf;
    [discriminate|].
  assert (Hstep : forall w1 : world,
    files w1 = files w -> environ w1 = environ w -> clock w1 = clock w ->
    urandom w1 = urandom w -> stdin w1 = stdin w ->
    hash_file w1 = hash_file w -> writes w1 = writes w ->
    umask w1 = umask w -> superuser w1 = superuser w ->
    TaskManager.BACKUP_FOLDER ∈ dirs w1 ->
    dir_mode w1 TaskManager.BACKUP_FOLDER = backup_folder_mode w ->
    exists w',
      (timestamp <- datetime_now_strftime ;;
       shutil_copy TaskManager.FILE (TaskManager.backup_path timestamp) ;;
       logging INFO ("Backup created: " +:+ TaskManager.backup_path timestamp))
        w1 = (Ok tt, w')
      /\ files w' = <[TaskManager.backup_path (clock w 0%nat) := c]> (files w)
      /\ environ w' = environ w /\ clock w' = (fun n => clock w (S n))
      /\ urandom w' = urandom w /\ stdin w' = stdin w
      /\ hash_file w' = hash_file w
      /\ writes w'
         = writes w ++ [(TaskManager.backup_path (clock w 0%nat), c)]
      /\ umask w' = umask w /\ superuser w' = superuser w
      /\ TaskManager.BACKUP_FOLDER ∈ dirs w'
      /\ dir_mode w' TaskManager.BACKUP_FOLDER = backup_folder_mode w
      /\ can_snapshot w' = true).
  { intros w1 Hf He Hcl Hu Hs Hh Hw Hum Hsu Hin Hmode.
    unfold bind at 1. unfold datetime_now_strftime at 1.
    unfold bind at 1. unfold shutil_copy at 1.
    cbn [files set_clock]. rewrite Hf, Hc.
    rewrite write_refused_snapshot;
      [|rewrite Hcl; exact Hts|exact Hin
       |cbn [superuser dir_mode set_clock]; rewrite Hsu, Hmode; exact Hcan].
    mred. eexists. split; [reflexivity|]. mred.
    rewrite ?Hf, ?Hcl, ?Hw. repeat split; try assumption.
    unfold can_snapshot, backup_folder_mode. mred.
    rewrite lookup_insert_ne by apply backup_path_not_folder.
    rewrite ?Hf, Hnf, (bool_decide_eq_true_2 _ Hin), Hsu, Hmode.
    exact Hcan. }
  unfold TaskManager.create_backup. unfold bind at 1, os_path_exists.
  rewrite Hnf.
  destruct (bool_decide (TaskManager.BACKUP_FOLDER ∈ dirs w)) eqn:Hd.
  - unfold bind at 1. cbn [negb]. unfold ret at 1.
    apply Hstep; try reflexivity.
    + exact (proj1 (bool_decide_eq_true _) Hd).
    + unfold backup_folder_mode. rewrite Hd. reflexivity.
  - unfold bind at 1. cbn [negb]. unfold os_makedirs at 1.
    apply Hstep; try reflexivity.
    + mred. set_solver.
    + mred. rewrite String.eqb_refl. unfold backup_folder_mode.
      rewrite Hd. reflexivity.
Qed.

(** [create_backup] in a process that cannot: the folder is made when it
    is not there, the timestamp is read, and the copy raises
    [PermissionError]; no file is written. *)
Lemma tm_create_backup_denied (w : world) (c : list Byte.byte) :
  files w !! TaskManager.FILE = Some c ->
  snapshot_denied w = true ->
  has_slash (clock w 0%nat) = false ->
  exists w',
    TaskManager.create_backup w
    = (Raise (PermissionError (TaskManager.backup_path (clock w 0%nat))), w')
    /\ files w' = files w /\ hash_file w' = hash_file w
    /\ writes w' = writes w
    /\ environ w' = environ w /\ stdin w' = stdin w
    /\ umask w' = umask w /\ superuser w' = superuser w
    /\ TaskManager.BACKUP_FOLDER ∈ dirs w'
    /\ dir_mode w' TaskManager.BACKUP_FOLDER = backup_folder_mode w
    /\ clock w' = (fun n => clock w (S n))
    /\ snapshot_denied w' = true.
Proof.
  intros Hc Hden Hts.
  unfold snapshot_denied in Hden.
  destruct (files w !! TaskManager.BACKUP_FOLDER) as [?|] eqn:Hnf;
    [discriminate|].
  apply andb_true_iff in Hden as (Hsu & Hx).
  apply negb_true_iff in Hsu. apply negb_true_iff in Hx.
  assert (Hstep : forall w1 : world,
    files w1 = files w -> environ w1 = environ w -> clock w1 = clock w ->
    stdin w1 = stdin w ->
    hash_file w1 = hash_file w -> writes w1 = writes w ->
    umask w1 = umask w -> superuser w1 = superuser w ->
    TaskManager.BACKUP_FOLDER ∈ dirs w1 ->
    dir_mode w1 TaskManager.BACKUP_FOLDER = backup_folder_mode w ->
    exists w',
      (timestamp <- datetime_now_strftime ;;
       shutil_copy TaskManager.FILE (TaskManager.backup_path timestamp) ;;
       logging INFO ("Backup created: " +:+ TaskManager.backup_path timestamp))
        w1
      = (Raise (PermissionError (TaskManager.backup_path (clock w 0%nat))),
         w')
      /\ files w' = files w /\ hash_file w' = hash_file w
      /\ writes w' = writes w
      /\ environ w' = environ w /\ stdin w' = stdin w
      /\ umask w' = umask w /\ superuser w' = superuser w
      /\ TaskManager.BACKUP_FOLDER ∈ dirs w'
      /\ dir_mode w' TaskManager.BACKUP_FOLDER = backup_folder_mode w
      /\ clock w' = (fun n => clock w (S n))
      /\ snapshot_denied w' = true).
  { intros w1 Hf He Hcl Hs Hh Hw Hum Hsu1 Hin Hmode.
    unfold bind at 1. unfold datetime_now_strftime at 1.
    unfold bind at 1. unfold shutil_copy at 1.
    cbn [files set_clock]. rewrite Hf, Hc.
    rewrite write_refused_snapshot_denied;
      [|rewrite Hcl; exact Hts|exact Hin
       |cbn [superuser set_clock]; congruence
       |cbn [dir_mode set_clock]; rewrite Hmode; exact Hx].
    rewrite Hcl. eexists. split; [reflexivity|]. mred.
    repeat split; try assumption.
    unfold snapshot_denied, backup_folder_mode. mred.
    rewrite Hf, Hnf, (bool_decide_eq_true_2 _ Hin), Hsu1, Hsu, Hmode, Hx.
    reflexivity. }
  unfold TaskManager.create_backup. unfold bind at 1, os_path_exists.
  rewrite Hnf.
  destruct (bool_decide (TaskManager.BACKUP_FOLDER ∈ dirs w)) eqn:Hd.
  - unfold bind at 1. cbn [negb]. unfold ret at 1.
    apply Hstep; try reflexivity.
    + exact (proj1 (bool_decide_eq_true _) Hd).
    + unfold backup_folder_mode. rewrite Hd. reflexivity.
  - unfold bind at 1. cbn [negb]. unfold os_makedirs at 1.
    apply Hstep; try reflexivity.
    + mred. set_solver.
    + mred. rewrite String.eqb_refl. unfold backup_folder_mode.
      rewrite Hd. reflexivity.
Qed.

(** With a valid key bound and the store in place, [save_tasks] succeeds
    in a process that can take snapshots:
    it snapshots the store under the timestamp read, replaces the store by
    a fresh token of the serialized tasks and records their digest. *)
Lemma tm_save_tasks_ok (w : world) (K : string) (c : list Byte.byte)
    (tasks : pyval) :
  environ w = Some K -> K <> "" ->
  fernet_key_ok (str_encode K) = true ->
  files w !! TaskManager.FILE = Some c ->
  can_snapshot w = true ->
  has_slash (clock w 0%nat) = false ->
  exists w',
    TaskManager.save_tasks tasks w = (Ok tt, w')
    /\ files w'
       = <[TaskManager.FILE :=
             fernet_encrypt (str_encode K) (urandom w 0%nat)
               (str_encode (json_dumps tasks))]>
           (<[TaskManager.backup_path (clock w 0%nat) := c]> (files w))
    /\ hash_file w' = Some (TaskManager.calculate_hash (json_dumps tasks))
    /\ environ w' = environ w
    /\ clock w' = (fun n => clock w (S n))
    /\ urandom w' = (fun n => urandom w (S n))
    /\ stdin w' = stdin w
    /\ writes w'
       = writes w
         ++ [(TaskManager.backup_path (clock w 0%nat), c);
             (TaskManager.FILE,
              fernet_encrypt (str_encode K) (urandom w 0%nat)
                (str_encode (json_dumps tasks)));
             (TaskManager.HASH_FILE,
              String.list_byte_of_string
                (TaskManager.calculate_hash (json_dumps tasks)))]
    /\ umask w' = umask w /\ superuser w' = superuser w
    /\ can_snapshot w' = true.
Proof.
  intros HK Hne Hok Hc Hcan Hts.
  destruct (tm_create_backup_ok w c Hc Hcan Hts)
    as (w1 & Hrun & Hf & He & Hcl & Hu & Hs & Hh & Hw & Hum & Hsu & Hin
        & Hmode & Hcan1).
  unfold TaskManager.save_tasks. unfold bind at 1. rewrite Hrun.
  unfold bind at 1.
  rewrite (encrypt_data_ok w1 K); [|congruence|exact Hne|exact Hok].
  unfold TaskManager.save_hash. mred.
  eexists. split; [reflexivity|]. mred. rewrite ?Hf, ?Hu, ?He, ?Hcl, ?Hs.
  split.
  { rewrite lookup_insert_eq. cbn [default from_option id app].
    rewrite insert_insert_eq. reflexivity. }
  repeat split; try assumption.
  - rewrite Hw, <- !app_assoc. reflexivity.
  - match goal with |- can_snapshot ?x = true =>
      destruct (can_snapshot_ext w1 x) as (-> & _);
        [mred; rewrite ?Hf, ?lookup_insert_ne by discriminate; reflexivity
        |mred; reflexivity..|exact Hcan1]
    end.
Qed.

(** In a process that cannot take snapshots [save_tasks] is abandoned at
    its backup step: [PermissionError], and store, integrity file and
    record of writes are as before. *)
Lemma tm_save_tasks_denied (w : world) (c : list Byte.byte) (tasks : pyval) :
  files w !! TaskManager.FILE = Some c ->
  snapshot_denied w = true ->
  has_slash (clock w 0%nat) = false ->
  exists w',
    TaskManager.save_tasks tasks w
    = (Raise (PermissionError (TaskManager.backup_path (clock w 0%nat))), w')
    /\ files w' = files w /\ hash_file w' = hash_file w
    /\ writes w' = writes w
    /\ environ w' = environ w /\ stdin w' = stdin w
    /\ umask w' = umask w /\ superuser w' = superuser w
    /\ TaskManager.BACKUP_FOLDER ∈ dirs w'
    /\ dir_mode w' TaskManager.BACKUP_FOLDER = backup_folder_mode w
    /\ clock w' = (fun n => clock w (S n))
    /\ snapshot_denied w' = true.
Proof.
  intros Hc Hden Hts.
  destruct (tm_create_backup_denied w c Hc Hden Hts) as (w' & Hrun & Hrest).
  exists w'. unfold TaskManager.save_tasks. unfold bind at 1. rewrite Hrun.
  split; [reflexivity|exact Hrest].
Qed.

End TaskManagerSave.

(** ** Successive Saves with archival backups *)

Section TaskManagerArchive.
Context `{Platform}.

Lemma backup_path_in_folder (ts : string) :
  in_backup_folder (TaskManager.backup_path ts) = true.
Proof. reflexivity. Qed.

Lemma snapshots_after_save (m : gmap string (list Byte.byte))
    (ts : string) (c enc : list Byte.byte) :
  filter (fun kv => in_backup_folder (fst kv) = true)
    (<[TaskManager.FILE := enc]> (<[TaskManager.backup_path ts := c]> m))
  = <[TaskManager.backup_path ts := c]>
      (filter (fun kv => in_backup_folder (fst kv) = true) m).
Proof.
  rewrite map_filter_insert_not by (intros y; cbn; discriminate).
  rewrite map_filter_insert_True by apply backup_path_in_folder.
  reflexivity.
Qed.

(** [N] Saves in a row, reading pairwise distinct timestamps that name no
    file yet: all succeed, [N] snapshot files are added, the snapshot of
    each Save holds the store as that Save found it, and no other file
    but the store changes. *)
Lemma tm_saves_archive (K : string) (saves : list pyval) :
  K <> "" -> fernet_key_ok (str_encode K) = true ->
  forall (w : world) (c : list Byte.byte),
    environ w = Some K ->
    files w !! TaskManager.FILE = Some c ->
    can_snapshot w = true ->
    (forall i, (i < length saves)%nat -> has_slash (clock w i) = false) ->
    (forall i, (i < length saves)%nat ->
       files w !! TaskManager.backup_path (clock w i) = None) ->
    (forall i j, (i < j < length saves)%nat -> clock w i <> clock w j) ->
    exists w',
      for_each TaskManager.save_tasks saves w = (Ok tt, w')
      /\ size (snapshots w') = (size (snapshots w) + length saves)%nat
      /\ (forall i, (i < length saves)%nat ->
            files w' !! TaskManager.backup_path (clock w i)
            = files (snd (for_each TaskManager.save_tasks (take i saves) w))
                !! TaskManager.FILE)
      /\ (forall p, p <> TaskManager.FILE ->
            (forall i, (i < length saves)%nat ->
               p <> TaskManager.backup_path (clock w i)) ->
            files w' !! p = files w !! p)
      /\ is_Some (files w' !! TaskManager.FILE).
Proof.
  intros Hne Hok. induction saves as [|t saves IH]; intros w c HK Hc Hcan Hts Hfresh Hdist.
  - exists w. cbn [for_each length]. unfold ret.
    repeat split; [lia| |eauto].
    intros i Hi. cbn in Hi. lia.
  - assert (Hts0 : has_slash (clock w 0%nat) = false)
      by (apply Hts; cbn [length]; lia).
    destruct (tm_save_tasks_ok w K c t HK Hne Hok Hc Hcan Hts0)
      as (w1 & Hrun & Hf & _ & He & Hcl & _ & _ & _ & _ & _ & Hcan1).
    assert (Hlook : forall p, p <> TaskManager.FILE ->
              p <> TaskManager.backup_path (clock w 0%nat) ->
              files w1 !! p = files w !! p).
    { intros p H1 H2. rewrite Hf.
      rewrite lookup_insert_ne by congruence.
      rewrite lookup_insert_ne by congruence. reflexivity. }
    assert (Hbp : forall i, (i < length saves)%nat ->
              TaskManager.backup_path (clock w (S i))
              <> TaskManager.backup_path (clock w 0%nat)).
    { intros i Hi E. apply backup_path_inj in E.
      apply (Hdist 0%nat (S i)); [cbn [length]; lia|]. congruence. }
    destruct (IH w1 (fernet_encrypt (str_encode K) (urandom w 0%nat)
                           (str_encode (json_dumps t))))
      as (w' & Hrun' & Hsize & Hsnap & Hframe & Hstore).
    + congruence.
    + rewrite Hf. apply lookup_insert_eq.
    + exact Hcan1.
    + intros i Hi. rewrite Hcl. apply Hts. cbn [length]. lia.
    + intros i Hi. rewrite Hcl.
      rewrite Hlook; [|apply backup_path_not_FILE|apply Hbp; exact Hi].
      apply Hfresh. cbn [length]. lia.
    + intros i j Hij. rewrite Hcl. apply Hdist. cbn [length]. lia.
    + exists w'. cbn [for_each]. unfold bind at 1. rewrite Hrun.
      split; [exact Hrun'|]. split; [|split; [|split]].
      * rewrite Hsize. unfold snapshots at 1. rewrite Hf.
        rewrite snapshots_after_save.
        rewrite map_size_insert_None.
        -- fold (snapshots w). cbn [length]. lia.
        -- apply map_lookup_filter_None. left.
           apply (Hfresh 0%nat). cbn [length]. lia.
      * intros [|i] Hi.
        -- cbn [take for_each]. unfold ret. cbn [snd]. rewrite Hc.
           rewrite Hframe.
           ++ rewrite Hf. rewrite lookup_insert_ne by apply not_eq_sym, backup_path_not_FILE.
              apply lookup_insert_eq.
           ++ apply backup_path_not_FILE.
           ++ intros i Hi' E. rewrite Hcl in E. symmetry in E.
              exact (Hbp i Hi' E).
        -- cbn [take for_each]. unfold bind at 1. rewrite Hrun.
           rewrite <- (Hsnap i) by (cbn [length] in Hi; lia).
           rewrite Hcl. reflexivity.
      * intros p Hp Hother. rewrite Hframe.
        -- apply Hlook; [exact Hp|]. apply (Hother 0%nat). cbn [length]. lia.
        -- exact Hp.
        -- intros i Hi. rewrite Hcl. apply Hother. cbn [length]. lia.
      * exact Hstore.
Qed.

End TaskManagerArchive.

(** ** Saves of [tracker_Encryption.py] with the rolling backup *)

Section TrackerEncryptionSave.
Context `{Platform}.

Lemma te_load_key_ok (w : world) (k : list Byte.byte) :
  files w !! TrackerEncryption.KEY_FILE = Some k ->
  TrackerEncryption.load_key w
  = (Ok k, set_stdout (stdout w ++
             ["Encryption key loaded from " +:+ TrackerEncryption.KEY_FILE]) w).
Proof.
  intros Hk. unfold TrackerEncryption.load_key. mred. rewrite Hk. mred.
  rewrite Hk. reflexivity.
Qed.

Lemma te_encrypt_data_ok (w : world) (k : list Byte.byte) (data : string) :
  files w !! TrackerEncryption.KEY_FILE = Some k ->
  fernet_key_ok k = true ->
  exists w',
    TrackerEncryption.encrypt_data data w
    = (Ok (fernet_encrypt k (urandom w 0%nat) (str_encode data)), w')
    /\ files w' = files w /\ stdin w' = stdin w
    /\ urandom w' = (fun n => urandom w (S n))
    /\ writes w' = writes w.
Proof.
  intros Hk Hok. unfold TrackerEncryption.encrypt_data. unfold bind at 1.
  rewrite (te_load_key_ok w k Hk).
  unfold TrackerEncryption.Fernet, TrackerEncryption.Fernet_encrypt.
  rewrite Hok. mred. eexists. split; [reflexivity|]. mred. auto.
Qed.

Lemma te_decrypt_data_ok (w : world) (k enc raw : list Byte.byte)
    (P : string) :
  files w !! TrackerEncryption.KEY_FILE = Some k ->
  fernet_key_ok k = true ->
  fernet_decrypt k enc = Some raw ->
  bytes_decode raw = Some P ->
  TrackerEncryption.decrypt_data enc w
  = (Ok P, set_stdout (stdout w ++
             ["Encryption key loaded from " +:+ TrackerEncryption.KEY_FILE]) w).
Proof.
  intros Hk Hok Hdec Hraw. unfold TrackerEncryption.decrypt_data.
  unfold bind at 1. rewrite (te_load_key_ok w k Hk).
  unfold TrackerEncryption.Fernet, TrackerEncryption.Fernet_decrypt.
  rewrite Hok. mred. rewrite Hdec. mred. rewrite Hraw. reflexivity.
Qed.

(** With a valid key file and the store in place, [save_tasks] succeeds:
    the store as it was becomes the rolling backup, and a fresh token of
    the serialized tasks becomes the store. *)
Lemma te_save_tasks_ok (w : world) (k c : list Byte.byte) (tasks : pyval) :
  files w !! TrackerEncryption.KEY_FILE = Some k ->
  fernet_key_ok k = true ->
  files w !! TrackerEncryption.FILE = Some c ->
  exists w',
    TrackerEncryption.save_tasks tasks w = (Ok tt, w')
    /\ files w'
       = <[TrackerEncryption.FILE :=
             fernet_encrypt k (urandom w 0%nat)
               (str_encode (json_dumps tasks))]>
           (<[BAK := c]> (files w))
    /\ stdin w' = stdin w.
Proof.
  intros Hk Hok Hc.
  unfold TrackerEncryption.save_tasks, TrackerEncryption.backup_tasks_file.
  unfold bind at 1. unfold bind at 1. unfold os_path_exists at 1.
  rewrite Hc. unfold bind at 1. unfold shutil_copy at 1. rewrite Hc.
  rewrite write_refused_bak.
  unfold print at 1. unfold bind at 1. unfold open_wb at 1.
  unfold bind at 1.
  match goal with |- context [TrackerEncryption.encrypt_data ?d ?w0] =>
    destruct (te_encrypt_data_ok w0 k d) as (w1 & Hrun & Hf & Hs & Hu & Hw)
  end.
  { mred. rewrite lookup_insert_ne by discriminate.
    rewrite lookup_insert_ne by discriminate. exact Hk. }
  { exact Hok. }
  rewrite Hrun. mred_in Hf. mred_in Hs. mred_in Hrun.
  unfold file_write. eexists. split; [reflexivity|]. mred.
  rewrite Hf, Hs. split; [|reflexivity].
  rewrite lookup_insert_eq. cbn [default app].
  rewrite insert_insert_eq. reflexivity.
Qed.

(** The Saves of a sequence all succeed; when there is a last one, the
    store holds a token of what it was given. *)
Lemma te_saves_ok (k : list Byte.byte) (saves : list pyval) :
  fernet_key_ok k = true ->
  forall (w : world) (c : list Byte.byte),
    files w !! TrackerEncryption.KEY_FILE = Some k ->
    files w !! TrackerEncryption.FILE = Some c ->
    exists w',
      for_each TrackerEncryption.save_tasks saves w = (Ok tt, w')
      /\ files w' !! TrackerEncryption.KEY_FILE = Some k
      /\ (saves = [] -> files w' = files w)
      /\ (forall t, last saves = Some t -> exists nonce,
            files w' !! TrackerEncryption.FILE
            = Some (fernet_encrypt k nonce (str_encode (json_dumps t)))).
Proof.
  intros Hok. induction saves as [|t saves IH]; intros w c Hk Hc.
  - exists w. cbn [for_each]. unfold ret. repeat split; [exact Hk|].
    intros t Ht. discriminate.
  - destruct (te_save_tasks_ok w k c t Hk Hok Hc) as (w1 & Hrun & Hf & _).
    assert (Hk1 : files w1 !! TrackerEncryption.KEY_FILE = Some k).
    { rewrite Hf. rewrite lookup_insert_ne by discriminate.
      rewrite lookup_insert_ne by discriminate. exact Hk. }
    assert (Hc1 : files w1 !! TrackerEncryption.FILE
                  = Some (fernet_encrypt k (urandom w 0%nat)
                            (str_encode (json_dumps t)))).
    { rewrite Hf. apply lookup_insert_eq. }
    destruct (IH w1 _ Hk1 Hc1) as (w' & Hrun' & Hk' & Hnil & Hlast).
    exists w'. cbn [for_each]. unfold bind at 1. rewrite Hrun.
    split; [exact Hrun'|]. split; [exact Hk'|]. split; [discriminate|].
    intros t0 Ht0. destruct saves as [|t1 saves].
    + cbn in Ht0. injection Ht0 as <-. rewrite (Hnil eq_refl).
      eexists. exact Hc1.
    + apply Hlast. exact Ht0.
Qed.

End TrackerEncryptionSave.

(** ** Backups *)

Lemma for_each_snoc {A} (f : A -> M unit) (l : list A) (x : A) (w w1 : world) :
  for_each f l w = (Ok tt, w1) ->
  for_each f (l ++ [x]) w = f x w1.
Proof.
  revert w. induction l as [|y l IH]; intros w Hrun.
  - cbn [for_each] in Hrun. unfold ret in Hrun. injection Hrun as <-.
    cbn [app for_each]. unfold bind, ret.
    destruct (f x w) as [[[]|e] w']; reflexivity.
  - cbn [app for_each] in *. unfold bind in *.
    destruct (f y w) as [[[]|e] w0]; [|discriminate].
    apply IH. exact Hrun.
Qed.

(** C2, as the program has it.  Rolling backup: after the Saves of a
    sequence on an existing store, one more Save leaves in the backup file
    exactly the store as it was before that Save, which is the token
    written by the Save before it.  Archival backup: in a process that
    can write the backup folder, [N] Saves that read pairwise distinct
    timestamps naming no file yet leave [N] new snapshot files, the
    snapshot of each Save holding the store as that Save found it. *)
Theorem backups_after_successive_saves `{Platform} :
  (forall (k c : list Byte.byte) (saves : list pyval) (last_tasks : pyval)
          (w : world),
     fernet_key_ok k = true ->
     files w !! TrackerEncryption.KEY_FILE = Some k ->
     files w !! TrackerEncryption.FILE = Some c ->
     exists w1 w2,
       for_each TrackerEncryption.save_tasks saves w = (Ok tt, w1)
       /\ for_each TrackerEncryption.save_tasks (saves ++ [last_tasks]) w
          = (Ok tt, w2)
       /\ is_Some (files w1 !! TrackerEncryption.FILE)
       /\ files w2 !! BAK = files w1 !! TrackerEncryption.FILE
       /\ (forall t, last saves = Some t -> exists nonce,
             files w2 !! BAK
             = Some (fernet_encrypt k nonce (str_encode (json_dumps t)))))
  /\
  (forall (K : string) (c : list Byte.byte) (saves : list pyval) (w : world),
     K <> "" -> fernet_key_ok (str_encode K) = true ->
     environ w = Some K ->
     files w !! TaskManager.FILE = Some c ->
     can_snapshot w = true ->
     (forall i, (i < length saves)%nat -> has_slash (clock w i) = false) ->
     (forall i, (i < length saves)%nat ->
        files w !! TaskManager.backup_path (clock w i) = None) ->
     (forall i j, (i < j < length saves)%nat -> clock w i <> clock w j) ->
     exists w',
       for_each TaskManager.save_tasks saves w = (Ok tt, w')
       /\ size (snapshots w') = (size (snapshots w) + length saves)%nat
       /\ (forall i, (i < length saves)%nat ->
             files w' !! TaskManager.backup_path (clock w i)
             = files (snd (for_each TaskManager.save_tasks (take i saves) w))
                 !! TaskManager.FILE)).
Proof.
  split.
  - intros k c saves last_tasks w Hok Hk Hc.
    destruct (te_saves_ok k saves Hok w c Hk Hc)
      as (w1 & Hrun & Hk1 & Hnil & Hlast).
    assert (Hc1 : is_Some (files w1 !! TrackerEncryption.FILE)).
    { destruct saves as [|t0 saves0] eqn:Esaves.
      - rewrite (Hnil eq_refl). eauto.
      - destruct (last (t0 :: saves0)) as [t|] eqn:El.
        + destruct (Hlast t eq_refl) as (nonce & Hn). eauto.
        + apply last_None in El. discriminate. }
    destruct Hc1 as (c1 & Hc1).
    destruct (te_save_tasks_ok w1 k c1 last_tasks Hk1 Hok Hc1)
      as (w2 & Hrun2 & Hf2 & _).
    assert (Hbak : files w2 !! BAK = files w1 !! TrackerEncryption.FILE).
    { rewrite Hf2, Hc1. rewrite lookup_insert_ne by discriminate.
      apply lookup_insert_eq. }
    exists w1, w2. split; [exact Hrun|]. split.
    { rewrite (for_each_snoc _ _ _ _ _ Hrun). exact Hrun2. }
    split; [eauto|]. split; [exact Hbak|].
    intros t Ht. destruct (Hlast t Ht) as (nonce & Hn).
    exists nonce. rewrite Hbak. exact Hn.
  - intros K c saves w Hne Hok HK Hc Hcan Hts Hfresh Hdist.
    destruct (tm_saves_archive K saves Hne Hok w c HK Hc Hcan Hts Hfresh
                Hdist)
      as (w' & Hrun & Hsize & Hsnap & _ & _).
    exists w'. auto.
Qed.

(** C3: with no store on disk the backup step of the key-file variants
    does nothing, while [create_backup] of [TaskManager.py] has no such
    guard: [shutil.copy] raises [FileNotFoundError] and the Save is
    abandoned. *)
Theorem snapshot_before_without_store `{Platform} (w : world) (tasks : pyval) :
  files w !! TaskManager.FILE = None ->
  TaskManager.FILE ∉ dirs w ->
  TrackerEncryption.backup_tasks_file w = (Ok tt, w)
  /\ TrackerLog.backup_tasks_file w = (Ok tt, w)
  /\ fst (TaskManager.create_backup w)
     = Raise (FileNotFoundError TaskManager.FILE)
  /\ fst (TaskManager.save_tasks tasks w)
     = Raise (FileNotFoundError TaskManager.FILE)
  /\ files (snd (TaskManager.save_tasks tasks w)) = files w.
Proof.
  intros Hnone Hdir.
  assert (Hcb : exists w1, TaskManager.create_backup w
                 = (Raise (FileNotFoundError TaskManager.FILE), w1)
                 /\ files w1 = files w).
  { unfold TaskManager.create_backup. mred.
    destruct (files w !! TaskManager.BACKUP_FOLDER) as [?|]; mred.
    - rewrite Hnone. mred. eauto.
    - destruct (bool_decide (TaskManager.BACKUP_FOLDER ∈ dirs w)); mred;
        rewrite Hnone; mred; eauto. }
  destruct Hcb as (w1 & Hcb & Hf1).
  split; [|split; [|split; [|split]]].
  - unfold TrackerEncryption.backup_tasks_file. mred.
    change TrackerEncryption.FILE with TaskManager.FILE. rewrite Hnone.
    rewrite bool_decide_eq_false_2 by exact Hdir. reflexivity.
  - unfold TrackerLog.backup_tasks_file. mred.
    change TrackerLog.FILE with TaskManager.FILE. rewrite Hnone.
    rewrite bool_decide_eq_false_2 by exact Hdir. reflexivity.
  - rewrite Hcb. reflexivity.
  - unfold TaskManager.save_tasks. unfold bind at 1. rewrite Hcb. reflexivity.
  - unfold TaskManager.save_tasks. unfold bind at 1. rewrite Hcb. exact Hf1.
Qed.

(** ** What reaches the store file *)

Section Writes.
Context `{Platform}.

Lemma silent_ret {A} (a : A) : silent (ret a).
Proof. intros w r w' E. injection E as _ <-. reflexivity. Qed.

Lemma silent_raise {A} (e : exn) : silent (@raise A e).
Proof. intros w r w' E. injection E as _ <-. reflexivity. Qed.

Lemma silent_lift_opt {A} (o : option A) (e : exn) : silent (lift_opt o e).
Proof. destruct o; [apply silent_ret|apply silent_raise]. Qed.

Lemma silent_bind {A B} (c : M A) (k : A -> M B) :
  silent c -> (forall a, silent (k a)) -> silent (bind c k).
Proof.
  intros Hc Hk w r w' E. unfold bind in E.
  destruct (c w) as [[a|e] w1] eqn:Ec.
  - rewrite (Hk a w1 r w' E). exact (Hc w _ w1 Ec).
  - injection E as _ <-. exact (Hc w _ w1 Ec).
Qed.

Lemma silent_total {A} (c : M A) :
  (forall w, writes (snd (c w)) = writes w) -> silent c.
Proof. intros Hc w r w' E. specialize (Hc w). rewrite E in Hc. exact Hc. Qed.

Lemma silent_os_path_exists p : silent (os_path_exists p).
Proof. apply silent_total. reflexivity. Qed.
Lemma silent_os_makedirs p : silent (os_makedirs p).
Proof. apply silent_total. reflexivity. Qed.
Lemma silent_os_umask m : silent (os_umask m).
Proof. apply silent_total. reflexivity. Qed.
Lemma silent_os_getenv : silent os_getenv.
Proof. apply silent_total. reflexivity. Qed.
Lemma silent_open_wb p : silent (open_wb p).
Proof. apply silent_total. reflexivity. Qed.
Lemma silent_read_rb p : silent (read_rb p).
Proof.
  apply silent_total. intros w. unfold read_rb.
  destruct (files w !! p); reflexivity.
Qed.
Lemma silent_datetime_now_strftime : silent datetime_now_strftime.
Proof. apply silent_total. reflexivity. Qed.
Lemma silent_os_urandom : silent os_urandom.
Proof. apply silent_total. reflexivity. Qed.
Lemma silent_logging lv msg : silent (logging lv msg).
Proof. apply silent_total. reflexivity. Qed.
Lemma silent_print msg : silent (print msg).
Proof. apply silent_total. reflexivity. Qed.
Lemma silent_input prompt : silent (input prompt).
Proof.
  apply silent_total. intros w. unfold input.
  destruct (stdin w); reflexivity.
Qed.
Lemma silent_py_getitem x k : silent (py_getitem x k).
Proof. destruct x; try apply silent_raise. apply silent_lift_opt. Qed.
Lemma silent_py_setitem x k v : silent (py_setitem x k v).
Proof. destruct x; try apply silent_raise. apply silent_ret. Qed.
Lemma silent_py_len x : silent (py_len x).
Proof. destruct x; try apply silent_raise; apply silent_ret. Qed.
Lemma silent_py_append x v : silent (py_append x v).
Proof. destruct x; try apply silent_raise; apply silent_ret. Qed.
Lemma silent_py_get x k v : silent (py_get x k v).
Proof. destruct x; try apply silent_raise; apply silent_ret. Qed.
Lemma silent_py_iter x : silent (py_iter x).
Proof. destruct x; try apply silent_raise; apply silent_ret. Qed.

Lemma woc_silent {A} (path : string) (c : M A) :
  silent c -> writes_only_ciphertext path c.
Proof.
  intros Hc w r w' E. exists []. rewrite app_nil_r.
  split; [exact (Hc w r w' E)|constructor].
Qed.

Lemma woc_bind {A B} (path : string) (Q : A -> Prop) (c : M A)
    (k : A -> M B) :
  writes_only_ciphertext path c -> yields Q c ->
  (forall a, Q a -> writes_only_ciphertext path (k a)) ->
  writes_only_ciphertext path (bind c k).
Proof.
  intros Hc HQ Hk w r w' E. unfold bind in E.
  destruct (c w) as [[a|e] w1] eqn:Ec.
  - destruct (Hc w _ w1 Ec) as (new1 & Hw1 & Hs1).
    destruct (Hk a (HQ w a w1 Ec) w1 r w' E) as (new2 & Hw2 & Hs2).
    exists (new1 ++ new2). rewrite Hw2, Hw1, app_assoc.
    split; [reflexivity|]. apply Forall_app. split; assumption.
  - injection E as _ <-. exact (Hc w _ w1 Ec).
Qed.

Lemma woc_seq {A B} (path : string) (c : M A) (k : A -> M B) :
  writes_only_ciphertext path c ->
  (forall a, writes_only_ciphertext path (k a)) ->
  writes_only_ciphertext path (bind c k).
Proof.
  intros Hc Hk. apply (woc_bind path (fun _ => True)); auto.
  intros w a w' _. exact I.
Qed.

Lemma woc_file_write_other (path p : string) (data : list Byte.byte) :
  p <> path -> writes_only_ciphertext path (file_write p data).
Proof.
  intros Hp w r w' E. unfold file_write in E. injection E as _ <-.
  exists [(p, data)]. split; [reflexivity|].
  constructor; [|constructor]. cbn. intros Heq. contradiction.
Qed.

Lemma woc_file_write_token (path p : string) (data : list Byte.byte) :
  is_ciphertext data -> writes_only_ciphertext path (file_write p data).
Proof.
  intros Hd w r w' E. unfold file_write in E. injection E as _ <-.
  exists [(p, data)]. split; [reflexivity|].
  constructor; [|constructor]. cbn. intros _. exact Hd.
Qed.

Lemma woc_shutil_copy (path src dst : string) :
  dst <> path -> writes_only_ciphertext path (shutil_copy src dst).
Proof.
  intros Hp w r w' E. unfold shutil_copy in E.
  destruct (files w !! src) as [b|];
    [destruct (write_refused w dst)|]; injection E as _ <-.
  - exists []. rewrite app_nil_r. split; [reflexivity|constructor].
  - exists [(dst, b)]. split; [reflexivity|].
    constructor; [|constructor]. cbn. intros Heq. contradiction.
  - exists []. rewrite app_nil_r. split; [reflexivity|constructor].
Qed.

End Writes.

Create HintDb writes.
#[export] Hint Resolve silent_ret silent_raise silent_lift_opt
  silent_os_path_exists silent_os_makedirs silent_os_umask silent_os_getenv
  silent_open_wb silent_read_rb silent_datetime_now_strftime
  silent_os_urandom silent_logging silent_print silent_input
  silent_py_getitem silent_py_setitem silent_py_len silent_py_append
  silent_py_get silent_py_iter : writes.

(** Decomposes a goal [silent c] along the shape of [c]. *)
Ltac silent_steps :=
  repeat first
    [ solve [auto with writes]
    | apply silent_bind; [|intros ?]
    | match goal with
      | |- silent (if ?b then _ else _) => destruct b
      | |- silent (match ?x with _ => _ end) => destruct x
      end ].

(** Decomposes a goal [writes_only_ciphertext p c] along the shape of [c]. *)
Ltac woc_steps :=
  repeat first
    [ solve [auto using woc_silent with writes]
    | apply woc_seq; [|intros ?]
    | match goal with
      | |- writes_only_ciphertext _ (if ?b then _ else _) => destruct b
      | |- writes_only_ciphertext _ (match ?x with _ => _ end) => destruct x
      end ].

Section TaskManagerWrites.
Context `{Platform}.

Lemma silent_tm_load_key : silent TaskManager.load_key.
Proof. unfold TaskManager.load_key. silent_steps. Qed.

Lemma silent_tm_Fernet key : silent (TaskManager.Fernet key).
Proof. unfold TaskManager.Fernet. silent_steps. Qed.

Lemma silent_tm_encrypt_data data : silent (TaskManager.encrypt_data data).
Proof.
  unfold TaskManager.encrypt_data, TaskManager.Fernet_encrypt.
  pose proof silent_tm_load_key. pose proof silent_tm_Fernet.
  silent_steps.
Qed.

Lemma silent_tm_decrypt_data enc : silent (TaskManager.decrypt_data enc).
Proof.
  unfold TaskManager.decrypt_data, TaskManager.Fernet_decrypt.
  pose proof silent_tm_load_key. pose proof silent_tm_Fernet.
  silent_steps.
Qed.

(** [save_hash] writes the integrity file, which is not the store. *)
Lemma woc_tm_save_hash h :
  writes_only_ciphertext TaskManager.FILE (TaskManager.save_hash h).
Proof.
  intros w r w' E. unfold TaskManager.save_hash in E. injection E as _ <-.
  eexists. split; [reflexivity|].
  constructor; [|constructor]. cbn. intros Heq. discriminate Heq.
Qed.

Lemma silent_tm_verify_integrity data :
  silent (TaskManager.verify_integrity data).
Proof.
  apply silent_total. intros w. unfold TaskManager.verify_integrity.
  destruct (hash_file w) as [stored|]; [|reflexivity].
  destruct (String.eqb stored (TaskManager.calculate_hash data)); reflexivity.
Qed.

(** What [encrypt_data] returns is a token of its argument. *)
Lemma tm_encrypt_data_yields (data : string) :
  yields (fun enc => exists key nonce,
            enc = fernet_encrypt key nonce (str_encode data))
    (TaskManager.encrypt_data data).
Proof.
  intros w enc w' E.
  unfold TaskManager.encrypt_data, TaskManager.load_key, TaskManager.Fernet,
    TaskManager.Fernet_encrypt in E.
  mred_in E.
  destruct (environ w) as [[|a K]|]; try discriminate.
  mred_in E.
  destruct (fernet_key_ok (str_encode (String a K))); try discriminate.
  mred_in E. injection E as <- _. eauto.
Qed.

Lemma woc_tm_secure_file_creation (filepath : string) :
  writes_only_ciphertext TaskManager.FILE
    (TaskManager.secure_file_creation filepath).
Proof.
  unfold TaskManager.secure_file_creation.
  apply woc_seq; [auto using woc_silent with writes|]. intros e.
  destruct (negb e); [|auto using woc_silent with writes].
  apply woc_seq; [auto using woc_silent with writes|]. intros _.
  apply woc_seq; [auto using woc_silent with writes|]. intros _.
  eapply woc_bind.
  - apply woc_silent, silent_tm_encrypt_data.
  - apply tm_encrypt_data_yields.
  - intros enc (key & nonce & ->).
    apply woc_seq; [|auto using woc_silent with writes].
    apply woc_file_write_token. exists key, nonce, (PList []). reflexivity.
Qed.

Lemma woc_tm_create_backup :
  writes_only_ciphertext TaskManager.FILE TaskManager.create_backup.
Proof.
  unfold TaskManager.create_backup.
  apply woc_seq; [auto using woc_silent with writes|]. intros e.
  apply woc_seq.
  { destruct (negb e); auto using woc_silent with writes. }
  intros _.
  apply woc_seq; [auto using woc_silent with writes|]. intros ts.
  apply woc_seq; [|auto using woc_silent with writes].
  apply woc_shutil_copy, backup_path_not_FILE.
Qed.

Lemma woc_tm_save_tasks (tasks : pyval) :
  writes_only_ciphertext TaskManager.FILE (TaskManager.save_tasks tasks).
Proof.
  unfold TaskManager.save_tasks.
  apply woc_seq; [apply woc_tm_create_backup|]. intros _.
  eapply woc_bind.
  - apply woc_silent, silent_tm_encrypt_data.
  - apply tm_encrypt_data_yields.
  - intros enc (key & nonce & ->).
    apply woc_seq; [auto using woc_silent with writes|]. intros _.
    apply woc_seq.
    { apply woc_file_write_token. exists key, nonce, tasks. reflexivity. }
    intros _.
    apply woc_seq; [apply woc_tm_save_hash|]. intros _.
    auto using woc_silent with writes.
Qed.

Lemma woc_tm_load_tasks :
  writes_only_ciphertext TaskManager.FILE TaskManager.load_tasks.
Proof.
  unfold TaskManager.load_tasks.
  apply woc_seq; [apply woc_tm_secure_file_creation|]. intros _.
  apply woc_silent.
  pose proof silent_tm_decrypt_data. pose proof silent_tm_verify_integrity.
  silent_steps.
Qed.

Lemma woc_tm_add_task :
  writes_only_ciphertext TaskManager.FILE TaskManager.add_task.
Proof.
  unfold TaskManager.add_task.
  pose proof woc_tm_load_tasks. pose proof woc_tm_save_tasks.
  woc_steps; auto using woc_silent with writes.
Qed.

Lemma silent_tm_any_id_eq items task_id :
  silent (TaskManager.any_id_eq items task_id).
Proof.
  induction items as [|t items IH]; cbn [TaskManager.any_id_eq];
    silent_steps.
Qed.

Lemma silent_tm_get_valid_task_id_loop tasks pending :
  silent (TaskManager.get_valid_task_id_loop tasks pending).
Proof.
  pose proof silent_tm_any_id_eq.
  induction pending as [|l pending IH];
    cbn [TaskManager.get_valid_task_id_loop]; silent_steps.
Qed.

Lemma silent_tm_status_choice_loop pending :
  silent (TaskManager.status_choice_loop pending).
Proof.
  induction pending as [|l pending IH];
    cbn [TaskManager.status_choice_loop]; silent_steps.
Qed.

Lemma woc_tm_update_status_loop tasks task_id new_status seen todo :
  writes_only_ciphertext TaskManager.FILE
    (TaskManager.update_status_loop tasks task_id new_status seen todo).
Proof.
  pose proof woc_tm_save_tasks.
  revert seen. induction todo as [|t todo IH]; intros seen;
    cbn [TaskManager.update_status_loop].
  - auto using woc_silent with writes.
  - woc_steps; auto using woc_silent with writes.
Qed.

Lemma woc_tm_update_task_status :
  writes_only_ciphertext TaskManager.FILE TaskManager.update_task_status.
Proof.
  unfold TaskManager.update_task_status, TaskManager.get_valid_task_id.
  apply woc_seq.
  { apply woc_seq; [apply woc_tm_load_tasks|]. intros tasks.
    apply woc_silent. intros w r w' E.
    exact (silent_tm_get_valid_task_id_loop tasks (stdin w) w r w' E). }
  intros task_id.
  apply woc_seq; [auto using woc_silent with writes|]. intros _.
  apply woc_seq.
  { apply woc_silent. intros w r w' E.
    exact (silent_tm_status_choice_loop (stdin w) w r w' E). }
  intros new_status.
  apply woc_seq; [apply woc_tm_load_tasks|]. intros tasks.
  apply woc_seq; [auto using woc_silent with writes|]. intros items.
  apply woc_tm_update_status_loop.
Qed.

Lemma silent_tm_display_loop items : silent (TaskManager.display_loop items).
Proof.
  induction items as [|t items IH]; cbn [TaskManager.display_loop];
    silent_steps.
Qed.

Lemma woc_tm_display_tasks :
  writes_only_ciphertext TaskManager.FILE TaskManager.display_tasks.
Proof.
  unfold TaskManager.display_tasks.
  apply woc_seq; [apply woc_tm_load_tasks|]. intros tasks.
  apply woc_silent. pose proof silent_tm_display_loop. silent_steps.
Qed.

Lemma woc_tm_get_valid_task_id :
  writes_only_ciphertext TaskManager.FILE TaskManager.get_valid_task_id.
Proof.
  unfold TaskManager.get_valid_task_id.
  apply woc_seq; [apply woc_tm_load_tasks|]. intros tasks.
  apply woc_silent. intros w r w' E.
  exact (silent_tm_get_valid_task_id_loop tasks (stdin w) w r w' E).
Qed.

Lemma woc_tm_update_title_loop tasks task_id new_title seen todo :
  writes_only_ciphertext TaskManager.FILE
    (TaskManager.update_title_loop tasks task_id new_title seen todo).
Proof.
  pose proof woc_tm_save_tasks.
  revert seen. induction todo as [|t todo IH]; intros seen;
    cbn [TaskManager.update_title_loop]; woc_steps.
Qed.

Lemma woc_tm_update_description_loop tasks task_id new_description seen todo :
  writes_only_ciphertext TaskManager.FILE
    (TaskManager.update_description_loop tasks task_id new_description
       seen todo).
Proof.
  pose proof woc_tm_save_tasks.
  revert seen. induction todo as [|t todo IH]; intros seen;
    cbn [TaskManager.update_description_loop]; woc_steps.
Qed.

Lemma woc_tm_update_task_title :
  writes_only_ciphertext TaskManager.FILE TaskManager.update_task_title.
Proof.
  unfold TaskManager.update_task_title.
  pose proof woc_tm_get_valid_task_id. pose proof woc_tm_load_tasks.
  pose proof woc_tm_update_title_loop. woc_steps.
Qed.

Lemma woc_tm_update_task_description :
  writes_only_ciphertext TaskManager.FILE TaskManager.update_task_description.
Proof.
  unfold TaskManager.update_task_description.
  pose proof woc_tm_get_valid_task_id. pose proof woc_tm_load_tasks.
  pose proof woc_tm_update_description_loop. woc_steps.
Qed.

Lemma woc_tm_main (rounds : nat) :
  writes_only_ciphertext TaskManager.FILE (TaskManager.main rounds).
Proof.
  pose proof woc_tm_display_tasks. pose proof woc_tm_add_task.
  pose proof woc_tm_update_task_status. pose proof woc_tm_update_task_title.
  pose proof woc_tm_update_task_description.
  induction rounds as [|rounds IH]; cbn [TaskManager.main]; woc_steps.
Qed.

(** C9: whatever the world and the outcome, every byte sequence written to
    the store file by [secure_file_creation], by [save_tasks], and by the
    whole program, however many rounds of its menu are run, is a
    [Fernet.encrypt] token of the encoded [json.dumps] of some object. *)
Theorem store_file_writes_are_tokens :
  writes_only_ciphertext TaskManager.FILE
    (TaskManager.secure_file_creation TaskManager.FILE)
  /\ (forall tasks,
        writes_only_ciphertext TaskManager.FILE (TaskManager.save_tasks tasks))
  /\ writes_only_ciphertext TaskManager.FILE TaskManager.load_tasks
  /\ (forall rounds,
        writes_only_ciphertext TaskManager.FILE (TaskManager.script rounds)).
Proof.
  split; [apply woc_tm_secure_file_creation|].
  split; [apply woc_tm_save_tasks|].
  split; [apply woc_tm_load_tasks|].
  intros rounds. unfold TaskManager.script.
  apply woc_seq; [auto using woc_silent with writes|]. intros _.
  apply woc_tm_main.
Qed.

End TaskManagerWrites.

(** ** Adding a task *)

Lemma bind_ok_inv {A B} (c : M A) (k : A -> M B) (w w' : world) (b : B) :
  bind c k w = (Ok b, w') ->
  exists a w1, c w = (Ok a, w1) /\ k a w1 = (Ok b, w').
Proof.
  unfold bind. destruct (c w) as [[a|e] w1]; [eauto|discriminate].
Qed.

Lemma ret_inv {A} (a b : A) (w w' : world) :
  ret a w = (Ok b, w') -> a = b /\ w' = w.
Proof. unfold ret. intros E. injection E as <- <-. auto. Qed.

Lemma lift_opt_inv {A} (o : option A) (e : exn) (w w' : world) (a : A) :
  lift_opt o e w = (Ok a, w') -> o = Some a /\ w' = w.
Proof.
  destruct o as [a0|]; cbn; unfold ret, raise; intros E;
    [injection E as <- <-; auto|discriminate].
Qed.

Lemma read_rb_inv (p : string) (w w' : world) (b : list Byte.byte) :
  read_rb p w = (Ok b, w') -> files w !! p = Some b /\ w' = w.
Proof.
  unfold read_rb. destruct (files w !! p) as [b0|]; intros E;
    [injection E as <- <-; auto|discriminate].
Qed.

Section TaskManagerAdd.
Context `{Platform}.

Lemma tm_load_key_frame (w w' : world) (r : result (list Byte.byte)) :
  TaskManager.load_key w = (r, w') -> w' = w.
Proof.
  unfold TaskManager.load_key. mred.
  destruct (environ w) as [[|a K]|]; intros E; injection E as _ <-;
    reflexivity.
Qed.

Lemma tm_Fernet_frame (key : list Byte.byte) (w w' : world)
    (r : result (list Byte.byte)) :
  TaskManager.Fernet key w = (r, w') -> w' = w.
Proof.
  unfold TaskManager.Fernet. destruct (fernet_key_ok key); mred;
    intros E; injection E as _ <-; reflexivity.
Qed.

Lemma tm_decrypt_data_frame (enc : list Byte.byte) (w w' : world)
    (r : result string) :
  TaskManager.decrypt_data enc w = (r, w') -> w' = w.
Proof.
  unfold TaskManager.decrypt_data, TaskManager.Fernet_decrypt.
  unfold bind at 1.
  destruct (TaskManager.load_key w) as [[key|e] w1] eqn:E1;
    apply tm_load_key_frame in E1 as ->.
  2:{ intros E; injection E as _ <-; auto. }
  unfold bind at 1.
  destruct (TaskManager.Fernet key w) as [[f|e] w1] eqn:E2;
    apply tm_Fernet_frame in E2 as ->.
  2:{ intros E; injection E as _ <-; auto. }
  mred. destruct (fernet_decrypt f enc) as [raw|]; mred.
  - destruct (bytes_decode raw); mred; intros E; injection E as _ <-;
      reflexivity.
  - intros E; injection E as _ <-; reflexivity.
Qed.

Lemma tm_load_tasks_existing (w : world) (enc : list Byte.byte) :
  files w !! TaskManager.FILE = Some enc ->
  TaskManager.load_tasks w
  = match enc with
    | [] => (Ok (PList []), w)
    | _ =>
        (decrypted_data <- TaskManager.decrypt_data enc ;;
         ok <- TaskManager.verify_integrity decrypted_data ;;
         if ok then lift_opt (json_loads decrypted_data) JSONDecodeError
         else
           logging ERROR
             "Data integrity verification failed. Returning empty task list." ;;
           ret (PList [])) w
    end.
Proof.
  intros Hfile.
  unfold TaskManager.load_tasks, TaskManager.secure_file_creation.
  unfold bind at 1. unfold bind at 1. unfold os_path_exists at 1.
  rewrite Hfile. cbn [negb]. unfold ret at 1. unfold bind at 1.
  unfold read_rb at 1. rewrite Hfile. destruct enc; reflexivity.
Qed.

(** Load on a store that holds a token of the document [js], and whose
    digest, when there is one, is the digest of [js]. *)
Lemma tm_load_tasks_ok (w : world) (K : string) (enc raw : list Byte.byte)
    (js : string) (v : pyval) :
  environ w = Some K -> K <> "" ->
  fernet_key_ok (str_encode K) = true ->
  files w !! TaskManager.FILE = Some enc -> enc <> [] ->
  fernet_decrypt (str_encode K) enc = Some raw ->
  bytes_decode raw = Some js ->
  json_loads js = Some v ->
  hash_file w = None \/ hash_file w = Some (TaskManager.calculate_hash js) ->
  exists w',
    TaskManager.load_tasks w = (Ok v, w')
    /\ files w' = files w /\ hash_file w' = hash_file w
    /\ environ w' = environ w /\ stdin w' = stdin w.
Proof.
  intros HK Hne Hok Hfile Henc Hdec Hraw Hjs Hhash.
  unfold TaskManager.load_tasks, TaskManager.secure_file_creation.
  unfold bind at 1. unfold bind at 1. unfold os_path_exists at 1.
  rewrite Hfile. cbn [negb]. unfold ret at 1. unfold bind at 1.
  unfold read_rb at 1. rewrite Hfile.
  destruct enc as [|b enc]; [congruence|].
  unfold bind at 1.
  rewrite (decrypt_data_ok w K _ raw js HK Hne Hok Hdec Hraw).
  unfold bind at 1. unfold TaskManager.verify_integrity.
  destruct Hhash as [Hh|Hh]; rewrite Hh.
  - mred. rewrite Hjs. eexists. split; [reflexivity|]. mred. auto.
  - rewrite String.eqb_refl. mred. rewrite Hjs.
    eexists. split; [reflexivity|]. mred. auto.
Qed.

(** A Load on a store that is in place adds log records and changes
    nothing else, whatever it returns or raises. *)
Lemma tm_load_tasks_only_logs (w w' : world) (enc : list Byte.byte)
    (r : result pyval) :
  files w !! TaskManager.FILE = Some enc ->
  TaskManager.load_tasks w = (r, w') ->
  exists lg, w' = set_log lg w.
Proof.
  assert (Hsame : set_log (log w) w = w) by (destruct w; reflexivity).
  intros Hfile. rewrite (tm_load_tasks_existing w enc Hfile).
  destruct enc as [|b enc].
  { intros E. injection E as _ <-. exists (log w). auto. }
  unfold bind at 1.
  destruct (TaskManager.decrypt_data (b :: enc) w) as [[dec|e] w1] eqn:Ed;
    apply tm_decrypt_data_frame in Ed as ->.
  2:{ intros E. injection E as _ <-. exists (log w). auto. }
  unfold bind at 1. unfold TaskManager.verify_integrity.
  destruct (hash_file w) as [stored|] eqn:Ehash.
  - destruct (String.eqb stored (TaskManager.calculate_hash dec)); mred.
    + destruct (json_loads dec); intros E; injection E as _ <-;
        eexists; reflexivity.
    + intros E; injection E as _ <-; eexists; reflexivity.
  - mred. destruct (json_loads dec); intros E; injection E as _ <-;
      eexists; reflexivity.
Qed.

Lemma add_task_answers {A} (c : M A) (w : world)
    (raw_title raw_description : string) (rest : list string) :
  stdin w = raw_title :: raw_description :: rest ->
  (input "Enter task title: " ;; input "Enter task description: " ;; c) w
  = c (after_answers rest w).
Proof.
  intros Hin. unfold bind at 1. unfold input at 1. rewrite Hin.
  unfold bind at 1. unfold input at 1. cbn [stdin set_stdin set_stdout].
  unfold after_answers. cbn [stdout set_stdin set_stdout].
  rewrite <- app_assoc. reflexivity.
Qed.

(** [add_task] on two non-blank answers, when the Load returns the list
    [l], in a process that can take snapshots: the task numbered
    [length l + 1] goes last, the store and the digest are those of the
    longer list, and the snapshot holds the store as it was. *)
Lemma tm_add_task_persists (w w1 : world) (K raw_title raw_description : string)
    (rest : list string) (l : list pyval) (c : list Byte.byte) :
  environ w = Some K -> K <> "" ->
  fernet_key_ok (str_encode K) = true ->
  stdin w = raw_title :: raw_description :: rest ->
  strip raw_title <> "" -> strip raw_description <> "" ->
  TaskManager.load_tasks (after_answers rest w) = (Ok (PList l), w1) ->
  environ w1 = environ w ->
  files w1 !! TaskManager.FILE = Some c ->
  can_snapshot w1 = true ->
  has_slash (clock w1 0%nat) = false ->
  exists w',
    TaskManager.add_task w = (Ok tt, w')
    /\ files w' !! TaskManager.FILE
       = Some (fernet_encrypt (str_encode K) (urandom w1 0%nat)
                 (str_encode (json_dumps (PList (l ++
                    [PDict [("id", PInt (Z.of_nat (length l) + 1));
                            ("title", PStr (strip raw_title));
                            ("description", PStr (strip raw_description));
                            ("status", PStr "not done")]])))))
    /\ hash_file w'
       = Some (TaskManager.calculate_hash (json_dumps (PList (l ++
                    [PDict [("id", PInt (Z.of_nat (length l) + 1));
                            ("title", PStr (strip raw_title));
                            ("description", PStr (strip raw_description));
                            ("status", PStr "not done")]]))))
    /\ files w' !! TaskManager.backup_path (clock w1 0%nat) = Some c.
Proof.
  intros HK Hne Hok Hin Ht Hd Hload He Hc Hcan Hts.
  unfold TaskManager.add_task.
  unfold bind at 1. unfold input at 1. rewrite Hin. cbn [fst snd].
  destruct (strip raw_title) as [|a1 t1] eqn:Etitle; [congruence|].
  cbn [str_empty].
  unfold bind at 1. unfold input at 1.
  cbn [stdin set_stdin set_stdout].
  destruct (strip raw_description) as [|a2 t2] eqn:Edesc; [congruence|].
  cbn [str_empty].
  unfold bind at 1.
  match goal with |- context [TaskManager.load_tasks ?W] =>
    replace W with (after_answers rest w)
      by (unfold after_answers; cbn [stdout set_stdin set_stdout];
          rewrite <- app_assoc; reflexivity)
  end.
  rewrite Hload.
  unfold bind at 1. cbn [py_len]. unfold ret at 1.
  unfold bind at 1. cbn [py_append]. unfold ret at 1.
  unfold TaskManager.new_task.
  match goal with |- context [TaskManager.save_tasks ?t] =>
    destruct (tm_save_tasks_ok w1 K c t) as (w2 & Hrun & Hf & Hh & _)
  end; [congruence|exact Hne|exact Hok|exact Hc|exact Hcan|exact Hts|].
  unfold bind at 1. rewrite Hrun. mred.
  eexists. split; [reflexivity|]. mred. rewrite Hf, Hh.
  split; [apply lookup_insert_eq|]. split; [reflexivity|].
  rewrite lookup_insert_ne by apply not_eq_sym, backup_path_not_FILE.
  apply lookup_insert_eq.
Qed.

(** The same in a process that cannot take snapshots: [add_task] is
    abandoned with [PermissionError] and nothing is stored. *)
Lemma tm_add_task_denied (w w1 : world) (raw_title raw_description : string)
    (rest : list string) (l : list pyval) (c : list Byte.byte) :
  stdin w = raw_title :: raw_description :: rest ->
  strip raw_title <> "" -> strip raw_description <> "" ->
  TaskManager.load_tasks (after_answers rest w) = (Ok (PList l), w1) ->
  files w1 !! TaskManager.FILE = Some c ->
  snapshot_denied w1 = true ->
  has_slash (clock w1 0%nat) = false ->
  exists w',
    TaskManager.add_task w
    = (Raise (PermissionError (TaskManager.backup_path (clock w1 0%nat))), w')
    /\ files w' = files w1 /\ hash_file w' = hash_file w1
    /\ writes w' = writes w1
    /\ TaskManager.BACKUP_FOLDER ∈ dirs w'
    /\ dir_mode w' TaskManager.BACKUP_FOLDER = backup_folder_mode w1.
Proof.
  intros Hin Ht Hd Hload Hc Hden Hts.
  unfold TaskManager.add_task.
  unfold bind at 1. unfold input at 1. rewrite Hin. cbn [fst snd].
  destruct (strip raw_title) as [|a1 t1] eqn:Etitle; [congruence|].
  cbn [str_empty].
  unfold bind at 1. unfold input at 1.
  cbn [stdin set_stdin set_stdout].
  destruct (strip raw_description) as [|a2 t2] eqn:Edesc; [congruence|].
  cbn [str_empty].
  unfold bind at 1.
  match goal with |- context [TaskManager.load_tasks ?W] =>
    replace W with (after_answers rest w)
      by (unfold after_answers; cbn [stdout set_stdin set_stdout];
          rewrite <- app_assoc; reflexivity)
  end.
  rewrite Hload.
  unfold bind at 1. cbn [py_len]. unfold ret at 1.
  unfold bind at 1. cbn [py_append]. unfold ret at 1.
  match goal with |- context [TaskManager.save_tasks ?t] =>
    destruct (tm_save_tasks_denied w1 c t Hc Hden Hts)
      as (w2 & Hrun & Hf & Hh & Hw & _ & _ & _ & _ & Hin2 & Hmode2 & _)
  end.
  unfold bind at 1. rewrite Hrun. eauto 10.
Qed.

(** The first Load of a run with no store: the umask is set, the store is
    created as a token of the empty list, and that list is returned. *)
Lemma tm_first_load (w : world) (K : string) :
  fernet_roundtrip -> codec_roundtrip -> token_nonempty ->
  json_loads (json_dumps (PList [])) = Some (PList []) ->
  environ w = Some K -> K <> "" ->
  fernet_key_ok (str_encode K) = true ->
  files w !! TaskManager.FILE = None ->
  TaskManager.FILE ∉ dirs w ->
  exists lg,
    TaskManager.load_tasks w
    = (Ok (PList []),
       set_log lg
         (set_writes
            (writes w ++
             [(TaskManager.FILE,
               fernet_encrypt (str_encode K) (urandom w 0%nat)
                 (str_encode (json_dumps (PList []))))])
            (set_urandom (fun n => urandom w (S n))
               (set_files
                  (<[TaskManager.FILE :=
                       fernet_encrypt (str_encode K) (urandom w 0%nat)
                         (str_encode (json_dumps (PList [])))]> (files w))
                  (set_umask 127 w))))).
Proof.
  intros Hfernet Hcodec Hnonempty Hjson HK Hne Hok Hnone Hdir.
  unfold TaskManager.load_tasks, TaskManager.secure_file_creation.
  unfold bind at 1. unfold bind at 1. unfold os_path_exists at 1.
  rewrite Hnone. rewrite bool_decide_eq_false_2 by exact Hdir.
  cbn [negb]. unfold bind at 1. unfold os_umask at 1.
  unfold bind at 1. unfold open_wb at 1. unfold bind at 1.
  rewrite (encrypt_data_ok _ K); [|exact HK|exact Hne|exact Hok].
  unfold bind at 1. unfold file_write at 1. unfold logging at 1.
  unfold bind at 1. unfold read_rb at 1. mred.
  rewrite !lookup_insert_eq. cbn [default from_option id app].
  rewrite insert_insert_eq.
  pose proof (Hnonempty (str_encode K) (urandom w 0%nat)
                (str_encode (json_dumps (PList []))) Hok) as Htok.
  pose proof (Hfernet (str_encode K) (urandom w 0%nat)
                (str_encode (json_dumps (PList []))) Hok) as Hrt.
  destruct (fernet_encrypt (str_encode K) (urandom w 0%nat)
              (str_encode (json_dumps (PList [])))) as [|b tok] eqn:Etok;
    [congruence|].
  mred.
  erewrite decrypt_data_ok;
    [|mred; exact HK|exact Hne|exact Hok|exact Hrt|apply Hcodec].
  unfold TaskManager.verify_integrity. mred.
  destruct (hash_file w) as [stored|] eqn:Ehash.
  - destruct (String.eqb stored _); mred.
    + rewrite Hjson. eexists. reflexivity.
    + eexists. reflexivity.
  - mred. rewrite Hjson. eexists. reflexivity.
Qed.

(** [add_task] on a blank title, or on a blank description: an error
    message, and no file is touched. *)
Lemma tm_add_task_rejects (w : world) (raw_title : string)
    (rest : list string) :
  stdin w = raw_title :: rest ->
  strip raw_title = ""
  \/ (exists raw_description rest',
        rest = raw_description :: rest' /\ strip raw_description = "") ->
  fst (TaskManager.add_task w) = Ok tt
  /\ files (snd (TaskManager.add_task w)) = files w
  /\ hash_file (snd (TaskManager.add_task w)) = hash_file w
  /\ writes (snd (TaskManager.add_task w)) = writes w.
Proof.
  intros Hin Hblank.
  assert (Hrun : exists w', TaskManager.add_task w = (Ok tt, w')
                   /\ files w' = files w /\ hash_file w' = hash_file w
                   /\ writes w' = writes w).
  { unfold TaskManager.add_task.
    unfold bind at 1. unfold input at 1. rewrite Hin.
    destruct (strip raw_title) as [|a1 t1] eqn:Etitle.
    - cbn [str_empty]. mred. eauto.
    - destruct Hblank as [?|(rd & rest' & -> & Hd)]; [discriminate|].
      cbn [str_empty]. unfold bind at 1. unfold input at 1.
      cbn [stdin set_stdin set_stdout]. rewrite Hd.
      cbn [str_empty]. mred. eauto. }
  destruct Hrun as (w' & -> & Hf & Hh & Hw). auto.
Qed.

End TaskManagerAdd.

Section TrackerEncryptionAdd.
Context `{Platform}.

Lemma te_encrypt_data_frame (data : string) (k : list Byte.byte)
    (w w' : world) (r : result (list Byte.byte)) :
  files w !! TrackerEncryption.KEY_FILE = Some k ->
  TrackerEncryption.encrypt_data data w = (r, w') ->
  files w' = files w /\ stdin w' = stdin w.
Proof.
  intros Hk. unfold TrackerEncryption.encrypt_data. unfold bind at 1.
  rewrite (te_load_key_ok w k Hk).
  unfold TrackerEncryption.Fernet, TrackerEncryption.Fernet_encrypt.
  destruct (fernet_key_ok k); mred; intros E; injection E as _ <-; auto.
Qed.

Lemma te_decrypt_data_frame (enc k : list Byte.byte) (w w' : world)
    (r : result string) :
  files w !! TrackerEncryption.KEY_FILE = Some k ->
  TrackerEncryption.decrypt_data enc w = (r, w') ->
  files w' = files w /\ stdin w' = stdin w.
Proof.
  intros Hk. unfold TrackerEncryption.decrypt_data. unfold bind at 1.
  rewrite (te_load_key_ok w k Hk).
  unfold TrackerEncryption.Fernet, TrackerEncryption.Fernet_decrypt.
  destruct (fernet_key_ok k); mred.
  2:{ intros E; injection E as _ <-; auto. }
  destruct (fernet_decrypt k enc) as [raw|]; mred.
  2:{ intros E; injection E as _ <-; auto. }
  destruct (bytes_decode raw); mred; intros E; injection E as _ <-; auto.
Qed.

Lemma te_secure_file_creation_frame (k : list Byte.byte) (w w' : world)
    (r : result unit) :
  files w !! TrackerEncryption.KEY_FILE = Some k ->
  TrackerEncryption.secure_file_creation TrackerEncryption.FILE w = (r, w') ->
  files w' !! TrackerEncryption.KEY_FILE = Some k /\ stdin w' = stdin w.
Proof.
  intros Hk. unfold TrackerEncryption.secure_file_creation.
  unfold bind at 1. unfold os_path_exists at 1.
  destruct (negb _).
  2:{ unfold ret. intros E; injection E as _ <-; auto. }
  unfold bind at 1. unfold os_umask at 1. unfold bind at 1.
  unfold open_wb at 1. unfold bind at 1.
  match goal with |- context [TrackerEncryption.encrypt_data ?d ?w0] =>
    assert (Hk0 : files w0 !! TrackerEncryption.KEY_FILE = Some k)
      by (mred; rewrite lookup_insert_ne by discriminate; exact Hk);
    destruct (TrackerEncryption.encrypt_data d w0) as [[enc|e] w1] eqn:E1;
    (apply (te_encrypt_data_frame _ k) in E1 as (Hf & Hs); [|exact Hk0])
  end.
  - unfold file_write. intros E; injection E as _ <-. mred.
    rewrite Hf, Hs. mred. rewrite lookup_insert_ne by discriminate.
    rewrite lookup_insert_ne by discriminate. auto.
  - intros E; injection E as _ <-. rewrite Hf, Hs. mred.
    rewrite lookup_insert_ne by discriminate. auto.
Qed.

(** A Load that returns leaves the key file and the pending input as they
    were, and the store in place. *)
Lemma te_load_tasks_frame (k : list Byte.byte) (w w1 : world) (v : pyval) :
  files w !! TrackerEncryption.KEY_FILE = Some k ->
  TrackerEncryption.load_tasks w = (Ok v, w1) ->
  files w1 !! TrackerEncryption.KEY_FILE = Some k /\ stdin w1 = stdin w
  /\ is_Some (files w1 !! TrackerEncryption.FILE).
Proof.
  intros Hk. unfold TrackerEncryption.load_tasks. intros E.
  apply bind_ok_inv in E as ([] & w0 & E0 & E).
  apply (te_secure_file_creation_frame k) in E0 as (Hk0 & Hs0); [|exact Hk].
  apply bind_ok_inv in E as (enc & w0' & Er & E).
  apply read_rb_inv in Er as (Hfile & ->).
  destruct enc as [|b enc].
  { apply ret_inv in E as (_ & ->). eauto. }
  apply bind_ok_inv in E as (dec & w2 & Ed & E).
  apply (te_decrypt_data_frame _ k) in Ed as (Hf2 & Hs2); [|exact Hk0].
  apply lift_opt_inv in E as (_ & ->).
  rewrite Hf2, Hs2, Hk0, Hfile. eauto.
Qed.

Lemma te_load_tasks_ok (w : world) (k enc raw : list Byte.byte)
    (js : string) (v : pyval) :
  files w !! TrackerEncryption.KEY_FILE = Some k ->
  fernet_key_ok k = true ->
  files w !! TrackerEncryption.FILE = Some enc -> enc <> [] ->
  fernet_decrypt k enc = Some raw ->
  bytes_decode raw = Some js ->
  json_loads js = Some v ->
  exists w',
    TrackerEncryption.load_tasks w = (Ok v, w')
    /\ files w' = files w /\ stdin w' = stdin w.
Proof.
  intros Hk Hok Hfile Henc Hdec Hraw Hjs.
  unfold TrackerEncryption.load_tasks, TrackerEncryption.secure_file_creation.
  unfold bind at 1. unfold bind at 1. unfold os_path_exists at 1.
  rewrite Hfile. cbn [negb]. unfold ret at 1. unfold bind at 1.
  unfold read_rb at 1. rewrite Hfile.
  destruct enc as [|b enc]; [congruence|].
  unfold bind at 1.
  rewrite (te_decrypt_data_ok w k _ raw js Hk Hok Hdec Hraw).
  rewrite Hjs. mred. eexists. split; [reflexivity|]. mred. auto.
Qed.

Lemma te_add_task_persists (w w1 : world) (k : list Byte.byte)
    (raw_title raw_description : string) (rest : list string)
    (l : list pyval) :
  files w !! TrackerEncryption.KEY_FILE = Some k ->
  fernet_key_ok k = true ->
  stdin w = raw_title :: raw_description :: rest ->
  strip raw_title <> "" -> strip raw_description <> "" ->
  (input "Enter task title: " ;; input "Enter task description: " ;;
   TrackerEncryption.load_tasks) w = (Ok (PList l), w1) ->
  exists w',
    TrackerEncryption.add_task w = (Ok tt, w')
    /\ files w' !! TrackerEncryption.FILE
       = Some (fernet_encrypt k (urandom w1 0%nat)
                 (str_encode (json_dumps (PList (l ++
                    [PDict [("id", PInt (Z.of_nat (length l) + 1));
                            ("title", PStr (strip raw_title));
                            ("description", PStr (strip raw_description));
                            ("status", PStr "not done")]]))))).
Proof.
  intros Hk Hok Hin Ht Hd Hload.
  unfold TrackerEncryption.add_task.
  unfold bind at 1 in Hload. unfold bind at 1.
  unfold input at 1 in Hload. unfold input at 1.
  rewrite Hin in *. cbn [fst snd] in *.
  destruct (strip raw_title) as [|a1 t1] eqn:Etitle; [congruence|].
  cbn [str_empty].
  unfold bind at 1 in Hload. unfold bind at 1.
  unfold input at 1 in Hload. unfold input at 1.
  cbn [stdin set_stdin set_stdout] in *.
  destruct (strip raw_description) as [|a2 t2] eqn:Edesc; [congruence|].
  cbn [str_empty].
  unfold bind at 1. rewrite Hload.
  apply (te_load_tasks_frame k) in Hload as (Hk1 & _ & (c & Hc));
    [|mred; exact Hk].
  unfold bind at 1. cbn [py_len]. unfold ret at 1.
  unfold bind at 1. cbn [py_append]. unfold ret at 1.
  unfold TrackerEncryption.new_task.
  match goal with |- context [TrackerEncryption.save_tasks ?t] =>
    destruct (te_save_tasks_ok w1 k c t Hk1 Hok Hc) as (w2 & Hrun & Hf & _)
  end.
  unfold bind at 1. rewrite Hrun. mred.
  eexists. split; [reflexivity|]. mred. rewrite Hf.
  apply lookup_insert_eq.
Qed.

Lemma te_add_task_rejects (w : world) (raw_title : string)
    (rest : list string) :
  stdin w = raw_title :: rest ->
  strip raw_title = ""
  \/ (exists raw_description rest',
        rest = raw_description :: rest' /\ strip raw_description = "") ->
  fst (TrackerEncryption.add_task w) = Ok tt
  /\ files (snd (TrackerEncryption.add_task w)) = files w
  /\ writes (snd (TrackerEncryption.add_task w)) = writes w.
Proof.
  intros Hin Hblank.
  assert (Hrun : exists w', TrackerEncryption.add_task w = (Ok tt, w')
                   /\ files w' = files w /\ writes w' = writes w).
  { unfold TrackerEncryption.add_task.
    unfold bind at 1. unfold input at 1. rewrite Hin.
    destruct (strip raw_title) as [|a1 t1] eqn:Etitle.
    - cbn [str_empty]. mred. eauto.
    - destruct Hblank as [?|(rd & rest' & -> & Hd)]; [discriminate|].
      cbn [str_empty]. unfold bind at 1. unfold input at 1.
      cbn [stdin set_stdin set_stdout]. rewrite Hd.
      cbn [str_empty]. mred. eauto. }
  destruct Hrun as (w' & -> & Hf & Hw). auto.
Qed.

End TrackerEncryptionAdd.

Section AddTaskStored.
Context `{Platform}.

(** [add_task] of [TaskManager.py] on a stored list that passes the
    integrity check: it appends and persists in a process that can take
    snapshots, and is abandoned with nothing stored in one that cannot. *)
Lemma tm_add_task_stored (w : world) (K : string) (enc raw : list Byte.byte)
    (js : string) (l : list pyval) (raw_title raw_description : string)
    (rest : list string) :
  environ w = Some K -> K <> "" ->
  fernet_key_ok (str_encode K) = true ->
  files w !! TaskManager.FILE = Some enc -> enc <> [] ->
  fernet_decrypt (str_encode K) enc = Some raw ->
  bytes_decode raw = Some js ->
  json_loads js = Some (PList l) ->
  hash_file w = None \/ hash_file w = Some (TaskManager.calculate_hash js) ->
  stdin w = raw_title :: raw_description :: rest ->
  strip raw_title <> "" -> strip raw_description <> "" ->
  has_slash (clock w 0%nat) = false ->
  (can_snapshot w = true ->
   exists w',
     TaskManager.add_task w = (Ok tt, w')
     /\ files w' !! TaskManager.FILE
        = Some (fernet_encrypt (str_encode K) (urandom w 0%nat)
                  (str_encode (json_dumps (PList (l ++
                     [PDict [("id", PInt (Z.of_nat (length l) + 1));
                             ("title", PStr (strip raw_title));
                             ("description", PStr (strip raw_description));
                             ("status", PStr "not done")]])))))
     /\ hash_file w'
        = Some (TaskManager.calculate_hash (json_dumps (PList (l ++
                     [PDict [("id", PInt (Z.of_nat (length l) + 1));
                             ("title", PStr (strip raw_title));
                             ("description", PStr (strip raw_description));
                             ("status", PStr "not done")]]))))
     /\ files w' !! TaskManager.backup_path (clock w 0%nat) = Some enc)
  /\ (snapshot_denied w = true ->
      exists w',
        TaskManager.add_task w
        = (Raise (PermissionError (TaskManager.backup_path (clock w 0%nat))),
           w')
        /\ files w' = files w /\ hash_file w' = hash_file w
        /\ writes w' = writes w
        /\ TaskManager.BACKUP_FOLDER ∈ dirs w'
        /\ dir_mode w' TaskManager.BACKUP_FOLDER = backup_folder_mode w).
Proof.
  intros HK Hne Hok Hfile Henc Hdec Hraw Hjs Hhash Hin Ht Hd Hts.
  destruct (tm_load_tasks_ok (after_answers rest w) K enc raw js (PList l))
    as (w1 & Hload & _); try assumption.
  destruct (tm_load_tasks_only_logs (after_answers rest w) w1 enc _
              Hfile Hload) as (lg & ->).
  split; intros Hcase.
  - destruct (tm_add_task_persists w _ K raw_title raw_description rest l enc
                HK Hne Hok Hin Ht Hd Hload)
      as (w' & Hrun & Hstore & Hdigest & Hsnap); try assumption;
      try reflexivity.
    eauto.
  - destruct (tm_add_task_denied w _ raw_title raw_description rest l enc
                Hin Ht Hd Hload)
      as (w' & Hrun & Hf & Hh & Hw & Hin' & Hmode'); try assumption.
    eauto 10.
Qed.

(** The first task of a first run.  In a directory with no store, no
    integrity file and no backup folder, the Load that opens every run
    creates the store and sets the umask of the process to [0o177]; with
    the choice 1 and two answers typed in, the Save of [add_task] then
    makes the backup folder under that umask, with a mode its owner may
    not search, and the copy into it raises [PermissionError]: the program
    ends and the store still holds the empty list. *)
Lemma tm_first_session_denied (w : world)
    (K choice raw_title raw_description : string) (rest : list string)
    (rounds : nat) :
  fernet_roundtrip -> codec_roundtrip -> token_nonempty ->
  json_loads (json_dumps (PList [])) = Some (PList []) ->
  environ w = Some K -> K <> "" ->
  fernet_key_ok (str_encode K) = true ->
  files w !! TaskManager.FILE = None ->
  TaskManager.FILE ∉ dirs w ->
  hash_file w = None ->
  files w !! TaskManager.BACKUP_FOLDER = None ->
  TaskManager.BACKUP_FOLDER ∉ dirs w ->
  superuser w = false ->
  has_slash (clock w 0%nat) = false ->
  stdin w = choice :: raw_title :: raw_description :: rest ->
  strip choice = "1" ->
  strip raw_title <> "" -> strip raw_description <> "" ->
  exists w',
    TaskManager.script (S rounds) w
    = (Raise (PermissionError (TaskManager.backup_path (clock w 0%nat))), w')
    /\ files w' !! TaskManager.FILE
       = Some (fernet_encrypt (str_encode K) (urandom w 0%nat)
                 (str_encode (json_dumps (PList []))))
    /\ hash_file w' = None.
Proof.
  intros Hfernet Hcodec Hnonempty Hjson HK Hne Hok Hnone Hdir Hhash Hnb Hbd
    Hsu Hts Hin Hchoice Ht Hd.
  unfold TaskManager.script. unfold bind at 1. unfold logging at 1.
  cbn [TaskManager.main]. unfold TaskManager.display_tasks.
  match goal with |- context [TaskManager.load_tasks] =>
    match goal with |- exists w', bind _ _ ?W0 = _ /\ _ =>
      destruct (tm_first_load W0 K Hfernet Hcodec Hnonempty Hjson)
        as (lg & Hload); try assumption
    end
  end.
  unfold bind at 1. unfold bind at 1. rewrite Hload.
  cbn [py_truthy negb]. mred. rewrite Hin. mred. rewrite Hchoice.
  cbn [String.eqb Ascii.eqb Bool.eqb].
  match goal with |- context [TaskManager.add_task ?W] => set (w1 := W) end.
  assert (Hfile1 : files w1 !! TaskManager.FILE
            = Some (fernet_encrypt (str_encode K) (urandom w 0%nat)
                      (str_encode (json_dumps (PList []))))).
  { subst w1. mred. apply lookup_insert_eq. }
  assert (Hden : snapshot_denied w1 = true).
  { subst w1. unfold snapshot_denied, backup_folder_mode. mred.
    rewrite lookup_insert_ne by discriminate. rewrite Hnb, Hsu.
    rewrite bool_decide_eq_false_2 by exact Hbd. reflexivity. }
  destruct (tm_add_task_stored w1 K _ (str_encode (json_dumps (PList [])))
              (json_dumps (PList [])) [] raw_title raw_description rest
              HK Hne Hok Hfile1) as (_ & Hdenied).
  - apply Hnonempty. exact Hok.
  - apply Hfernet. exact Hok.
  - apply Hcodec.
  - exact Hjson.
  - left. exact Hhash.
  - reflexivity.
  - exact Ht.
  - exact Hd.
  - exact Hts.
  - destruct (Hdenied Hden) as (w' & Hrun & Hf & Hh & _).
    rewrite Hrun.
    exists w'. split; [reflexivity|]. rewrite Hf, Hh.
    split; [exact Hfile1|exact Hhash].
Qed.

(** [add_task] of [tracker_Encryption.py] on a stored list. *)
Lemma te_add_task_stored (w : world) (k enc raw : list Byte.byte)
    (js : string) (l : list pyval) (raw_title raw_description : string)
    (rest : list string) :
  files w !! TrackerEncryption.KEY_FILE = Some k ->
  fernet_key_ok k = true ->
  files w !! TrackerEncryption.FILE = Some enc -> enc <> [] ->
  fernet_decrypt k enc = Some raw ->
  bytes_decode raw = Some js ->
  json_loads js = Some (PList l) ->
  stdin w = raw_title :: raw_description :: rest ->
  strip raw_title <> "" -> strip raw_description <> "" ->
  exists w' nonce,
    TrackerEncryption.add_task w = (Ok tt, w')
    /\ files w' !! TrackerEncryption.FILE
       = Some (fernet_encrypt k nonce
                 (str_encode (json_dumps (PList (l ++
                    [PDict [("id", PInt (Z.of_nat (length l) + 1));
                            ("title", PStr (strip raw_title));
                            ("description", PStr (strip raw_description));
                            ("status", PStr "not done")]]))))).
Proof.
  intros Hk Hok Hfile Henc Hdec Hraw Hjs Hin Ht Hd.
  destruct (te_load_tasks_ok (after_answers rest w) k enc raw js (PList l))
    as (w1 & Hload & _); try assumption.
  rewrite <- (add_task_answers _ w raw_title raw_description rest Hin)
    in Hload.
  destruct (te_add_task_persists w w1 k raw_title raw_description rest l
              Hk Hok Hin Ht Hd Hload) as (w' & Hrun & Hstore).
  eauto.
Qed.

End AddTaskStored.

Section FirstRun.
Context `{Platform}.

(** A first run of [TaskManager.py] by a user subject to permission
    checks locks the backup folder.  The Load that opens the run creates
    the store and sets the umask to [0o177]; the first Save, whatever the
    tasks, makes [backups/] under that umask with mode [0o600], fails with
    [PermissionError] and stores nothing; and with the folder left in
    that mode every later Save fails the same way, whatever the umask of
    the process that makes it. *)
Theorem tm_first_run_locks_backup_folder (w : world) (K : string)
    (tasks : pyval) :
  fernet_roundtrip -> codec_roundtrip -> token_nonempty ->
  json_loads (json_dumps (PList [])) = Some (PList []) ->
  environ w = Some K -> K <> "" ->
  fernet_key_ok (str_encode K) = true ->
  files w !! TaskManager.FILE = None ->
  TaskManager.FILE ∉ dirs w ->
  files w !! TaskManager.BACKUP_FOLDER = None ->
  TaskManager.BACKUP_FOLDER ∉ dirs w ->
  superuser w = false ->
  (forall i, has_slash (clock w i) = false) ->
  exists w1 w2,
    TaskManager.load_tasks w = (Ok (PList []), w1)
    /\ TaskManager.save_tasks tasks w1
       = (Raise (PermissionError (TaskManager.backup_path (clock w 0%nat))),
          w2)
    /\ files w2 = files w1 /\ hash_file w2 = hash_file w
    /\ TaskManager.BACKUP_FOLDER ∈ dirs w2
    /\ dir_mode w2 TaskManager.BACKUP_FOLDER = 384%Z
    /\ (forall (u : Z) (later : pyval),
          exists w3,
            TaskManager.save_tasks later (set_umask u w2)
            = (Raise (PermissionError
                        (TaskManager.backup_path (clock w 1%nat))), w3)
            /\ files w3 = files w1 /\ hash_file w3 = hash_file w).
Proof.
  intros Hfernet Hcodec Hnonempty Hjson HK Hne Hok Hnone Hdir Hnb Hbd Hsu Hts.
  destruct (tm_first_load w K Hfernet Hcodec Hnonempty Hjson HK Hne Hok
              Hnone Hdir) as (lg & Hload).
  match type of Hload with _ = (_, ?W) => set (w1 := W) in * end.
  assert (Hfile1 : files w1 !! TaskManager.FILE
            = Some (fernet_encrypt (str_encode K) (urandom w 0%nat)
                      (str_encode (json_dumps (PList []))))).
  { subst w1. mred. apply lookup_insert_eq. }
  assert (Hnb1 : files w1 !! TaskManager.BACKUP_FOLDER = None).
  { subst w1. mred. rewrite lookup_insert_ne by discriminate. exact Hnb. }
  assert (Hden : snapshot_denied w1 = true).
  { unfold snapshot_denied, backup_folder_mode. rewrite Hnb1.
    subst w1. mred. rewrite Hsu.
    rewrite bool_decide_eq_false_2 by exact Hbd. reflexivity. }
  assert (Hmode1 : backup_folder_mode w1 = 384%Z).
  { subst w1. unfold backup_folder_mode. mred.
    rewrite bool_decide_eq_false_2 by exact Hbd. reflexivity. }
  destruct (tm_save_tasks_denied w1 _ tasks Hfile1 Hden (Hts 0%nat))
    as (w2 & Hrun & Hf & Hh & Hw & He & Hs & Hum & Hsu2 & Hin & Hmode & Hcl
        & Hden2).
  exists w1, w2. split; [exact Hload|]. split; [exact Hrun|].
  split; [exact Hf|]. split; [rewrite Hh; reflexivity|].
  split; [exact Hin|]. split; [rewrite Hmode; exact Hmode1|].
  intros u later.
  assert (Hden3 : snapshot_denied (set_umask u w2) = true).
  { unfold snapshot_denied, backup_folder_mode. mred.
    rewrite Hf, Hnb1, Hsu2, (bool_decide_eq_true_2 _ Hin), Hmode, Hmode1.
    subst w1. mred. rewrite Hsu. reflexivity. }
  assert (Hfile3 : files (set_umask u w2) !! TaskManager.FILE
            = Some (fernet_encrypt (str_encode K) (urandom w 0%nat)
                      (str_encode (json_dumps (PList [])))))
    by (mred; rewrite Hf; exact Hfile1).
  assert (Hts3 : has_slash (clock (set_umask u w2) 0%nat) = false)
    by (mred; rewrite Hcl; apply Hts).
  destruct (tm_save_tasks_denied (set_umask u w2) _ later Hfile3 Hden3 Hts3)
    as (w3 & Hrun3 & Hf3 & Hh3 & _).
  exists w3. mred_in Hrun3. rewrite Hcl in Hrun3.
  split; [exact Hrun3|]. mred_in Hf3. mred_in Hh3.
  rewrite Hf3, Hh3, Hf, Hh. split; reflexivity.
Qed.

End FirstRun.

(** C5: [add_task] on a title and a description that are not blank,
    with a list of [k] tasks in the store.  In [tracker_Encryption.py],
    and in [TaskManager.py] when the process can write the backup folder,
    it stores that list with one task more at the end, numbered [k + 1],
    with the stripped title and description and the status ["not done"].
    On a blank title or a blank description it returns after an error
    message and no file is written.  [TaskManager.py] started on a first
    run (no store, no backup folder, a process subject to permission
    checks) with the choice 1 and two such answers ends with
    [PermissionError], raised in the backup step of the Save, and the task
    is not stored. *)
Theorem add_task_appends_or_rejects `{Platform} :
  (forall (w : world) (K : string) (enc raw : list Byte.byte) (js : string)
          (l : list pyval) (raw_title raw_description : string)
          (rest : list string),
     environ w = Some K -> K <> "" ->
     fernet_key_ok (str_encode K) = true ->
     files w !! TaskManager.FILE = Some enc -> enc <> [] ->
     fernet_decrypt (str_encode K) enc = Some raw ->
     bytes_decode raw = Some js ->
     json_loads js = Some (PList l) ->
     hash_file w = None
     \/ hash_file w = Some (TaskManager.calculate_hash js) ->
     stdin w = raw_title :: raw_description :: rest ->
     strip raw_title <> "" -> strip raw_description <> "" ->
     has_slash (clock w 0%nat) = false ->
     can_snapshot w = true ->
     exists w',
       TaskManager.add_task w = (Ok tt, w')
       /\ files w' !! TaskManager.FILE
          = Some (fernet_encrypt (str_encode K) (urandom w 0%nat)
                    (str_encode (json_dumps (PList (l ++
                       [PDict [("id", PInt (Z.of_nat (length l) + 1));
                               ("title", PStr (strip raw_title));
                               ("description", PStr (strip raw_description));
                               ("status", PStr "not done")]])))))
       /\ hash_file w'
          = Some (TaskManager.calculate_hash (json_dumps (PList (l ++
                       [PDict [("id", PInt (Z.of_nat (length l) + 1));
                               ("title", PStr (strip raw_title));
                               ("description", PStr (strip raw_description));
                               ("status", PStr "not done")]])))))
  /\ (forall (w : world) (k enc raw : list Byte.byte) (js : string)
             (l : list pyval) (raw_title raw_description : string)
             (rest : list string),
        files w !! TrackerEncryption.KEY_FILE = Some k ->
        fernet_key_ok k = true ->
        files w !! TrackerEncryption.FILE = Some enc -> enc <> [] ->
        fernet_decrypt k enc = Some raw ->
        bytes_decode raw = Some js ->
        json_loads js = Some (PList l) ->
        stdin w = raw_title :: raw_description :: rest ->
        strip raw_title <> "" -> strip raw_description <> "" ->
        exists w' nonce,
          TrackerEncryption.add_task w = (Ok tt, w')
          /\ files w' !! TrackerEncryption.FILE
             = Some (fernet_encrypt k nonce
                       (str_encode (json_dumps (PList (l ++
                          [PDict [("id", PInt (Z.of_nat (length l) + 1));
                                  ("title", PStr (strip raw_title));
                                  ("description", PStr (strip raw_description));
                                  ("status", PStr "not done")]]))))))
  /\ (forall (w : world) (raw_title : string) (rest : list string),
        stdin w = raw_title :: rest ->
        strip raw_title = ""
        \/ (exists raw_description rest',
              rest = raw_description :: rest'
              /\ strip raw_description = "") ->
        (fst (TaskManager.add_task w) = Ok tt
         /\ files (snd (TaskManager.add_task w)) = files w
         /\ hash_file (snd (TaskManager.add_task w)) = hash_file w
         /\ writes (snd (TaskManager.add_task w)) = writes w)
        /\ (fst (TrackerEncryption.add_task w) = Ok tt
            /\ files (snd (TrackerEncryption.add_task w)) = files w
            /\ writes (snd (TrackerEncryption.add_task w)) = writes w))
  /\ (forall (w : world) (K choice raw_title raw_description : string)
             (rest : list string) (rounds : nat),
        fernet_roundtrip -> codec_roundtrip -> token_nonempty ->
        json_loads (json_dumps (PList [])) = Some (PList []) ->
        environ w = Some K -> K <> "" ->
        fernet_key_ok (str_encode K) = true ->
        files w !! TaskManager.FILE = None ->
        TaskManager.FILE ∉ dirs w ->
        hash_file w = None ->
        files w !! TaskManager.BACKUP_FOLDER = None ->
        TaskManager.BACKUP_FOLDER ∉ dirs w ->
        superuser w = false ->
        has_slash (clock w 0%nat) = false ->
        stdin w = choice :: raw_title :: raw_description :: rest ->
        strip choice = "1" ->
        strip raw_title <> "" -> strip raw_description <> "" ->
        exists w',
          TaskManager.script (S rounds) w
          = (Raise (PermissionError
                      (TaskManager.backup_path (clock w 0%nat))), w')
          /\ files w' !! TaskManager.FILE
             = Some (fernet_encrypt (str_encode K) (urandom w 0%nat)
                       (str_encode (json_dumps (PList []))))
          /\ hash_file w' = None).
Proof.
  split; [|split; [|split]].
  - intros w K enc raw js l raw_title raw_description rest
      HK Hne Hok Hfile Henc Hdec Hraw Hjs Hhash Hin Ht Hd Hts Hcan.
    destruct (tm_add_task_stored w K enc raw js l raw_title raw_description
                rest HK Hne Hok Hfile Henc Hdec Hraw Hjs Hhash Hin Ht Hd Hts)
      as (Hyes & _).
    destruct (Hyes Hcan) as (w' & Hrun & Hstore & Hdigest & _). eauto.
  - intros w k enc raw js l raw_title raw_description rest
      Hk Hok Hfile Henc Hdec Hraw Hjs Hin Ht Hd.
    exact (te_add_task_stored w k enc raw js l raw_title raw_description
             rest Hk Hok Hfile Henc Hdec Hraw Hjs Hin Ht Hd).
  - intros w raw_title rest Hin Hblank. split.
    + eapply tm_add_task_rejects; eassumption.
    + eapply te_add_task_rejects; eassumption.
  - intros w K choice raw_title raw_description rest rounds
      Hfernet Hcodec Hnonempty Hjson
      HK Hne Hok Hnone Hdir Hhash Hnb Hbd Hsu Hts Hin Hchoice Ht Hd.
    exact (tm_first_session_denied w K choice raw_title raw_description rest
             rounds Hfernet Hcodec Hnonempty Hjson HK Hne Hok Hnone Hdir
             Hhash Hnb Hbd Hsu Hts Hin Hchoice Ht Hd).
Qed.

(** ** Updating the status of a task *)

Lemma dict_get_set_other (k k' : string) (v : pyval)
    (d : list (string * pyval)) :
  k' <> k -> dict_get k' (dict_set k v d) = dict_get k' d.
Proof.
  intros Hk. induction d as [|[k0 v0] d IH]; cbn [dict_set dict_get].
  - destruct (String.eqb_spec k k'); [congruence|reflexivity].
  - destruct (String.eqb_spec k0 k) as [->|Hk0]; cbn [dict_get].
    + destruct (String.eqb_spec k k'); [congruence|reflexivity].
    + destruct (String.eqb_spec k0 k'); [reflexivity|exact IH].
Qed.

Lemma dict_get_set_same (k : string) (v : pyval) (d : list (string * pyval)) :
  dict_get k (dict_set k v d) = Some v.
Proof.
  induction d as [|[k0 v0] d IH]; cbn [dict_set dict_get].
  - rewrite String.eqb_refl. reflexivity.
  - destruct (String.eqb_spec k0 k) as [->|Hk0]; cbn [dict_get].
    + rewrite String.eqb_refl. reflexivity.
    + destruct (String.eqb_spec k0 k); [congruence|exact IH].
Qed.

Lemma dict_set_keys (k : string) (v : pyval) (d : list (string * pyval)) :
  is_Some (dict_get k d) -> map fst (dict_set k v d) = map fst d.
Proof.
  induction d as [|[k0 v0] d IH]; cbn [dict_set dict_get]; intros Hs.
  - destruct Hs as (x & Hx). discriminate.
  - destruct (String.eqb_spec k0 k) as [->|Hk0]; cbn [map fst].
    + reflexivity.
    + f_equal. apply IH. exact Hs.
Qed.

Lemma mark_status_no_match (n : Z) (s : string) (l : list pyval) :
  existsb (id_matches n) l = false -> map (mark_status n s) l = l.
Proof.
  induction l as [|t l IH]; cbn [existsb map]; [reflexivity|].
  intros E. apply orb_false_iff in E as (Et & El).
  rewrite (IH El). f_equal.
  destruct t; cbn [mark_status]; try reflexivity. rewrite Et. reflexivity.
Qed.

Lemma mark_status_length (n : Z) (s : string) (l : list pyval) :
  length (map (mark_status n s) l) = length l.
Proof. apply length_map. Qed.

(** What [mark_status] changes in an item: the status of a matching
    item, and nothing else. *)
Lemma mark_status_frame (n : Z) (s : string) (d : list (string * pyval)) :
  exists d',
    mark_status n s (PDict d) = PDict d'
    /\ (forall k, k <> "status" -> dict_get k d' = dict_get k d)
    /\ (id_matches n (PDict d) = false -> d' = d)
    /\ (id_matches n (PDict d) = true ->
        dict_get "status" d' = Some (PStr s))
    /\ (is_Some (dict_get "status" d) -> map fst d' = map fst d).
Proof.
  cbn [mark_status]. destruct (id_matches n (PDict d)) eqn:Em.
  - eexists. split; [reflexivity|]. split; [|split; [|split]].
    + intros k Hk. apply dict_get_set_other. exact Hk.
    + discriminate.
    + intros _. apply dict_get_set_same.
    + apply dict_set_keys.
  - exists d. split; [reflexivity|]. split; [|split; [|split]];
      try reflexivity; try discriminate; auto.
Qed.

Section TaskManagerUpdate.
Context `{Platform}.

Lemma tm_any_id_eq_spec (items : list pyval) (n : Z) (w : world) :
  Forall has_id items ->
  TaskManager.any_id_eq items n w = (Ok (existsb (id_matches n) items), w).
Proof.
  induction 1 as [|t items Ht _ IH]; cbn [TaskManager.any_id_eq existsb].
  - reflexivity.
  - destruct t as [| | | | |d]; try contradiction.
    destruct Ht as (v & Hv). cbn [id_matches]. unfold bind at 1.
    cbn [py_getitem]. rewrite Hv. cbn [lift_opt]. unfold ret at 1.
    destruct (py_eq_int v n); cbn [orb]; [reflexivity|exact IH].
Qed.

Lemma tm_get_valid_task_id_first (w : world) (line : string)
    (rest : list string) (n : Z) (l : list pyval) :
  stdin w = line :: rest ->
  py_int (strip line) = Some n ->
  Forall has_id l -> existsb (id_matches n) l = true ->
  TaskManager.get_valid_task_id_loop (PList l) (stdin w) w
  = (Ok n, set_stdin rest (set_stdout (stdout w ++ ["Enter task ID: "]) w)).
Proof.
  intros Hin Hint Hids Hex.
  destruct (stdin w) as [|l0 pending] eqn:Es; [discriminate|].
  injection Hin as -> ->.
  cbn [TaskManager.get_valid_task_id_loop].
  unfold bind at 1. unfold input at 1. rewrite Es. rewrite Hint.
  unfold bind at 1. cbn [py_iter]. unfold ret at 1. unfold bind at 1.
  rewrite (tm_any_id_eq_spec l n _ Hids). rewrite Hex. reflexivity.
Qed.

Lemma tm_status_choice_first (w : world) (line : string)
    (rest : list string) (s : string) :
  stdin w = line :: rest ->
  (strip line = "1" /\ s = "in progress")
  \/ (strip line = "2" /\ s = "done") ->
  TaskManager.status_choice_loop (stdin w) w
  = (Ok s, set_stdin rest
             (set_stdout (stdout w ++ ["Enter your choice (1 or 2): "]) w)).
Proof.
  intros Hin Hchoice.
  destruct (stdin w) as [|l0 pending] eqn:Es; [discriminate|].
  injection Hin as -> ->.
  cbn [TaskManager.status_choice_loop].
  unfold bind at 1. unfold input at 1. rewrite Es.
  destruct Hchoice as [(-> & ->)|(-> & ->)]; reflexivity.
Qed.

(** The loop of [update_task_status] over items that all carry an id:
    it returns; when some item matches, the store and the digest are
    those of the list with every matching item marked; when none does,
    they are untouched. *)
Lemma tm_update_status_loop_spec (K : string) (n : Z) (s : string)
    (l0 : list pyval) :
  K <> "" -> fernet_key_ok (str_encode K) = true ->
  forall (todo seen : list pyval) (w : world) (c : list Byte.byte),
    environ w = Some K ->
    files w !! TaskManager.FILE = Some c ->
    can_snapshot w = true ->
    (forall i, has_slash (clock w i) = false) ->
    Forall has_id todo ->
    exists w',
      TaskManager.update_status_loop (PList l0) n s seen todo w = (Ok tt, w')
      /\ (existsb (id_matches n) todo = true ->
          (exists nonce,
             files w' !! TaskManager.FILE
             = Some (fernet_encrypt (str_encode K) nonce
                       (str_encode (json_dumps
                          (PList (seen ++ map (mark_status n s) todo))))))
          /\ hash_file w'
             = Some (TaskManager.calculate_hash
                       (json_dumps
                          (PList (seen ++ map (mark_status n s) todo)))))
      /\ (existsb (id_matches n) todo = false ->
          files w' !! TaskManager.FILE = files w !! TaskManager.FILE
          /\ hash_file w' = hash_file w).
Proof.
  intros Hne Hok. induction todo as [|t todo IH];
    intros seen w c HK Hc Hcan Hts Hids;
    cbn [TaskManager.update_status_loop].
  - exists w. split; [reflexivity|]. cbn [existsb].
    split; [discriminate|auto].
  - apply Forall_cons in Hids as (Ht & Hids).
    destruct t as [| | | | |d]; try contradiction.
    destruct Ht as (v & Hv).
    unfold bind at 1. cbn [py_getitem]. rewrite Hv. cbn [lift_opt].
    unfold ret at 1.
    assert (Hm : id_matches n (PDict d) = py_eq_int v n).
    { cbn [id_matches]. rewrite Hv. reflexivity. }
    cbn [existsb map]. rewrite Hm.
    destruct (py_eq_int v n) eqn:Ev.
    + unfold bind at 1. cbn [py_setitem]. unfold ret at 1.
      cbn [with_items].
      assert (Hmark : mark_status n s (PDict d)
                      = PDict (dict_set "status" (PStr s) d)).
      { cbn [mark_status]. rewrite Hm. reflexivity. }
      rewrite Hmark.
      destruct (tm_save_tasks_ok w K c
                  (PList (seen ++ PDict (dict_set "status" (PStr s) d) :: todo))
                  HK Hne Hok Hc Hcan (Hts 0%nat))
        as (w1 & Hrun & Hf & Hh & He & Hcl & _ & _ & _ & _ & _ & Hcan1).
      unfold bind at 1. rewrite Hrun.
      unfold bind at 1. unfold logging at 1.
      unfold bind at 1. unfold print at 1.
      match goal with
      | |- context [TaskManager.update_status_loop _ _ _ ?sn todo ?w2] =>
          destruct (IH sn w2
                      (fernet_encrypt (str_encode K) (urandom w 0%nat)
                         (str_encode (json_dumps (PList
                            (seen ++ PDict (dict_set "status" (PStr s) d)
                                  :: todo))))))
            as (w' & Hrun' & Hsome & Hnone)
      end.
      * mred. congruence.
      * mred. rewrite Hf. apply lookup_insert_eq.
      * exact Hcan1.
      * intros i. mred. rewrite Hcl. apply Hts.
      * exact Hids.
      * exists w'. split; [exact Hrun'|]. cbn [orb].
        split; [|discriminate]. intros _.
        destruct (existsb (id_matches n) todo) eqn:Ex.
        -- rewrite <- app_assoc in Hsome. cbn [app] in Hsome.
           apply Hsome. reflexivity.
        -- destruct (Hnone eq_refl) as (Hf' & Hh').
           mred_in Hf'. mred_in Hh'.
           rewrite (mark_status_no_match n s todo Ex).
           rewrite Hf', Hh', Hh, Hf. rewrite lookup_insert_eq.
           split; [eexists; reflexivity|reflexivity].
    + assert (Hmark : mark_status n s (PDict d) = PDict d).
      { cbn [mark_status]. rewrite Hm. reflexivity. }
      rewrite Hmark. cbn [orb].
      destruct (IH (seen ++ [PDict d]) w c HK Hc Hcan Hts Hids)
        as (w' & Hrun' & Hsome & Hnone).
      exists w'. split; [exact Hrun'|].
      rewrite <- app_assoc in Hsome. cbn [app] in Hsome.
      split; assumption.
Qed.

End TaskManagerUpdate.

Section TrackerEncryptionUpdate.
Context `{Platform}.

Lemma te_any_id_eq_spec (items : list pyval) (n : Z) (w : world) :
  Forall has_id items ->
  TrackerEncryption.any_id_eq items n w
  = (Ok (existsb (id_matches n) items), w).
Proof.
  induction 1 as [|t items Ht _ IH];
    cbn [TrackerEncryption.any_id_eq existsb].
  - reflexivity.
  - destruct t as [| | | | |d]; try contradiction.
    destruct Ht as (v & Hv). cbn [id_matches]. unfold bind at 1.
    cbn [py_getitem]. rewrite Hv. cbn [lift_opt]. unfold ret at 1.
    destruct (py_eq_int v n); cbn [orb]; [reflexivity|exact IH].
Qed.

Lemma te_get_valid_task_id_first (w : world) (line : string)
    (rest : list string) (n : Z) (l : list pyval) :
  stdin w = line :: rest ->
  py_int (strip line) = Some n ->
  Forall has_id l -> existsb (id_matches n) l = true ->
  TrackerEncryption.get_valid_task_id_loop (PList l) (stdin w) w
  = (Ok n, set_stdin rest (set_stdout (stdout w ++ ["Enter task ID: "]) w)).
Proof.
  intros Hin Hint Hids Hex.
  destruct (stdin w) as [|l0 pending] eqn:Es; [discriminate|].
  injection Hin as -> ->.
  cbn [TrackerEncryption.get_valid_task_id_loop].
  unfold bind at 1. unfold input at 1. rewrite Es. rewrite Hint.
  unfold bind at 1. cbn [py_iter]. unfold ret at 1. unfold bind at 1.
  rewrite (te_any_id_eq_spec l n _ Hids). rewrite Hex. reflexivity.
Qed.

Lemma te_status_choice_first (w : world) (line : string)
    (rest : list string) (s : string) :
  stdin w = line :: rest ->
  (strip line = "1" /\ s = "in progress")
  \/ (strip line = "2" /\ s = "done") ->
  TrackerEncryption.status_choice_loop (stdin w) w
  = (Ok s, set_stdin rest
             (set_stdout (stdout w ++ ["Enter your choice (1 or 2): "]) w)).
Proof.
  intros Hin Hchoice.
  destruct (stdin w) as [|l0 pending] eqn:Es; [discriminate|].
  injection Hin as -> ->.
  cbn [TrackerEncryption.status_choice_loop].
  unfold bind at 1. unfold input at 1. rewrite Es.
  destruct Hchoice as [(-> & ->)|(-> & ->)]; reflexivity.
Qed.

Lemma te_update_status_loop_spec (k : list Byte.byte) (n : Z) (s : string)
    (l0 : list pyval) :
  fernet_key_ok k = true ->
  forall (todo seen : list pyval) (w : world) (c : list Byte.byte),
    files w !! TrackerEncryption.KEY_FILE = Some k ->
    files w !! TrackerEncryption.FILE = Some c ->
    Forall has_id todo ->
    exists w',
      TrackerEncryption.update_status_loop (PList l0) n s seen todo w
      = (Ok tt, w')
      /\ (existsb (id_matches n) todo = true ->
          exists nonce,
            files w' !! TrackerEncryption.FILE
            = Some (fernet_encrypt k nonce
                      (str_encode (json_dumps
                         (PList (seen ++ map (mark_status n s) todo))))))
      /\ (existsb (id_matches n) todo = false ->
          files w' !! TrackerEncryption.FILE
          = files w !! TrackerEncryption.FILE).
Proof.
  intros Hok. induction todo as [|t todo IH];
    intros seen w c Hk Hc Hids; cbn [TrackerEncryption.update_status_loop].
  - exists w. split; [reflexivity|]. cbn [existsb].
    split; [discriminate|auto].
  - apply Forall_cons in Hids as (Ht & Hids).
    destruct t as [| | | | |d]; try contradiction.
    destruct Ht as (v & Hv).
    unfold bind at 1. cbn [py_getitem]. rewrite Hv. cbn [lift_opt].
    unfold ret at 1.
    assert (Hm : id_matches n (PDict d) = py_eq_int v n).
    { cbn [id_matches]. rewrite Hv. reflexivity. }
    cbn [existsb map]. rewrite Hm.
    destruct (py_eq_int v n) eqn:Ev.
    + unfold bind at 1. cbn [py_setitem]. unfold ret at 1.
      cbn [with_items].
      assert (Hmark : mark_status n s (PDict d)
                      = PDict (dict_set "status" (PStr s) d)).
      { cbn [mark_status]. rewrite Hm. reflexivity. }
      rewrite Hmark.
      destruct (te_save_tasks_ok w k c
                  (PList (seen ++ PDict (dict_set "status" (PStr s) d) :: todo))
                  Hk Hok Hc)
        as (w1 & Hrun & Hf & _).
      unfold bind at 1. rewrite Hrun.
      unfold bind at 1. unfold print at 1.
      match goal with
      | |- context [TrackerEncryption.update_status_loop _ _ _ ?sn todo ?w2] =>
          destruct (IH sn w2
                      (fernet_encrypt k (urandom w 0%nat)
                         (str_encode (json_dumps (PList
                            (seen ++ PDict (dict_set "status" (PStr s) d)
                                  :: todo))))))
            as (w' & Hrun' & Hsome & Hnone)
      end.
      * mred. rewrite Hf. rewrite lookup_insert_ne by discriminate.
        rewrite lookup_insert_ne by discriminate. exact Hk.
      * mred. rewrite Hf. apply lookup_insert_eq.
      * exact Hids.
      * exists w'. split; [exact Hrun'|]. cbn [orb].
        split; [|discriminate]. intros _.
        destruct (existsb (id_matches n) todo) eqn:Ex.
        -- rewrite <- app_assoc in Hsome. cbn [app] in Hsome.
           apply Hsome. reflexivity.
        -- pose proof (Hnone eq_refl) as Hf'. mred_in Hf'.
           rewrite (mark_status_no_match n s todo Ex).
           rewrite Hf', Hf. rewrite lookup_insert_eq.
           eexists; reflexivity.
    + assert (Hmark : mark_status n s (PDict d) = PDict d).
      { cbn [mark_status]. rewrite Hm. reflexivity. }
      rewrite Hmark. cbn [orb].
      destruct (IH (seen ++ [PDict d]) w c Hk Hc Hids)
        as (w' & Hrun' & Hsome & Hnone).
      exists w'. split; [exact Hrun'|].
      rewrite <- app_assoc in Hsome. cbn [app] in Hsome.
      split; assumption.
Qed.

End TrackerEncryptionUpdate.

(** ** [update_task_status] as a whole *)

Lemma mark_status_only (n : Z) (s : string) (l : list pyval) :
  only_status_changed n s l (map (mark_status n s) l).
Proof.
  split; [apply mark_status_length|].
  induction l as [|t l IH]; intros i d Hi; [discriminate|].
  destruct i as [|i]; cbn [map].
  - cbn in Hi. injection Hi as ->.
    destruct (mark_status_frame n s d) as (d' & Hd' & Hrest).
    exists d'. split; [rewrite Hd'; reflexivity|exact Hrest].
  - cbn in Hi. destruct (IH i d Hi) as (d' & Hd' & Hrest).
    exists d'. split; [exact Hd'|exact Hrest].
Qed.

Section UpdateTaskStatus.
Context `{Platform}.

(** Up to its [for] loop, [update_task_status] on a stored list that
    passes the integrity check reads the two answers, prints and logs, and
    touches nothing else. *)
Lemma tm_update_task_status_reaches_loop (w : world) (K : string)
    (enc raw : list Byte.byte) (js : string) (l : list pyval)
    (id_line choice_line : string) (rest : list string) (n : Z)
    (s : string) :
  environ w = Some K -> K <> "" ->
  fernet_key_ok (str_encode K) = true ->
  files w !! TaskManager.FILE = Some enc -> enc <> [] ->
  fernet_decrypt (str_encode K) enc = Some raw ->
  bytes_decode raw = Some js ->
  json_loads js = Some (PList l) ->
  hash_file w = None \/ hash_file w = Some (TaskManager.calculate_hash js) ->
  Forall has_id l ->
  stdin w = id_line :: choice_line :: rest ->
  py_int (strip id_line) = Some n ->
  existsb (id_matches n) l = true ->
  (strip choice_line = "1" /\ s = "in progress")
  \/ (strip choice_line = "2" /\ s = "done") ->
  exists lg out,
    TaskManager.update_task_status w
    = TaskManager.update_status_loop (PList l) n s [] l
        (set_log lg (set_stdout out (set_stdin rest w))).
Proof.
  intros HK Hne Hok Hfile Henc Hdec Hraw Hjs Hhash Hids Hin Hint Hex Hchoice.
  unfold TaskManager.update_task_status, TaskManager.get_valid_task_id.
  destruct (tm_load_tasks_ok w K enc raw js (PList l)
              HK Hne Hok Hfile Henc Hdec Hraw Hjs Hhash)
    as (wa & Hla & Hfa & Hha & Hea & Hsa).
  destruct (tm_load_tasks_only_logs w wa enc _ Hfile Hla) as (lga & Hwa).
  unfold bind at 1. unfold bind at 1. rewrite Hla. cbn beta.
  rewrite (tm_get_valid_task_id_first wa id_line (choice_line :: rest) n l);
    [|congruence|exact Hint|exact Hids|exact Hex].
  unfold bind at 1. unfold print at 1.
  unfold bind at 1.
  rewrite (tm_status_choice_first _ choice_line rest s);
    [|reflexivity|exact Hchoice].
  match goal with |- context [bind TaskManager.load_tasks _ ?w2] =>
    destruct (tm_load_tasks_ok w2 K enc raw js (PList l))
      as (wc & Hlc & Hfc & Hhc & Hec & Hsc);
      [mred; congruence|exact Hne|exact Hok
      |mred; congruence|exact Henc|exact Hdec|exact Hraw|exact Hjs
      |mred; rewrite Hha; exact Hhash|]
  end.
  match type of Hlc with TaskManager.load_tasks ?w2 = _ =>
    assert (Hwc : exists lgc, wc = set_log lgc w2)
      by (apply (tm_load_tasks_only_logs w2 wc enc (Ok (PList l)));
          [mred; congruence|exact Hlc])
  end.
  destruct Hwc as (lgc & Hwc).
  unfold bind at 1. rewrite Hlc.
  unfold bind at 1. cbn [py_iter]. unfold ret at 1.
  rewrite Hwc, Hwa. eexists _, _. reflexivity.
Qed.

(** The [for] loop of [update_task_status] in a process that cannot take
    snapshots: the Save of the first item with the id is abandoned with
    [PermissionError], and store and digest are as they were. *)
Lemma tm_update_status_loop_denied (n : Z) (s : string) (l0 : list pyval) :
  forall (todo seen : list pyval) (w : world) (c : list Byte.byte),
    files w !! TaskManager.FILE = Some c ->
    snapshot_denied w = true ->
    has_slash (clock w 0%nat) = false ->
    Forall has_id todo ->
    existsb (id_matches n) todo = true ->
    exists w',
      TaskManager.update_status_loop (PList l0) n s seen todo w
      = (Raise (PermissionError (TaskManager.backup_path (clock w 0%nat))),
         w')
      /\ files w' = files w /\ hash_file w' = hash_file w
      /\ writes w' = writes w.
Proof.
  induction todo as [|t todo IH]; intros seen w c Hc Hden Hts Hids Hex;
    cbn [TaskManager.update_status_loop].
  - discriminate Hex.
  - apply Forall_cons in Hids as (Ht & Hids).
    destruct t as [| | | | |d]; try contradiction.
    destruct Ht as (v & Hv).
    unfold bind at 1. cbn [py_getitem]. rewrite Hv. cbn [lift_opt].
    unfold ret at 1.
    assert (Hm : id_matches n (PDict d) = py_eq_int v n).
    { cbn [id_matches]. rewrite Hv. reflexivity. }
    cbn [existsb] in Hex. rewrite Hm in Hex.
    destruct (py_eq_int v n) eqn:Ev.
    + unfold bind at 1. cbn [py_setitem]. unfold ret at 1.
      match goal with |- context [TaskManager.save_tasks ?t] =>
        destruct (tm_save_tasks_denied w c t Hc Hden Hts)
          as (w' & Hrun & Hf & Hh & Hw & _)
      end.
      unfold bind at 1. rewrite Hrun. eauto.
    + cbn [orb] in Hex. exact (IH _ w c Hc Hden Hts Hids Hex).
Qed.

Lemma tm_update_task_status_spec (w : world) (K : string)
    (enc raw : list Byte.byte) (js : string) (l : list pyval)
    (id_line choice_line : string) (rest : list string) (n : Z)
    (s : string) :
  environ w = Some K -> K <> "" ->
  fernet_key_ok (str_encode K) = true ->
  files w !! TaskManager.FILE = Some enc -> enc <> [] ->
  fernet_decrypt (str_encode K) enc = Some raw ->
  bytes_decode raw = Some js ->
  json_loads js = Some (PList l) ->
  hash_file w = None \/ hash_file w = Some (TaskManager.calculate_hash js) ->
  Forall has_id l ->
  stdin w = id_line :: choice_line :: rest ->
  py_int (strip id_line) = Some n ->
  existsb (id_matches n) l = true ->
  (strip choice_line = "1" /\ s = "in progress")
  \/ (strip choice_line = "2" /\ s = "done") ->
  (forall i, has_slash (clock w i) = false) ->
  (can_snapshot w = true ->
   exists w' l' nonce,
     TaskManager.update_task_status w = (Ok tt, w')
     /\ files w' !! TaskManager.FILE
        = Some (fernet_encrypt (str_encode K) nonce
                  (str_encode (json_dumps (PList l'))))
     /\ hash_file w'
        = Some (TaskManager.calculate_hash (json_dumps (PList l')))
     /\ only_status_changed n s l l')
  /\ (snapshot_denied w = true ->
      exists w',
        TaskManager.update_task_status w
        = (Raise (PermissionError (TaskManager.backup_path (clock w 0%nat))),
           w')
        /\ files w' = files w /\ hash_file w' = hash_file w
        /\ writes w' = writes w).
Proof.
  intros HK Hne Hok Hfile Henc Hdec Hraw Hjs Hhash Hids Hin Hint Hex Hchoice
    Hts.
  destruct (tm_update_task_status_reaches_loop w K enc raw js l id_line
              choice_line rest n s HK Hne Hok Hfile Henc Hdec Hraw Hjs Hhash
              Hids Hin Hint Hex Hchoice) as (lg & out & ->).
  split; intros Hcase.
  - destruct (tm_update_status_loop_spec K n s l Hne Hok l []
                (set_log lg (set_stdout out (set_stdin rest w))) enc)
      as (w' & Hrun & Hsome & _); try assumption.
    destruct (Hsome Hex) as ((nonce & Hstore) & Hdigest).
    exists w', (map (mark_status n s) l), nonce.
    split; [exact Hrun|]. split; [exact Hstore|]. split; [exact Hdigest|].
    apply mark_status_only.
  - destruct (tm_update_status_loop_denied n s l l []
                (set_log lg (set_stdout out (set_stdin rest w))) enc)
      as (w' & Hrun & Hf & Hh & Hw); try assumption.
    + apply Hts.
    + exists w'. split; [exact Hrun|]. auto.
Qed.

Lemma te_update_task_status_spec (w : world) (k enc raw : list Byte.byte)
    (js : string) (l : list pyval)
    (id_line choice_line : string) (rest : list string) (n : Z)
    (s : string) :
  files w !! TrackerEncryption.KEY_FILE = Some k ->
  fernet_key_ok k = true ->
  files w !! TrackerEncryption.FILE = Some enc -> enc <> [] ->
  fernet_decrypt k enc = Some raw ->
  bytes_decode raw = Some js ->
  json_loads js = Some (PList l) ->
  Forall has_id l ->
  stdin w = id_line :: choice_line :: rest ->
  py_int (strip id_line) = Some n ->
  existsb (id_matches n) l = true ->
  (strip choice_line = "1" /\ s = "in progress")
  \/ (strip choice_line = "2" /\ s = "done") ->
  exists w' l' nonce,
    TrackerEncryption.update_task_status w = (Ok tt, w')
    /\ files w' !! TrackerEncryption.FILE
       = Some (fernet_encrypt k nonce (str_encode (json_dumps (PList l'))))
    /\ only_status_changed n s l l'.
Proof.
  intros Hk Hok Hfile Henc Hdec Hraw Hjs Hids Hin Hint Hex Hchoice.
  unfold TrackerEncryption.update_task_status,
    TrackerEncryption.get_valid_task_id.
  destruct (te_load_tasks_ok w k enc raw js (PList l)
              Hk Hok Hfile Henc Hdec Hraw Hjs)
    as (wa & Hla & Hfa & Hsa).
  unfold bind at 1. unfold bind at 1. rewrite Hla. cbn beta.
  rewrite (te_get_valid_task_id_first wa id_line (choice_line :: rest) n l);
    [|congruence|exact Hint|exact Hids|exact Hex].
  unfold bind at 1. unfold print at 1.
  unfold bind at 1.
  rewrite (te_status_choice_first _ choice_line rest s);
    [|reflexivity|exact Hchoice].
  match goal with |- context [bind TrackerEncryption.load_tasks _ ?w2] =>
    destruct (te_load_tasks_ok w2 k enc raw js (PList l))
      as (wc & Hlc & Hfc & Hsc);
      [mred; congruence|exact Hok
      |mred; congruence|exact Henc|exact Hdec|exact Hraw|exact Hjs|]
  end.
  unfold bind at 1. rewrite Hlc.
  unfold bind at 1. cbn [py_iter]. unfold ret at 1.
  destruct (te_update_status_loop_spec k n s l Hok l [] wc enc)
    as (w' & Hrun & Hsome & _).
  { rewrite Hfc. mred. congruence. }
  { rewrite Hfc. mred. congruence. }
  { exact Hids. }
  destruct (Hsome Hex) as (nonce & Hstore).
  exists w', (map (mark_status n s) l), nonce.
  split; [exact Hrun|]. split; [exact Hstore|].
  apply mark_status_only.
Qed.

End UpdateTaskStatus.

(** C10: when the store holds a list whose items all carry an id, one of
    them the id typed in, [update_task_status] changes nothing in what is
    stored but the status of the items with that id.  In
    [tracker_Encryption.py], and in [TaskManager.py] when the process can
    write the backup folder, it returns and the store (and in
    [TaskManager.py] the digest) is that of a list of the same length
    whose items have the same keys, in the same order, with the same
    values, but for the status of the items with that id, which is the
    status chosen.  In [TaskManager.py] when the process cannot, it raises
    [PermissionError] and store and digest are as they were. *)
Theorem update_task_status_changes_only_status `{Platform} :
  (forall (w : world) (K : string) (enc raw : list Byte.byte) (js : string)
          (l : list pyval) (id_line choice_line : string)
          (rest : list string) (n : Z) (s : string),
     environ w = Some K -> K <> "" ->
     fernet_key_ok (str_encode K) = true ->
     files w !! TaskManager.FILE = Some enc -> enc <> [] ->
     fernet_decrypt (str_encode K) enc = Some raw ->
     bytes_decode raw = Some js ->
     json_loads js = Some (PList l) ->
     hash_file w = None
     \/ hash_file w = Some (TaskManager.calculate_hash js) ->
     Forall has_id l ->
     stdin w = id_line :: choice_line :: rest ->
     py_int (strip id_line) = Some n ->
     existsb (id_matches n) l = true ->
     (strip choice_line = "1" /\ s = "in progress")
     \/ (strip choice_line = "2" /\ s = "done") ->
     (forall i, has_slash (clock w i) = false) ->
     (can_snapshot w = true ->
      exists w' l' nonce,
        TaskManager.update_task_status w = (Ok tt, w')
        /\ files w' !! TaskManager.FILE
           = Some (fernet_encrypt (str_encode K) nonce
                     (str_encode (json_dumps (PList l'))))
        /\ hash_file w'
           = Some (TaskManager.calculate_hash (json_dumps (PList l')))
        /\ only_status_changed n s l l')
     /\ (snapshot_denied w = true ->
         exists w',
           TaskManager.update_task_status w
           = (Raise (PermissionError
                       (TaskManager.backup_path (clock w 0%nat))), w')
           /\ files w' = files w /\ hash_file w' = hash_file w
           /\ writes w' = writes w))
  /\ (forall (w : world) (k enc raw : list Byte.byte) (js : string)
             (l : list pyval) (id_line choice_line : string)
             (rest : list string) (n : Z) (s : string),
        files w !! TrackerEncryption.KEY_FILE = Some k ->
        fernet_key_ok k = true ->
        files w !! TrackerEncryption.FILE = Some enc -> enc <> [] ->
        fernet_decrypt k enc = Some raw ->
        bytes_decode raw = Some js ->
        json_loads js = Some (PList l) ->
        Forall has_id l ->
        stdin w = id_line :: choice_line :: rest ->
        py_int (strip id_line) = Some n ->
        existsb (id_matches n) l = true ->
        (strip choice_line = "1" /\ s = "in progress")
        \/ (strip choice_line = "2" /\ s = "done") ->
        exists w' l' nonce,
          TrackerEncryption.update_task_status w = (Ok tt, w')
          /\ files w' !! TrackerEncryption.FILE
             = Some (fernet_encrypt k nonce
                       (str_encode (json_dumps (PList l'))))
          /\ only_status_changed n s l l').
Proof.
  split.
  - intros. eapply tm_update_task_status_spec; eassumption.
  - intros. eapply te_update_task_status_spec; eassumption.
Qed.

(** * The properties on the reference platform *)

(** The readings of the reference clocks name files, not paths. *)
Lemma has_slash_str_of_int (z : Z) : has_slash (str_of_int z) = false.
Proof.
  assert (Huint : forall u, has_slash (NilEmpty.string_of_uint u) = false).
  { induction u; cbn; auto. }
  assert (Hzero : forall u, has_slash (NilZero.string_of_uint u) = false).
  { intros u. destruct u; try apply Huint. reflexivity. }
  unfold str_of_int, NilZero.string_of_int.
  destruct (Z.to_int z) as [u|u]; [apply Hzero|].
  cbn [has_slash]. rewrite Hzero. reflexivity.
Qed.

Lemma has_slash_tick (n : nat) : has_slash (Reference.tick n) = false.
Proof.
  unfold Reference.tick. rewrite has_slash_app, has_slash_str_of_int.
  reflexivity.
Qed.

(** Solves [forall i, has_slash (clock w i) = false] on a reference world
    whose clock has been read [k] times. *)
Ltac tick_clock k :=
  let i := fresh "i" in
  intros i;
  match goal with
  | |- has_slash (clock ?w i) = false =>
      replace (clock w i) with (Reference.tick (k + i))
        by (vm_compute; reflexivity);
      apply has_slash_tick
  end.

(** C6 on a world with no binding. *)
Lemma load_key_unbound_raises_witness :
  environ Reference.w_unbound = None
  /\ TaskManager.load_key (H := Reference.platform) Reference.w_unbound
     = (Raise (ValueError "ENCRYPTION_KEY environment variable not set"),
        Reference.w_unbound).
Proof.
  split; [reflexivity|].
  apply (@load_key_unbound_raises Reference.platform Reference.w_unbound).
  reflexivity.
Defined.

(** C8 on a world with no integrity file. *)
Lemma verify_integrity_no_digest_witness :
  hash_file Reference.w_store = None
  /\ fst (TaskManager.verify_integrity (H := Reference.platform) "[]"
            Reference.w_store) = Ok true.
Proof.
  split; [reflexivity|].
  rewrite (@verify_integrity_no_digest Reference.platform Reference.w_store
             "[]"); reflexivity.
Defined.

(** C7 on two plaintexts with different digests. *)
Lemma verify_integrity_after_save_hash_witness :
  TaskManager.calculate_hash (H := Reference.platform) "[1]"
  <> TaskManager.calculate_hash (H := Reference.platform) "[]"
  /\ fst ((TaskManager.save_hash
             (TaskManager.calculate_hash (H := Reference.platform) "[]") ;;
           TaskManager.verify_integrity (H := Reference.platform) "[1]")
            Reference.w0) = Ok false.
Proof.
  assert (Hneq : TaskManager.calculate_hash (H := Reference.platform) "[1]"
                 <> TaskManager.calculate_hash (H := Reference.platform) "[]").
  { intros E. vm_compute in E. discriminate E. }
  split; [exact Hneq|].
  apply (proj2 (@verify_integrity_after_save_hash Reference.platform
                  Reference.w0 "[]" "[1]")).
  exact Hneq.
Defined.

(** C4 on the sample collection under the key ["k"]. *)
Lemma decrypt_encrypt_roundtrip_witness :
  fst ((enc <- TaskManager.encrypt_data (H := Reference.platform)
                 (Reference.dumps Reference.sample) ;;
        TaskManager.decrypt_data (H := Reference.platform) enc) Reference.w0)
  = Ok (Reference.dumps Reference.sample).
Proof.
  apply (@decrypt_encrypt_roundtrip Reference.platform Reference.w0 "k"
           Reference.sample).
  - exact reference_fernet_roundtrip.
  - exact reference_codec_roundtrip.
  - reflexivity.
  - discriminate.
  - reflexivity.
Defined.

(** C1 on the saved world with a foreign digest. *)
Lemma load_tasks_integrity_mismatch_witness :
  fst (TaskManager.load_tasks (H := Reference.platform) Reference.w_tampered)
  = Ok (PList [])
  /\ log (snd (TaskManager.load_tasks (H := Reference.platform)
                 Reference.w_tampered))
     = log Reference.w_tampered ++
       [(ERROR, "Data integrity check failed! Possible tampering detected.");
        (ERROR, "Data integrity verification failed. Returning empty task list.")].
Proof.
  rewrite (@load_tasks_integrity_mismatch Reference.platform
             Reference.w_tampered Reference.w_tampered "k"
             (String.list_byte_of_string "k" ++
              String.list_byte_of_string (Reference.dumps Reference.sample))
             (String.list_byte_of_string (Reference.dumps Reference.sample))
             (Reference.dumps Reference.sample) "0000").
  - split; reflexivity.
  - vm_compute. reflexivity.
  - vm_compute. reflexivity.
  - discriminate.
  - reflexivity.
  - discriminate.
  - reflexivity.
  - vm_compute. reflexivity.
  - vm_compute. reflexivity.
  - reflexivity.
  - intros E. vm_compute in E. discriminate E.
Defined.

(** C3 on a world with no file at all. *)
Lemma snapshot_before_without_store_witness :
  files Reference.w0 !! TaskManager.FILE = None
  /\ fst (TaskManager.save_tasks (H := Reference.platform) (PList [])
            Reference.w0)
     = Raise (FileNotFoundError "tasks.json")
  /\ TrackerEncryption.backup_tasks_file Reference.w0 = (Ok tt, Reference.w0).
Proof.
  assert (Hnone : files Reference.w0 !! TaskManager.FILE = None)
    by reflexivity.
  assert (Hdir : TaskManager.FILE ∉ dirs Reference.w0).
  { cbn. apply not_elem_of_empty. }
  destruct (@snapshot_before_without_store Reference.platform Reference.w0
              (PList []) Hnone Hdir) as (Hte & _ & _ & Hsave & _).
  split; [exact Hnone|]. split; [exact Hsave|exact Hte].
Defined.

(** C2 as stated fails for the archival backup: two Saves within one
    second, on an existing store with an empty backup folder, both
    succeed and leave one snapshot file, not two. *)
Lemma archival_same_second_counterexample :
  let run := for_each (TaskManager.save_tasks (H := Reference.platform))
               [Reference.sample; PList []] Reference.w_same_second in
  is_Some (files Reference.w_same_second !! TaskManager.FILE)
  /\ size (snapshots Reference.w_same_second) = 0%nat
  /\ fst run = Ok tt
  /\ size (snapshots (snd run)) = 1%nat
  /\ size (snapshots (snd run))
     <> (size (snapshots Reference.w_same_second) + 2)%nat.
Proof.
  cbv zeta. split; [vm_compute; eauto|].
  split; [vm_compute; reflexivity|].
  split; [vm_compute; reflexivity|].
  split; [vm_compute; reflexivity|].
  vm_compute. discriminate.
Qed.

(** C2 on the reference worlds: two Saves then a third with the rolling
    backup, two Saves one second apart with the archive. *)
Lemma backups_after_successive_saves_witness :
  (exists w1 w2,
     for_each (TrackerEncryption.save_tasks (H := Reference.platform))
       [PList []; Reference.sample] Reference.w_keyfile = (Ok tt, w1)
     /\ for_each (TrackerEncryption.save_tasks (H := Reference.platform))
          ([PList []; Reference.sample] ++ [PList []]) Reference.w_keyfile
        = (Ok tt, w2)
     /\ files w2 !! BAK = files w1 !! TrackerEncryption.FILE)
  /\ (exists w',
        for_each (TaskManager.save_tasks (H := Reference.platform))
          [Reference.sample; PList []] Reference.w_store = (Ok tt, w')
        /\ size (snapshots w') = (size (snapshots Reference.w_store) + 2)%nat).
Proof.
  split.
  - destruct (proj1 (@backups_after_successive_saves Reference.platform)
                (String.list_byte_of_string "k")
                (String.list_byte_of_string "k[]")
                [PList []; Reference.sample] (PList [])
                Reference.w_keyfile)
      as (w1 & w2 & H1 & H2 & _ & Hbak & _).
    + reflexivity.
    + vm_compute. reflexivity.
    + vm_compute. reflexivity.
    + exists w1, w2. split; [exact H1|]. split; [exact H2|exact Hbak].
  - destruct (proj2 (@backups_after_successive_saves Reference.platform)
                "k" (String.list_byte_of_string "k[]")
                [Reference.sample; PList []] Reference.w_store)
      as (w' & Hrun & Hsize & _).
    + discriminate.
    + reflexivity.
    + reflexivity.
    + vm_compute. reflexivity.
    + vm_compute. reflexivity.
    + intros i Hi. destruct i as [|[|i]].
      * vm_compute. reflexivity.
      * vm_compute. reflexivity.
      * cbn in Hi. lia.
    + intros i Hi. destruct i as [|[|i]].
      * vm_compute. reflexivity.
      * vm_compute. reflexivity.
      * cbn in Hi. lia.
    + intros i j Hij. cbn in Hij.
      assert (Ei : i = 0%nat) by lia. assert (Ej : j = 1%nat) by lia.
      subst i j. intros E. vm_compute in E. discriminate E.
    + exists w'. split; [exact Hrun|exact Hsize].
Defined.

(** C5 on the reference worlds: a second task in a later run of
    [TaskManager.py], a second task in [tracker_Encryption.py], a blank
    title, and a first run of [TaskManager.py] with a first task typed
    in. *)
Lemma add_task_appends_or_rejects_witness :
  (exists w',
     TaskManager.add_task (H := Reference.platform) Reference.w_add
     = (Ok tt, w')
     /\ hash_file w'
        = Some (TaskManager.calculate_hash (H := Reference.platform)
                  (Reference.dumps
                     (PList [PDict [("id", PInt 1); ("title", PStr "A");
                                    ("description", PStr "d");
                                    ("status", PStr "not done")];
                             PDict [("id", PInt 2); ("title", PStr "B");
                                    ("description", PStr "e");
                                    ("status", PStr "not done")]]))))
  /\ (exists w' nonce,
        TrackerEncryption.add_task (H := Reference.platform)
          Reference.w_keyfile_saved_add = (Ok tt, w')
        /\ files w' !! TrackerEncryption.FILE
           = Some (fernet_encrypt (Platform := Reference.platform)
                     (String.list_byte_of_string "k") nonce
                     (String.list_byte_of_string
                        (Reference.dumps
                           (PList [PDict [("id", PInt 1); ("title", PStr "A");
                                          ("description", PStr "d");
                                          ("status", PStr "not done")];
                                   PDict [("id", PInt 2); ("title", PStr "B");
                                          ("description", PStr "e");
                                          ("status", PStr "not done")]])))))
  /\ files (snd (TaskManager.add_task (H := Reference.platform)
                   Reference.w_blank)) = files Reference.w_blank
  /\ (exists w',
        TaskManager.script (H := Reference.platform) 2
          Reference.w_first_session
        = (Raise (PermissionError "backups/tasks_20240101_120000.json"), w')
        /\ files w' !! TaskManager.FILE
           = Some (String.list_byte_of_string "k[]")).
Proof.
  destruct (@add_task_appends_or_rejects Reference.platform)
    as (Htm & Hte & Hrej & Hfirst).
  split; [|split; [|split]].
  - destruct (Htm Reference.w_add "k"
                (String.list_byte_of_string "k" ++
                 String.list_byte_of_string (Reference.dumps Reference.sample))
                (String.list_byte_of_string (Reference.dumps Reference.sample))
                (Reference.dumps Reference.sample)
                [PDict [("id", PInt 1); ("title", PStr "A");
                        ("description", PStr "d");
                        ("status", PStr "not done")]]
                "  B " "e" [])
      as (w' & Hrun & _ & Hh).
    + reflexivity.
    + discriminate.
    + reflexivity.
    + vm_compute. reflexivity.
    + discriminate.
    + vm_compute. reflexivity.
    + vm_compute. reflexivity.
    + vm_compute. reflexivity.
    + right. vm_compute. reflexivity.
    + reflexivity.
    + intros E. vm_compute in E. discriminate E.
    + intros E. vm_compute in E. discriminate E.
    + vm_compute. reflexivity.
    + vm_compute. reflexivity.
    + exists w'. split; [exact Hrun|]. rewrite Hh. reflexivity.
  - destruct (Hte Reference.w_keyfile_saved_add
                (String.list_byte_of_string "k")
                (String.list_byte_of_string "k" ++
                 String.list_byte_of_string (Reference.dumps Reference.sample))
                (String.list_byte_of_string (Reference.dumps Reference.sample))
                (Reference.dumps Reference.sample)
                [PDict [("id", PInt 1); ("title", PStr "A");
                        ("description", PStr "d");
                        ("status", PStr "not done")]]
                "B" "e" [])
      as (w' & nonce & Hrun & Hf).
    + vm_compute. reflexivity.
    + reflexivity.
    + vm_compute. reflexivity.
    + discriminate.
    + vm_compute. reflexivity.
    + vm_compute. reflexivity.
    + vm_compute. reflexivity.
    + reflexivity.
    + intros E. vm_compute in E. discriminate E.
    + intros E. vm_compute in E. discriminate E.
    + exists w', nonce. split; [exact Hrun|]. rewrite Hf. reflexivity.
  - destruct (Hrej Reference.w_blank "   " []) as ((_ & Hf & _) & _).
    + reflexivity.
    + left. reflexivity.
    + exact Hf.
  - destruct (Hfirst Reference.w_first_session "k" "1" "A" "d" ["5"] 1%nat)
      as (w' & Hrun & Hf & _).
    + exact reference_fernet_roundtrip.
    + exact reference_codec_roundtrip.
    + intros key nonce data Hk E. destruct key; [discriminate Hk|].
      discriminate E.
    + reflexivity.
    + reflexivity.
    + discriminate.
    + reflexivity.
    + reflexivity.
    + cbn. apply not_elem_of_empty.
    + reflexivity.
    + reflexivity.
    + cbn. apply not_elem_of_empty.
    + reflexivity.
    + vm_compute. reflexivity.
    + reflexivity.
    + vm_compute. reflexivity.
    + intros E. vm_compute in E. discriminate E.
    + intros E. vm_compute in E. discriminate E.
    + exists w'. split; [exact Hrun|]. rewrite Hf. reflexivity.
Defined.

(** C9 on a session of a later run: a task is added and the program
    exits; the store is written with a token. *)
Lemma store_file_writes_are_tokens_witness :
  fst (TaskManager.script (H := Reference.platform) 2 Reference.w_later_session)
  = Ok tt
  /\ exists new,
       writes (snd (TaskManager.script (H := Reference.platform) 2
                      Reference.w_later_session))
       = writes Reference.w_later_session ++ new
       /\ Forall (fun pb => fst pb = TaskManager.FILE ->
                    is_ciphertext (H := Reference.platform) (snd pb)) new.
Proof.
  split; [vm_compute; reflexivity|].
  destruct (@store_file_writes_are_tokens Reference.platform)
    as (_ & _ & _ & Hscript).
  apply (Hscript 2%nat Reference.w_later_session
           (fst (TaskManager.script (H := Reference.platform) 2
                   Reference.w_later_session))).
  apply surjective_pairing.
Defined.

(** C10 on the reference worlds: of three tasks the second is set to
    done, and to in progress, the first and the third staying as they
    are; with a backup folder of mode [0o600] nothing is stored. *)
Lemma update_task_status_changes_only_status_witness :
  (exists w' l' nonce,
     TaskManager.update_task_status (H := Reference.platform)
       Reference.w_update3 = (Ok tt, w')
     /\ files w' !! TaskManager.FILE
        = Some (fernet_encrypt (Platform := Reference.platform)
                  (String.list_byte_of_string "k") nonce
                  (String.list_byte_of_string (Reference.dumps (PList l'))))
     /\ only_status_changed 2 "done" Reference.three_tasks l'
     /\ files w' !! TaskManager.FILE
        = Some (String.list_byte_of_string "k" ++
                String.list_byte_of_string
                  (Reference.dumps
                     (PList
                        [PDict [("id", PInt 1); ("title", PStr "A");
                                ("description", PStr "d");
                                ("status", PStr "not done")];
                         PDict [("id", PInt 2); ("title", PStr "B");
                                ("description", PStr "e");
                                ("status", PStr "done")];
                         PDict [("id", PInt 3); ("title", PStr "C");
                                ("description", PStr "f");
                                ("status", PStr "in progress")]]))))
  /\ (exists w' l' nonce,
        TrackerEncryption.update_task_status (H := Reference.platform)
          Reference.w_keyfile_update3 = (Ok tt, w')
        /\ files w' !! TrackerEncryption.FILE
           = Some (fernet_encrypt (Platform := Reference.platform)
                     (String.list_byte_of_string "k") nonce
                     (String.list_byte_of_string
                        (Reference.dumps (PList l'))))
        /\ only_status_changed 2 "in progress" Reference.three_tasks l'
        /\ files w' !! TrackerEncryption.FILE
           = Some (String.list_byte_of_string "k" ++
                   String.list_byte_of_string
                     (Reference.dumps
                        (PList
                           [PDict [("id", PInt 1); ("title", PStr "A");
                                   ("description", PStr "d");
                                   ("status", PStr "not done")];
                            PDict [("id", PInt 2); ("title", PStr "B");
                                   ("description", PStr "e");
                                   ("status", PStr "in progress")];
                            PDict [("id", PInt 3); ("title", PStr "C");
                                   ("description", PStr "f");
                                   ("status", PStr "in progress")]]))))
  /\ (exists w',
        TaskManager.update_task_status (H := Reference.platform)
          Reference.w_update3_locked
        = (Raise (PermissionError "backups/tasks_20240101_120001.json"), w')
        /\ files w' = files Reference.w_update3_locked
        /\ hash_file w' = hash_file Reference.w_update3_locked).
Proof.
  assert (Hids : Forall has_id Reference.three_tasks).
  { repeat constructor; eexists; reflexivity. }
  destruct (@update_task_status_changes_only_status Reference.platform)
    as (Htm & Hte).
  split; [|split].
  - destruct (Htm Reference.w_update3 "k"
                (String.list_byte_of_string "k" ++
                 String.list_byte_of_string
                   (Reference.dumps (PList Reference.three_tasks)))
                (String.list_byte_of_string
                   (Reference.dumps (PList Reference.three_tasks)))
                (Reference.dumps (PList Reference.three_tasks))
                Reference.three_tasks "2" " 2" [] 2%Z "done")
      as (Hyes & _).
    + reflexivity.
    + discriminate.
    + reflexivity.
    + vm_compute. reflexivity.
    + discriminate.
    + vm_compute. reflexivity.
    + vm_compute. reflexivity.
    + vm_compute. reflexivity.
    + right. vm_compute. reflexivity.
    + exact Hids.
    + reflexivity.
    + vm_compute. reflexivity.
    + reflexivity.
    + right. split; [vm_compute|]; reflexivity.
    + tick_clock 1%nat.
    + destruct Hyes as (w' & l' & nonce & Hrun & Hf & _ & Honly).
      { vm_compute. reflexivity. }
      exists w', l', nonce. split; [exact Hrun|]. split; [exact Hf|].
      split; [exact Honly|].
      assert (E : files (snd (TaskManager.update_task_status
                                (H := Reference.platform)
                                Reference.w_update3)) !! TaskManager.FILE
                  = Some (String.list_byte_of_string "k" ++
                String.list_byte_of_string
                  (Reference.dumps
                     (PList
                        [PDict [("id", PInt 1); ("title", PStr "A");
                                ("description", PStr "d");
                                ("status", PStr "not done")];
                         PDict [("id", PInt 2); ("title", PStr "B");
                                ("description", PStr "e");
                                ("status", PStr "done")];
                         PDict [("id", PInt 3); ("title", PStr "C");
                                ("description", PStr "f");
                                ("status", PStr "in progress")]]))))
        by (vm_compute; reflexivity).
      rewrite Hrun in E. exact E.
  - destruct (Hte Reference.w_keyfile_update3
                (String.list_byte_of_string "k")
                (String.list_byte_of_string "k" ++
                 String.list_byte_of_string
                   (Reference.dumps (PList Reference.three_tasks)))
                (String.list_byte_of_string
                   (Reference.dumps (PList Reference.three_tasks)))
                (Reference.dumps (PList Reference.three_tasks))
                Reference.three_tasks "2" "1" [] 2%Z "in progress")
      as (w' & l' & nonce & Hrun & Hf & Honly).
    + vm_compute. reflexivity.
    + reflexivity.
    + vm_compute. reflexivity.
    + discriminate.
    + vm_compute. reflexivity.
    + vm_compute. reflexivity.
    + vm_compute. reflexivity.
    + exact Hids.
    + reflexivity.
    + vm_compute. reflexivity.
    + reflexivity.
    + left. split; [vm_compute|]; reflexivity.
    + exists w', l', nonce. split; [exact Hrun|]. split; [exact Hf|].
      split; [exact Honly|].
      assert (E : files (snd (TrackerEncryption.update_task_status
                                (H := Reference.platform)
                                Reference.w_keyfile_update3))
                    !! TrackerEncryption.FILE
                  = Some (String.list_byte_of_string "k" ++
                   String.list_byte_of_string
                     (Reference.dumps
                        (PList
                           [PDict [("id", PInt 1); ("title", PStr "A");
                                   ("description", PStr "d");
                                   ("status", PStr "not done")];
                            PDict [("id", PInt 2); ("title", PStr "B");
                                   ("description", PStr "e");
                                   ("status", PStr "in progress")];
                            PDict [("id", PInt 3); ("title", PStr "C");
                                   ("description", PStr "f");
                                   ("status", PStr "in progress")]]))))
        by (vm_compute; reflexivity).
      rewrite Hrun in E. exact E.
  - destruct (Htm Reference.w_update3_locked "k"
                (String.list_byte_of_string "k" ++
                 String.list_byte_of_string
                   (Reference.dumps (PList Reference.three_tasks)))
                (String.list_byte_of_string
                   (Reference.dumps (PList Reference.three_tasks)))
                (Reference.dumps (PList Reference.three_tasks))
                Reference.three_tasks "2" " 2" [] 2%Z "done")
      as (_ & Hno).
    + reflexivity.
    + discriminate.
    + reflexivity.
    + vm_compute. reflexivity.
    + discriminate.
    + vm_compute. reflexivity.
    + vm_compute. reflexivity.
    + vm_compute. reflexivity.
    + right. vm_compute. reflexivity.
    + exact Hids.
    + reflexivity.
    + vm_compute. reflexivity.
    + reflexivity.
    + right. split; [vm_compute|]; reflexivity.
    + tick_clock 1%nat.
    + destruct Hno as (w' & Hrun & Hf & Hh & _).
      { vm_compute. reflexivity. }
      exists w'. split; [exact Hrun|]. split; [exact Hf|exact Hh].
Defined.

(** * Further properties of the storage layer *)

Lemma reference_token_nonempty : @token_nonempty Reference.platform.
Proof.
  intros key nonce data Hok. destruct key as [|a key]; [discriminate|].
  discriminate.
Qed.

Lemma reference_generated_key_ok : @generated_key_ok Reference.platform.
Proof. intros r. reflexivity. Qed.

Section TaskManagerLoadSave.
Context `{Platform}.

Lemma load_key_unbound_raises_aux (w : world) :
  environ w = None ->
  TaskManager.load_key w
  = (Raise (ValueError "ENCRYPTION_KEY environment variable not set"), w).
Proof.
  intros Hnone. unfold TaskManager.load_key, bind, os_getenv.
  rewrite Hnone. reflexivity.
Qed.

(** First Load: with a valid key and no store, [load_tasks] sets the umask
    to 0o177, creates the store as a token of the empty list and returns
    the empty list, whatever the integrity file holds. *)
Theorem tm_first_load_creates_store (w : world) (K : string) :
  fernet_roundtrip -> codec_roundtrip -> token_nonempty ->
  json_loads (json_dumps (PList [])) = Some (PList []) ->
  environ w = Some K -> K <> "" ->
  fernet_key_ok (str_encode K) = true ->
  files w !! TaskManager.FILE = None ->
  TaskManager.FILE ∉ dirs w ->
  exists w',
    TaskManager.load_tasks w = (Ok (PList []), w')
    /\ files w'
       = <[TaskManager.FILE :=
             fernet_encrypt (str_encode K) (urandom w 0%nat)
               (str_encode (json_dumps (PList [])))]> (files w)
    /\ umask w' = 127%Z
    /\ hash_file w' = hash_file w.
Proof.
  intros Hfernet Hcodec Hnonempty Hjson HK Hne Hok Hnone Hdir.
  unfold TaskManager.load_tasks, TaskManager.secure_file_creation.
  unfold bind at 1. unfold bind at 1. unfold os_path_exists at 1.
  rewrite Hnone. rewrite bool_decide_eq_false_2 by exact Hdir.
  cbn [negb]. unfold bind at 1. unfold os_umask at 1.
  unfold bind at 1. unfold open_wb at 1. unfold bind at 1.
  rewrite (encrypt_data_ok _ K); [|exact HK|exact Hne|exact Hok].
  unfold bind at 1. unfold file_write at 1. unfold logging at 1.
  unfold bind at 1. unfold read_rb at 1. mred.
  rewrite !lookup_insert_eq. cbn [default from_option id app].
  rewrite insert_insert_eq.
  pose proof (Hnonempty (str_encode K) (urandom w 0%nat)
                (str_encode (json_dumps (PList []))) Hok) as Htok.
  destruct (fernet_encrypt (str_encode K) (urandom w 0%nat)
              (str_encode (json_dumps (PList [])))) as [|b tok] eqn:Etok;
    [congruence|].
  mred.
  erewrite decrypt_data_ok;
    [|mred; exact HK|exact Hne|exact Hok
     |rewrite <- Etok; apply Hfernet; exact Hok|apply Hcodec].
  unfold TaskManager.verify_integrity. mred.
  destruct (hash_file w) as [stored|] eqn:Ehash.
  - destruct (String.eqb stored _); mred.
    + rewrite Hjson. eexists. split; [reflexivity|]. mred. auto.
    + eexists. split; [reflexivity|]. mred. auto.
  - mred. rewrite Hjson. eexists. split; [reflexivity|]. mred. auto.
Qed.

(** Load with the key binding missing, on a store that is not empty:
    [ValueError], no data, and the world as it was. *)
Theorem tm_load_without_key (w : world) (enc : list Byte.byte) :
  files w !! TaskManager.FILE = Some enc -> enc <> [] ->
  environ w = None ->
  TaskManager.load_tasks w
  = (Raise (ValueError "ENCRYPTION_KEY environment variable not set"), w).
Proof.
  intros Hfile Henc Henv.
  unfold TaskManager.load_tasks, TaskManager.secure_file_creation.
  unfold bind at 1. unfold bind at 1. unfold os_path_exists at 1.
  rewrite Hfile. cbn [negb]. unfold ret at 1. unfold bind at 1.
  unfold read_rb at 1. rewrite Hfile.
  destruct enc as [|b enc]; [congruence|].
  unfold bind at 1. unfold TaskManager.decrypt_data. unfold bind at 1.
  rewrite (load_key_unbound_raises_aux w Henv). reflexivity.
Qed.

(** Load with a key under which the store does not decrypt:
    [InvalidToken], no data, and the world as it was. *)
Theorem tm_load_bad_token (w : world) (K : string) (enc : list Byte.byte) :
  files w !! TaskManager.FILE = Some enc -> enc <> [] ->
  environ w = Some K -> K <> "" ->
  fernet_key_ok (str_encode K) = true ->
  fernet_decrypt (str_encode K) enc = None ->
  TaskManager.load_tasks w = (Raise InvalidToken, w).
Proof.
  intros Hfile Henc HK Hne Hok Hdec.
  rewrite (tm_load_tasks_existing w enc Hfile).
  destruct enc as [|b enc]; [congruence|].
  unfold bind at 1. unfold TaskManager.decrypt_data. unfold bind at 1.
  rewrite (load_key_bound w K HK Hne). unfold bind at 1.
  unfold TaskManager.Fernet. rewrite Hok. unfold ret at 1.
  unfold bind at 1. unfold TaskManager.Fernet_decrypt. rewrite Hdec.
  reflexivity.
Qed.

Lemma tm_load_tasks_disk_frame (w w' : world) (enc : list Byte.byte)
    (r : result pyval) :
  files w !! TaskManager.FILE = Some enc ->
  TaskManager.load_tasks w = (r, w') ->
  files w' = files w /\ dirs w' = dirs w /\ hash_file w' = hash_file w
  /\ writes w' = writes w /\ environ w' = environ w.
Proof.
  intros Hfile. rewrite (tm_load_tasks_existing w enc Hfile).
  destruct enc as [|b enc].
  { intros E. injection E as _ <-. auto. }
  unfold bind at 1.
  destruct (TaskManager.decrypt_data (b :: enc) w) as [[dec|e] w1] eqn:Ed;
    apply tm_decrypt_data_frame in Ed as ->.
  2:{ intros E. injection E as _ <-. auto. }
  unfold bind at 1. unfold TaskManager.verify_integrity.
  destruct (hash_file w) as [stored|] eqn:Ehash.
  - destruct (String.eqb stored (TaskManager.calculate_hash dec)); mred.
    + destruct (json_loads dec); intros E; injection E as _ <-; mred; auto.
    + intros E; injection E as _ <-; mred; auto.
  - mred. destruct (json_loads dec); intros E; injection E as _ <-; mred; auto.
Qed.

(** Load on an existing store never changes the disk: whatever it returns
    or raises, files, directories, integrity file and the record of
    writes are as before. *)
Theorem tm_load_existing_is_read_only (w w' : world) (enc : list Byte.byte)
    (r : result pyval) :
  files w !! TaskManager.FILE = Some enc ->
  TaskManager.load_tasks w = (r, w') ->
  files w' = files w /\ dirs w' = dirs w /\ hash_file w' = hash_file w
  /\ writes w' = writes w /\ environ w' = environ w.
Proof.
  exact (tm_load_tasks_disk_frame w w' enc r).
Qed.

(** A first Load without the key binding fails with [ValueError] after the
    store has been created empty; from then on Load returns the empty
    list, still without a key. *)
Theorem tm_failed_first_load_leaves_empty_store (w : world) :
  files w !! TaskManager.FILE = None ->
  TaskManager.FILE ∉ dirs w ->
  environ w = None ->
  exists w',
    TaskManager.load_tasks w
    = (Raise (ValueError "ENCRYPTION_KEY environment variable not set"), w')
    /\ files w' !! TaskManager.FILE = Some []
    /\ TaskManager.load_tasks w' = (Ok (PList []), w').
Proof.
  intros Hnone Hdir Henv.
  unfold TaskManager.load_tasks at 1, TaskManager.secure_file_creation.
  unfold bind at 1. unfold bind at 1. unfold os_path_exists at 1.
  rewrite Hnone. rewrite bool_decide_eq_false_2 by exact Hdir.
  cbn [negb]. unfold bind at 1. unfold os_umask at 1.
  unfold bind at 1. unfold open_wb at 1. unfold bind at 1.
  unfold TaskManager.encrypt_data. unfold bind at 1.
  rewrite load_key_unbound_raises_aux by (mred; exact Henv).
  eexists. split; [reflexivity|].
  assert (Hempty : files (set_files (<[TaskManager.FILE:=[]]> (files (set_umask 127 w)))
                            (set_umask 127 w)) !! TaskManager.FILE = Some []).
  { mred. apply lookup_insert_eq. }
  split; [exact Hempty|].
  rewrite (tm_load_tasks_existing _ [] Hempty). reflexivity.
Qed.

(** A Save without the key binding, in a process that can take
    snapshots, fails with [ValueError] after the snapshot has been taken
    and before the store is opened: store and integrity file are as
    before. *)
Theorem tm_save_without_key_keeps_store (w : world) (c : list Byte.byte)
    (tasks : pyval) :
  files w !! TaskManager.FILE = Some c ->
  environ w = None ->
  can_snapshot w = true ->
  has_slash (clock w 0%nat) = false ->
  exists w',
    TaskManager.save_tasks tasks w
    = (Raise (ValueError "ENCRYPTION_KEY environment variable not set"), w')
    /\ files w' !! TaskManager.FILE = Some c
    /\ hash_file w' = hash_file w
    /\ files w' !! TaskManager.backup_path (clock w 0%nat) = Some c.
Proof.
  intros Hc Henv Hcan Hts.
  destruct (tm_create_backup_ok w c Hc Hcan Hts)
    as (w1 & Hrun & Hf & He & _ & _ & _ & Hh & _).
  unfold TaskManager.save_tasks. unfold bind at 1. rewrite Hrun.
  unfold bind at 1. unfold TaskManager.encrypt_data. unfold bind at 1.
  rewrite load_key_unbound_raises_aux by congruence.
  eexists. split; [reflexivity|]. rewrite Hf, Hh.
  split; [|split; [reflexivity|apply lookup_insert_eq]].
  rewrite lookup_insert_ne by apply backup_path_not_FILE. exact Hc.
Qed.

(** Save then Load: with a valid key, in a process that can take
    snapshots, what [save_tasks] stored is what [load_tasks] returns, the
    integrity check passing. *)
Theorem tm_save_then_load (w : world) (K : string) (c : list Byte.byte)
    (tasks : pyval) :
  fernet_roundtrip -> codec_roundtrip -> token_nonempty ->
  json_loads (json_dumps tasks) = Some tasks ->
  environ w = Some K -> K <> "" ->
  fernet_key_ok (str_encode K) = true ->
  files w !! TaskManager.FILE = Some c ->
  can_snapshot w = true ->
  has_slash (clock w 0%nat) = false ->
  fst ((TaskManager.save_tasks tasks ;; TaskManager.load_tasks) w) = Ok tasks.
Proof.
  intros Hfernet Hcodec Hnonempty Hjson HK Hne Hok Hc Hcan Hts.
  destruct (tm_save_tasks_ok w K c tasks HK Hne Hok Hc Hcan Hts)
    as (w1 & Hrun & Hf & Hh & He & _).
  unfold bind at 1. rewrite Hrun.
  destruct (tm_load_tasks_ok w1 K
              (fernet_encrypt (str_encode K) (urandom w 0%nat)
                 (str_encode (json_dumps tasks)))
              (str_encode (json_dumps tasks)) (json_dumps tasks) tasks)
    as (w2 & Hload & _).
  - congruence.
  - exact Hne.
  - exact Hok.
  - rewrite Hf. apply lookup_insert_eq.
  - apply Hnonempty. exact Hok.
  - apply Hfernet. exact Hok.
  - apply Hcodec.
  - exact Hjson.
  - right. exact Hh.
  - rewrite Hload. reflexivity.
Qed.

(** After an integrity mismatch [add_task] starts from the empty list:
    in a process that can take snapshots the store is replaced by the one
    new task, numbered 1, and what the store held survives only in the
    snapshot of that Save. *)
Theorem tm_add_task_after_mismatch (w : world) (K : string)
    (enc raw : list Byte.byte) (P D : string)
    (raw_title raw_description : string) (rest : list string) :
  environ w = Some K -> K <> "" ->
  fernet_key_ok (str_encode K) = true ->
  files w !! TaskManager.FILE = Some enc -> enc <> [] ->
  fernet_decrypt (str_encode K) enc = Some raw ->
  bytes_decode raw = Some P ->
  hash_file w = Some D -> D <> TaskManager.calculate_hash P ->
  stdin w = raw_title :: raw_description :: rest ->
  strip raw_title <> "" -> strip raw_description <> "" ->
  can_snapshot w = true ->
  has_slash (clock w 0%nat) = false ->
  exists w',
    TaskManager.add_task w = (Ok tt, w')
    /\ files w' !! TaskManager.FILE
       = Some (fernet_encrypt (str_encode K) (urandom w 0%nat)
                 (str_encode (json_dumps (PList
                    [PDict [("id", PInt 1);
                            ("title", PStr (strip raw_title));
                            ("description", PStr (strip raw_description));
                            ("status", PStr "not done")]]))))
    /\ files w' !! TaskManager.backup_path (clock w 0%nat) = Some enc.
Proof.
  intros HK Hne Hok Hfile Henc Hdec Hraw HD Hneq Hin Ht Hd Hcan Hts.
  unfold TaskManager.add_task.
  unfold bind at 1. unfold input at 1. rewrite Hin.
  destruct (strip raw_title) as [|a1 t1] eqn:Etitle; [congruence|].
  cbn [str_empty].
  unfold bind at 1. unfold input at 1. cbn [stdin set_stdin set_stdout].
  destruct (strip raw_description) as [|a2 t2] eqn:Edesc; [congruence|].
  cbn [str_empty].
  unfold bind at 1.
  rewrite (tm_load_tasks_existing _ enc) by (mred; exact Hfile).
  destruct enc as [|b enc]; [congruence|].
  unfold bind at 1.
  rewrite (decrypt_data_ok _ K _ raw P) by (try assumption; exact HK).
  unfold bind at 1. unfold TaskManager.verify_integrity.
  cbn [hash_file set_stdin set_stdout]. rewrite HD.
  destruct (String.eqb_spec D (TaskManager.calculate_hash P)) as [?|_];
    [congruence|].
  unfold TaskManager.new_task.
  mred. cbn [py_len length]. mred. cbn [py_append app]. mred.
  cbn [Z.of_nat Z.add].
  match goal with |- context [TaskManager.save_tasks ?t ?w2] =>
    destruct (tm_save_tasks_ok w2 K (b :: enc) t)
      as (w3 & Hrun & Hf & _);
      [mred; exact HK|exact Hne|exact Hok|mred; exact Hfile
      |exact Hcan|exact Hts|]
  end.
  rewrite Hrun. mred.
  eexists. split; [reflexivity|]. mred. rewrite Hf. mred.
  split; [apply lookup_insert_eq|].
  rewrite lookup_insert_ne by apply not_eq_sym, backup_path_not_FILE.
  apply lookup_insert_eq.
Qed.



End TaskManagerLoadSave.

Section KeyFileVariants.
Context `{Platform}.

(** An empty store file loads as the empty list in every variant, with no
    key read and no integrity check, and nothing changes. *)
Theorem empty_store_loads_as_empty_list (w : world) :
  files w !! "tasks.json" = Some [] ->
  TaskManager.load_tasks w = (Ok (PList []), w)
  /\ TrackerEncryption.load_tasks w = (Ok (PList []), w)
  /\ TrackerLog.load_tasks w = (Ok (PList []), w).
Proof.
  intros Hfile. split; [|split].
  - apply (tm_load_tasks_existing w [] Hfile).
  - unfold TrackerEncryption.load_tasks,
      TrackerEncryption.secure_file_creation. mred.
    change TrackerEncryption.FILE with "tasks.json". rewrite Hfile. mred.
    rewrite Hfile. reflexivity.
  - unfold TrackerLog.load_tasks, TrackerLog.secure_file_creation. mred.
    change TrackerLog.FILE with "tasks.json". rewrite Hfile. mred.
    rewrite Hfile. reflexivity.
Qed.

(** In the key-file variants a Save under a key file [Fernet] rejects
    fails with [ValueError] after the store has been opened for writing:
    the store is left empty, and what it held is in the rolling backup. *)
Theorem save_with_rejected_key_empties_store (w : world)
    (k c : list Byte.byte) (tasks : pyval) :
  files w !! "encryption_key.key" = Some k ->
  fernet_key_ok k = false ->
  files w !! "tasks.json" = Some c ->
  (exists w',
     TrackerEncryption.save_tasks tasks w
     = (Raise (ValueError
                 "Fernet key must be 32 url-safe base64-encoded bytes."), w')
     /\ files w' !! "tasks.json" = Some []
     /\ files w' !! BAK = Some c)
  /\ (exists w',
        TrackerLog.save_tasks tasks w
        = (Raise (ValueError
                    "Fernet key must be 32 url-safe base64-encoded bytes."), w')
        /\ files w' !! "tasks.json" = Some []
        /\ files w' !! BAK = Some c).
Proof.
  intros Hk Hbad Hc. split.
  - unfold TrackerEncryption.save_tasks, TrackerEncryption.backup_tasks_file,
      TrackerEncryption.encrypt_data, TrackerEncryption.load_key,
      TrackerEncryption.Fernet.
    change TrackerEncryption.FILE with "tasks.json".
    change TrackerEncryption.KEY_FILE with "encryption_key.key".
    mred. rewrite Hc. mred. rewrite Hc. mred.
    rewrite !(lookup_insert_ne _ _ "encryption_key.key") by discriminate.
    rewrite Hk. mred.
    rewrite !(lookup_insert_ne _ _ "encryption_key.key") by discriminate.
    rewrite Hk. rewrite Hbad. mred.
    eexists. split; [reflexivity|]. mred.
    split; [apply lookup_insert_eq|].
    rewrite lookup_insert_ne by discriminate. apply lookup_insert_eq.
  - unfold TrackerLog.save_tasks, TrackerLog.backup_tasks_file,
      TrackerLog.encrypt_data, TrackerLog.load_key, TrackerLog.Fernet.
    change TrackerLog.FILE with "tasks.json".
    change TrackerLog.KEY_FILE with "encryption_key.key".
    mred. rewrite Hc. mred. rewrite Hc. mred.
    rewrite !(lookup_insert_ne _ _ "encryption_key.key") by discriminate.
    rewrite Hk. mred.
    rewrite !(lookup_insert_ne _ _ "encryption_key.key") by discriminate.
    rewrite Hk. rewrite Hbad. mred.
    eexists. split; [reflexivity|]. mred.
    split; [apply lookup_insert_eq|].
    rewrite lookup_insert_ne by discriminate. apply lookup_insert_eq.
Qed.

Lemma te_load_key_generates_once_aux (w : world) :
  files w !! "encryption_key.key" = None ->
  "encryption_key.key" ∉ dirs w ->
  exists w1,
    TrackerEncryption.load_key w
    = (Ok (fernet_generate_key (urandom w 0%nat)), w1)
    /\ files w1
       = <["encryption_key.key" := fernet_generate_key (urandom w 0%nat)]>
           (files w)
    /\ urandom w1 = (fun n => urandom w (S n))
    /\ umask w1 = umask w
    /\ dirs w1 = dirs w.
Proof.
  intros Hnone Hdir.
  unfold TrackerEncryption.load_key, TrackerEncryption.generate_key.
  change TrackerEncryption.KEY_FILE with "encryption_key.key".
  mred. rewrite Hnone. rewrite bool_decide_eq_false_2 by exact Hdir.
  mred. rewrite !lookup_insert_eq. cbn [default from_option id app].
  eexists. split; [reflexivity|]. mred.
  split; [apply insert_insert_eq|auto].
Qed.

(** [load_key] of the key-file variant generates a key once: with no key
    file it draws a key, writes it to the key file and returns it; the
    next call returns the same key and draws nothing. *)
Theorem te_load_key_generates_once (w : world) :
  files w !! "encryption_key.key" = None ->
  "encryption_key.key" ∉ dirs w ->
  exists w1 w2,
    TrackerEncryption.load_key w
    = (Ok (fernet_generate_key (urandom w 0%nat)), w1)
    /\ files w1
       = <["encryption_key.key" := fernet_generate_key (urandom w 0%nat)]>
           (files w)
    /\ TrackerEncryption.load_key w1
       = (Ok (fernet_generate_key (urandom w 0%nat)), w2)
    /\ files w2 = files w1
    /\ urandom w2 = urandom w1.
Proof.
  intros Hnone Hdir.
  assert (Hfirst : exists w1,
    TrackerEncryption.load_key w
    = (Ok (fernet_generate_key (urandom w 0%nat)), w1)
    /\ files w1
       = <["encryption_key.key" := fernet_generate_key (urandom w 0%nat)]>
           (files w)).
  { unfold TrackerEncryption.load_key, TrackerEncryption.generate_key.
    change TrackerEncryption.KEY_FILE with "encryption_key.key".
    mred. rewrite Hnone. rewrite bool_decide_eq_false_2 by exact Hdir.
    mred. rewrite !lookup_insert_eq. cbn [default from_option id app].
    eexists. split; [reflexivity|]. mred. apply insert_insert_eq. }
  destruct Hfirst as (w1 & Hrun1 & Hf1).
  exists w1. eexists. split; [exact Hrun1|]. split; [exact Hf1|].
  rewrite (te_load_key_ok w1 (fernet_generate_key (urandom w 0%nat))).
  - split; [reflexivity|]. mred. auto.
  - change TrackerEncryption.KEY_FILE with "encryption_key.key".
    rewrite Hf1. apply lookup_insert_eq.
Qed.

(** First run of the key-file variant, with neither key file nor store:
    [load_tasks] generates the key, creates the store as a token of the
    empty list under that key, and returns the empty list. *)
Theorem te_first_run (w : world) :
  generated_key_ok -> fernet_roundtrip -> codec_roundtrip ->
  token_nonempty ->
  json_loads (json_dumps (PList [])) = Some (PList []) ->
  files w !! "encryption_key.key" = None ->
  "encryption_key.key" ∉ dirs w ->
  files w !! "tasks.json" = None ->
  "tasks.json" ∉ dirs w ->
  exists w',
    TrackerEncryption.load_tasks w = (Ok (PList []), w')
    /\ files w' !! "encryption_key.key"
       = Some (fernet_generate_key (urandom w 0%nat))
    /\ files w' !! "tasks.json"
       = Some (fernet_encrypt (fernet_generate_key (urandom w 0%nat))
                 (urandom w 1%nat) (str_encode (json_dumps (PList []))))
    /\ umask w' = 127%Z.
Proof.
  intros Hgen Hfernet Hcodec Hnonempty Hjson Hkey Hkdir Hfile Hfdir.
  set (key := fernet_generate_key (urandom w 0%nat)).
  assert (Hok : fernet_key_ok key = true) by apply Hgen.
  pose proof (Hnonempty key (urandom w 1%nat)
                (str_encode (json_dumps (PList []))) Hok) as Htok.
  unfold TrackerEncryption.load_tasks, TrackerEncryption.secure_file_creation.
  change TrackerEncryption.FILE with "tasks.json".
  unfold bind at 1. unfold bind at 1. unfold os_path_exists at 1.
  rewrite Hfile. rewrite bool_decide_eq_false_2 by exact Hfdir.
  cbn [negb]. unfold bind at 1. unfold os_umask at 1.
  unfold bind at 1. unfold open_wb at 1. unfold bind at 1.
  unfold TrackerEncryption.encrypt_data at 1. unfold bind at 1.
  match goal with |- context [TrackerEncryption.load_key ?w0] =>
    destruct (te_load_key_generates_once_aux w0)
      as (w1 & Hrun1 & Hf1 & Hu1 & Hm1 & Hd1);
      [mred; rewrite lookup_insert_ne by discriminate; exact Hkey
      |mred; exact Hkdir|]
  end.
  rewrite Hrun1. mred_in Hf1. mred_in Hu1. mred_in Hm1.
  cbn [urandom set_files set_umask]. fold key. fold key in Hf1.
  unfold bind at 1. unfold TrackerEncryption.Fernet at 1. rewrite Hok.
  unfold ret at 1. unfold bind at 1.
  unfold TrackerEncryption.Fernet_encrypt at 1. mred.
  rewrite Hf1, Hu1.
  rewrite !lookup_insert_eq. cbn [default from_option id app].
  rewrite lookup_insert_ne by discriminate. rewrite lookup_insert_eq.
  cbn [default from_option id app].
  destruct (fernet_encrypt key (urandom w 1%nat)
              (str_encode (json_dumps (PList [])))) as [|b tok] eqn:Etok;
    [congruence|].
  mred.
  erewrite te_decrypt_data_ok;
    [|mred; rewrite ?Hf1; rewrite lookup_insert_ne by discriminate;
      apply lookup_insert_eq
     |exact Hok
     |rewrite <- Etok; apply Hfernet; exact Hok
     |apply Hcodec].
  rewrite Hjson. mred.
  eexists. split; [reflexivity|]. mred. rewrite ?Hf1, ?Hm1.
  split; [|split; [|reflexivity]].
  - rewrite lookup_insert_ne by discriminate. apply lookup_insert_eq.
  - apply lookup_insert_eq.
Qed.

End KeyFileVariants.

(** ** The input loops *)

Section InputLoops.
Context `{Platform}.

Lemma input_inv (prompt line : string) (w w' : world) :
  input prompt w = (Ok line, w') ->
  exists rest, stdin w = line :: rest /\ stdin w' = rest
               /\ log w' = log w /\ files w' = files w.
Proof.
  unfold input. destruct (stdin w) as [|l rest]; [discriminate|].
  intros E. injection E as <- <-. exists rest. mred. auto.
Qed.

Lemma tm_any_id_eq_true (items : list pyval) (n : Z) (w w' : world) :
  TaskManager.any_id_eq items n w = (Ok true, w') ->
  existsb (id_matches n) items = true.
Proof.
  induction items as [|t items IH]; cbn [TaskManager.any_id_eq existsb].
  - intros E. apply ret_inv in E as (E & _). discriminate.
  - intros E. apply bind_ok_inv in E as (v & w1 & Eg & E).
    destruct t as [| | | | |d]; try discriminate.
    cbn [py_getitem] in Eg. apply lift_opt_inv in Eg as (Hv & ->).
    cbn [id_matches]. rewrite Hv.
    destruct (py_eq_int v n); [reflexivity|]. cbn [orb]. exact (IH E).
Qed.

Lemma te_any_id_eq_true (items : list pyval) (n : Z) (w w' : world) :
  TrackerEncryption.any_id_eq items n w = (Ok true, w') ->
  existsb (id_matches n) items = true.
Proof.
  induction items as [|t items IH];
    cbn [TrackerEncryption.any_id_eq existsb].
  - intros E. apply ret_inv in E as (E & _). discriminate.
  - intros E. apply bind_ok_inv in E as (v & w1 & Eg & E).
    destruct t as [| | | | |d]; try discriminate.
    cbn [py_getitem] in Eg. apply lift_opt_inv in Eg as (Hv & ->).
    cbn [id_matches]. rewrite Hv.
    destruct (py_eq_int v n); [reflexivity|]. cbn [orb]. exact (IH E).
Qed.

Lemma py_iter_inv (x : pyval) (items : list pyval) (w w' : world) :
  py_iter x w = (Ok items, w') -> fst (py_iter x w) = Ok items /\ w' = w.
Proof.
  intros E. rewrite E. split; [reflexivity|].
  destruct x; cbn [py_iter] in E; unfold ret, raise in E;
    try discriminate; injection E as _ <-; reflexivity.
Qed.

Lemma tm_get_valid_task_id_loop_known (tasks : pyval)
    (pending : list string) :
  forall (w w' : world) (n : Z),
    TaskManager.get_valid_task_id_loop tasks pending w = (Ok n, w') ->
    exists items w0,
      py_iter tasks w0 = (Ok items, w0)
      /\ existsb (id_matches n) items = true.
Proof.
  induction pending as [|l pending IH]; intros w w' n E;
    cbn [TaskManager.get_valid_task_id_loop] in E;
    apply bind_ok_inv in E as (line & w1 & _ & E);
    destruct (py_int (strip line)) as [task_id|].
  - apply bind_ok_inv in E as (items & w2 & Ei & E).
    pose proof (py_iter_inv _ _ _ _ Ei) as (_ & ->).
    apply bind_ok_inv in E as (found & w3 & Ea & E).
    destruct found; cbn [negb] in E.
    + apply ret_inv in E as (<- & _).
      exists items, w1. split; [exact Ei|].
      exact (tm_any_id_eq_true _ _ _ _ Ea).
    + apply bind_ok_inv in E as (? & ? & _ & E).
      apply bind_ok_inv in E as (? & ? & _ & E). discriminate.
  - apply bind_ok_inv in E as (? & ? & _ & E).
    apply bind_ok_inv in E as (? & ? & _ & E). discriminate.
  - apply bind_ok_inv in E as (items & w2 & Ei & E).
    pose proof (py_iter_inv _ _ _ _ Ei) as (_ & ->).
    apply bind_ok_inv in E as (found & w3 & Ea & E).
    destruct found; cbn [negb] in E.
    + apply ret_inv in E as (<- & _).
      exists items, w1. split; [exact Ei|].
      exact (tm_any_id_eq_true _ _ _ _ Ea).
    + apply bind_ok_inv in E as (? & ? & _ & E).
      apply bind_ok_inv in E as (? & ? & _ & E). exact (IH _ _ _ E).
  - apply bind_ok_inv in E as (? & ? & _ & E).
    apply bind_ok_inv in E as (? & ? & _ & E). exact (IH _ _ _ E).
Qed.

Lemma te_get_valid_task_id_loop_known (tasks : pyval)
    (pending : list string) :
  forall (w w' : world) (n : Z),
    TrackerEncryption.get_valid_task_id_loop tasks pending w = (Ok n, w') ->
    exists items w0,
      py_iter tasks w0 = (Ok items, w0)
      /\ existsb (id_matches n) items = true.
Proof.
  induction pending as [|l pending IH]; intros w w' n E;
    cbn [TrackerEncryption.get_valid_task_id_loop] in E;
    apply bind_ok_inv in E as (line & w1 & _ & E);
    destruct (py_int (strip line)) as [task_id|].
  - apply bind_ok_inv in E as (items & w2 & Ei & E).
    pose proof (py_iter_inv _ _ _ _ Ei) as (_ & ->).
    apply bind_ok_inv in E as (found & w3 & Ea & E).
    destruct found; cbn [negb] in E.
    + apply ret_inv in E as (<- & _).
      exists items, w1. split; [exact Ei|].
      exact (te_any_id_eq_true _ _ _ _ Ea).
    + apply bind_ok_inv in E as (? & ? & _ & E). discriminate.
  - apply bind_ok_inv in E as (? & ? & _ & E). discriminate.
  - apply bind_ok_inv in E as (items & w2 & Ei & E).
    pose proof (py_iter_inv _ _ _ _ Ei) as (_ & ->).
    apply bind_ok_inv in E as (found & w3 & Ea & E).
    destruct found; cbn [negb] in E.
    + apply ret_inv in E as (<- & _).
      exists items, w1. split; [exact Ei|].
      exact (te_any_id_eq_true _ _ _ _ Ea).
    + apply bind_ok_inv in E as (? & ? & _ & E). exact (IH _ _ _ E).
  - apply bind_ok_inv in E as (? & ? & _ & E). exact (IH _ _ _ E).
Qed.

Lemma tm_status_choice_loop_values (pending : list string) :
  forall (w w' : world) (s : string),
    TaskManager.status_choice_loop pending w = (Ok s, w') ->
    s = "in progress" \/ s = "done".
Proof.
  induction pending as [|l pending IH]; intros w w' s E;
    cbn [TaskManager.status_choice_loop] in E;
    apply bind_ok_inv in E as (raw & w1 & _ & E);
    destruct (String.eqb (strip raw) "1");
    try (apply ret_inv in E as (<- & _); auto; fail);
    destruct (String.eqb (strip raw) "2");
    try (apply ret_inv in E as (<- & _); auto; fail);
    apply bind_ok_inv in E as (? & ? & _ & E);
    apply bind_ok_inv in E as (? & ? & _ & E).
  - discriminate.
  - exact (IH _ _ _ E).
Qed.

Lemma te_status_choice_loop_values (pending : list string) :
  forall (w w' : world) (s : string),
    TrackerEncryption.status_choice_loop pending w = (Ok s, w') ->
    s = "in progress" \/ s = "done".
Proof.
  induction pending as [|l pending IH]; intros w w' s E;
    cbn [TrackerEncryption.status_choice_loop] in E;
    apply bind_ok_inv in E as (raw & w1 & _ & E);
    destruct (String.eqb (strip raw) "1");
    try (apply ret_inv in E as (<- & _); auto; fail);
    destruct (String.eqb (strip raw) "2");
    try (apply ret_inv in E as (<- & _); auto; fail);
    apply bind_ok_inv in E as (? & ? & _ & E).
  - discriminate.
  - exact (IH _ _ _ E).
Qed.

(** The prompts hand on validated answers only, in both variants: an id
    that [get_valid_task_id] returns is the id of an item of the list it
    loaded, and a status that the choice loop returns is ["in progress"]
    or ["done"]. *)
Theorem prompts_return_validated_answers :
  (forall (w w' : world) (n : Z),
     TaskManager.get_valid_task_id w = (Ok n, w') ->
     exists tasks items w1 w0,
       TaskManager.load_tasks w = (Ok tasks, w1)
       /\ py_iter tasks w0 = (Ok items, w0)
       /\ existsb (id_matches n) items = true)
  /\ (forall (w w' : world) (n : Z),
        TrackerEncryption.get_valid_task_id w = (Ok n, w') ->
        exists tasks items w1 w0,
          TrackerEncryption.load_tasks w = (Ok tasks, w1)
          /\ py_iter tasks w0 = (Ok items, w0)
          /\ existsb (id_matches n) items = true)
  /\ (forall (pending : list string) (w w' : world) (s : string),
        TaskManager.status_choice_loop pending w = (Ok s, w')
        \/ TrackerEncryption.status_choice_loop pending w = (Ok s, w') ->
        s = "in progress" \/ s = "done").
Proof.
  split; [|split].
  - intros w w' n E. unfold TaskManager.get_valid_task_id in E.
    apply bind_ok_inv in E as (tasks & w1 & El & E).
    destruct (tm_get_valid_task_id_loop_known _ _ _ _ _ E)
      as (items & w0 & Hi & Hex).
    exists tasks, items, w1, w0. auto.
  - intros w w' n E. unfold TrackerEncryption.get_valid_task_id in E.
    apply bind_ok_inv in E as (tasks & w1 & El & E).
    destruct (te_get_valid_task_id_loop_known _ _ _ _ _ E)
      as (items & w0 & Hi & Hex).
    exists tasks, items, w1, w0. auto.
  - intros pending w w' s [E|E].
    + exact (tm_status_choice_loop_values _ _ _ _ E).
    + exact (te_status_choice_loop_values _ _ _ _ E).
Qed.

(** The id prompt of [TaskManager.py] retries: lines that are no number
    or the number of no task are turned down, one error record each, and
    the first line that names a task is returned, the input after it left
    unread. *)
Theorem tm_get_valid_task_id_skips_rejected (l : list pyval)
    (bad : list string) (good : string) (rest : list string) (n : Z) :
  Forall has_id l ->
  forallb (line_rejected l) bad = true ->
  py_int (strip good) = Some n ->
  existsb (id_matches n) l = true ->
  forall w : world,
    stdin w = bad ++ good :: rest ->
    exists w',
      TaskManager.get_valid_task_id_loop (PList l) (stdin w) w = (Ok n, w')
      /\ stdin w' = rest
      /\ length (log w') = (length (log w) + length bad)%nat
      /\ files w' = files w.
Proof.
  intros Hids Hbad Hgood Hex.
  induction bad as [|b bad IH]; intros w Hin.
  - cbn [app] in Hin.
    rewrite (tm_get_valid_task_id_first w good rest n l Hin Hgood Hids Hex).
    eexists. split; [reflexivity|]. mred. cbn [length]. auto with lia.
  - cbn [forallb] in Hbad. apply andb_true_iff in Hbad as (Hb & Hbad).
    specialize (IH Hbad). cbn [app] in Hin. rewrite Hin.
    cbn [TaskManager.get_valid_task_id_loop].
    unfold bind at 1. unfold input at 1. rewrite Hin.
    unfold line_rejected in Hb.
    destruct (py_int (strip b)) as [m|].
    + unfold bind at 1. cbn [py_iter]. unfold ret at 1. unfold bind at 1.
      rewrite (tm_any_id_eq_spec l m _ Hids).
      destruct (existsb (id_matches m) l); [discriminate|]. cbn [negb].
      unfold bind at 1. unfold logging at 1.
      unfold bind at 1. unfold print at 1.
      match goal with
      | |- context [TaskManager.get_valid_task_id_loop _ _ ?w1] =>
          destruct (IH w1) as (w' & Hrun & Hs & Hl & Hf); [reflexivity|];
          assert (Es : stdin w1 = bad ++ good :: rest) by reflexivity;
          rewrite Es in Hrun
      end.
      exists w'. split; [exact Hrun|]. split; [exact Hs|].
      mred_in Hl. mred_in Hf. rewrite Hl, Hf. rewrite length_app.
      cbn [length]. split; [lia|reflexivity].
    + unfold bind at 1. unfold logging at 1.
      unfold bind at 1. unfold print at 1.
      match goal with
      | |- context [TaskManager.get_valid_task_id_loop _ _ ?w1] =>
          destruct (IH w1) as (w' & Hrun & Hs & Hl & Hf); [reflexivity|];
          assert (Es : stdin w1 = bad ++ good :: rest) by reflexivity;
          rewrite Es in Hrun
      end.
      exists w'. split; [exact Hrun|]. split; [exact Hs|].
      mred_in Hl. mred_in Hf. rewrite Hl, Hf. rewrite length_app.
      cbn [length]. split; [lia|reflexivity].
Qed.

End InputLoops.

(** ** Changing the title or the description of a task *)

Lemma mark_key_no_match (key : string) (n : Z) (v : string) (l : list pyval) :
  existsb (id_matches n) l = false -> map (mark_key key n v) l = l.
Proof.
  induction l as [|t l IH]; cbn [existsb map]; [reflexivity|].
  intros E. apply orb_false_iff in E as (Et & El).
  rewrite (IH El). f_equal.
  destruct t; cbn [mark_key]; try reflexivity. rewrite Et. reflexivity.
Qed.

Lemma mark_key_only (key : string) (n : Z) (v : string) (l : list pyval) :
  only_key_changed key n v l (map (mark_key key n v) l).
Proof.
  split; [apply length_map|].
  induction l as [|t l IH]; intros i d Hi; [discriminate|].
  destruct i as [|i]; cbn [map].
  - cbn in Hi. injection Hi as ->. cbn [mark_key].
    destruct (id_matches n (PDict d)) eqn:Em.
    + eexists. split; [reflexivity|]. split; [|split; [|split]].
      * intros k Hk. apply dict_get_set_other. exact Hk.
      * discriminate.
      * intros _. apply dict_get_set_same.
      * apply dict_set_keys.
    + exists d. split; [reflexivity|]. split; [|split; [|split]];
        try reflexivity; try discriminate; auto.
  - cbn in Hi. destruct (IH i d Hi) as (d' & Hd' & Hrest).
    exists d'. split; [exact Hd'|exact Hrest].
Qed.

Section TaskManagerRename.
Context `{Platform}.

Lemma tm_update_title_loop_spec (K : string) (n : Z) (s : string)
    (l0 : list pyval) :
  K <> "" -> fernet_key_ok (str_encode K) = true ->
  forall (todo seen : list pyval) (w : world) (c : list Byte.byte),
    environ w = Some K ->
    files w !! TaskManager.FILE = Some c ->
    can_snapshot w = true ->
    (forall i, has_slash (clock w i) = false) ->
    Forall has_id todo ->
    exists w',
      TaskManager.update_title_loop (PList l0) n s seen todo w = (Ok tt, w')
      /\ (existsb (id_matches n) todo = true ->
          (exists nonce,
             files w' !! TaskManager.FILE
             = Some (fernet_encrypt (str_encode K) nonce
                       (str_encode (json_dumps
                          (PList (seen ++ map (mark_key "title" n s) todo))))))
          /\ hash_file w'
             = Some (TaskManager.calculate_hash
                       (json_dumps
                          (PList (seen ++ map (mark_key "title" n s) todo)))))
      /\ (existsb (id_matches n) todo = false ->
          files w' !! TaskManager.FILE = files w !! TaskManager.FILE
          /\ hash_file w' = hash_file w).
Proof.
  intros Hne Hok. induction todo as [|t todo IH];
    intros seen w c HK Hc Hcan Hts Hids;
    cbn [TaskManager.update_title_loop].
  - exists w. split; [reflexivity|]. cbn [existsb].
    split; [discriminate|auto].
  - apply Forall_cons in Hids as (Ht & Hids).
    destruct t as [| | | | |d]; try contradiction.
    destruct Ht as (v & Hv).
    unfold bind at 1. cbn [py_getitem]. rewrite Hv. cbn [lift_opt].
    unfold ret at 1.
    assert (Hm : id_matches n (PDict d) = py_eq_int v n).
    { cbn [id_matches]. rewrite Hv. reflexivity. }
    cbn [existsb map]. rewrite Hm.
    destruct (py_eq_int v n) eqn:Ev.
    + unfold bind at 1. cbn [py_setitem]. unfold ret at 1.
      cbn [with_items].
      assert (Hmark : mark_key "title" n s (PDict d)
                      = PDict (dict_set "title" (PStr s) d)).
      { cbn [mark_key]. rewrite Hm. reflexivity. }
      rewrite Hmark.
      destruct (tm_save_tasks_ok w K c
                  (PList (seen ++ PDict (dict_set "title" (PStr s) d) :: todo))
                  HK Hne Hok Hc Hcan (Hts 0%nat))
        as (w1 & Hrun & Hf & Hh & He & Hcl & _ & _ & _ & _ & _ & Hcan1).
      unfold bind at 1. rewrite Hrun.
      unfold bind at 1. unfold logging at 1.
      unfold bind at 1. unfold print at 1.
      match goal with
      | |- context [TaskManager.update_title_loop _ _ _ ?sn todo ?w2] =>
          destruct (IH sn w2
                      (fernet_encrypt (str_encode K) (urandom w 0%nat)
                         (str_encode (json_dumps (PList
                            (seen ++ PDict (dict_set "title" (PStr s) d)
                                  :: todo))))))
            as (w' & Hrun' & Hsome & Hnone)
      end.
      * mred. congruence.
      * mred. rewrite Hf. apply lookup_insert_eq.
      * exact Hcan1.
      * intros i. mred. rewrite Hcl. apply Hts.
      * exact Hids.
      * exists w'. split; [exact Hrun'|]. cbn [orb].
        split; [|discriminate]. intros _.
        destruct (existsb (id_matches n) todo) eqn:Ex.
        -- rewrite <- app_assoc in Hsome. cbn [app] in Hsome.
           apply Hsome. reflexivity.
        -- destruct (Hnone eq_refl) as (Hf' & Hh').
           mred_in Hf'. mred_in Hh'.
           rewrite (mark_key_no_match "title" n s todo Ex).
           rewrite Hf', Hh', Hh, Hf. rewrite lookup_insert_eq.
           split; [eexists; reflexivity|reflexivity].
    + assert (Hmark : mark_key "title" n s (PDict d) = PDict d).
      { cbn [mark_key]. rewrite Hm. reflexivity. }
      rewrite Hmark. cbn [orb].
      destruct (IH (seen ++ [PDict d]) w c HK Hc Hcan Hts Hids)
        as (w' & Hrun' & Hsome & Hnone).
      exists w'. split; [exact Hrun'|].
      rewrite <- app_assoc in Hsome. cbn [app] in Hsome.
      split; assumption.
Qed.

Lemma tm_update_task_title_spec (w : world) (K : string)
    (enc raw : list Byte.byte) (js : string) (l : list pyval)
    (id_line answer : string) (rest : list string) (n : Z) :
  environ w = Some K -> K <> "" ->
  fernet_key_ok (str_encode K) = true ->
  files w !! TaskManager.FILE = Some enc -> enc <> [] ->
  fernet_decrypt (str_encode K) enc = Some raw ->
  bytes_decode raw = Some js ->
  json_loads js = Some (PList l) ->
  hash_file w = None \/ hash_file w = Some (TaskManager.calculate_hash js) ->
  Forall has_id l ->
  stdin w = id_line :: answer :: rest ->
  py_int (strip id_line) = Some n ->
  existsb (id_matches n) l = true ->
  (strip answer <> "" ->
   can_snapshot w = true ->
   (forall i, has_slash (clock w i) = false) ->
   exists w' l' nonce,
     TaskManager.update_task_title w = (Ok tt, w')
     /\ files w' !! TaskManager.FILE
        = Some (fernet_encrypt (str_encode K) nonce
                  (str_encode (json_dumps (PList l'))))
     /\ hash_file w'
        = Some (TaskManager.calculate_hash (json_dumps (PList l')))
     /\ only_key_changed "title" n (strip answer) l l')
  /\ (strip answer = "" ->
      exists w',
        TaskManager.update_task_title w = (Ok tt, w')
        /\ files w' = files w /\ hash_file w' = hash_file w
        /\ writes w' = writes w).
Proof.
  intros HK Hne Hok Hfile Henc Hdec Hraw Hjs Hhash Hids Hin Hint Hex.
  destruct (tm_load_tasks_ok w K enc raw js (PList l)
              HK Hne Hok Hfile Henc Hdec Hraw Hjs Hhash)
    as (wa & Hla & Hfa & Hha & Hea & Hsa).
  destruct (tm_load_tasks_only_logs w wa enc _ Hfile Hla) as (lga & Hlga).
  assert (Hwa : writes wa = writes w) by (rewrite Hlga; reflexivity).
  assert (Hprefix : forall k : Z -> M unit,
    bind TaskManager.get_valid_task_id k w
    = k n (set_stdin (answer :: rest)
             (set_stdout (stdout wa ++ ["Enter task ID: "]) wa))).
  { intros k. unfold TaskManager.get_valid_task_id.
    unfold bind at 1. unfold bind at 1. rewrite Hla. cbn beta.
    rewrite (tm_get_valid_task_id_first wa id_line (answer :: rest) n l);
      [reflexivity|congruence|exact Hint|exact Hids|exact Hex]. }
  unfold TaskManager.update_task_title. rewrite Hprefix.
  split.
  - intros Hanswer Hcan Hts.
    unfold bind at 1. unfold input at 1. cbn [stdin set_stdin set_stdout].
    destruct (strip answer) as [|a1 t1] eqn:Eanswer; [congruence|].
    cbn [str_empty]. rewrite <- Eanswer.
    match goal with |- context [bind TaskManager.load_tasks _ ?w2] =>
      destruct (tm_load_tasks_ok w2 K enc raw js (PList l))
        as (wc & Hlc & Hfc & Hhc & Hec & Hsc);
        [mred; congruence|exact Hne|exact Hok
        |mred; congruence|exact Henc|exact Hdec|exact Hraw|exact Hjs
        |mred; rewrite Hha; exact Hhash|]
    end.
    match type of Hlc with TaskManager.load_tasks ?w2 = _ =>
      assert (Hwc : exists lgc, wc = set_log lgc w2)
        by (apply (tm_load_tasks_only_logs w2 wc enc (Ok (PList l)));
            [mred; congruence|exact Hlc])
    end.
    destruct Hwc as (lgc & Hwc).
    unfold bind at 1. rewrite Hlc.
    unfold bind at 1. cbn [py_iter]. unfold ret at 1.
    destruct (tm_update_title_loop_spec K n (strip answer) l Hne Hok
                l [] wc enc)
      as (w' & Hrun & Hsome & _).
    { rewrite Hec. mred. congruence. }
    { rewrite Hfc. mred. congruence. }
    { rewrite Hwc, Hlga. exact Hcan. }
    { intros i. rewrite Hwc, Hlga. apply Hts. }
    { exact Hids. }
    destruct (Hsome Hex) as ((nonce & Hstore) & Hdigest).
    exists w', (map (mark_key "title" n (strip answer)) l), nonce.
    split; [exact Hrun|]. split; [exact Hstore|]. split; [exact Hdigest|].
    apply mark_key_only.
  - intros Hblank.
    unfold bind at 1. unfold input at 1. cbn [stdin set_stdin set_stdout].
    rewrite Hblank. cbn [str_empty]. mred.
    eexists. split; [reflexivity|]. mred. auto.
Qed.

Lemma tm_update_description_loop_spec (K : string) (n : Z) (s : string)
    (l0 : list pyval) :
  K <> "" -> fernet_key_ok (str_encode K) = true ->
  forall (todo seen : list pyval) (w : world) (c : list Byte.byte),
    environ w = Some K ->
    files w !! TaskManager.FILE = Some c ->
    can_snapshot w = true ->
    (forall i, has_slash (clock w i) = false) ->
    Forall has_id todo ->
    exists w',
      TaskManager.update_description_loop (PList l0) n s seen todo w = (Ok tt, w')
      /\ (existsb (id_matches n) todo = true ->
          (exists nonce,
             files w' !! TaskManager.FILE
             = Some (fernet_encrypt (str_encode K) nonce
                       (str_encode (json_dumps
                          (PList (seen ++ map (mark_key "description" n s) todo))))))
          /\ hash_file w'
             = Some (TaskManager.calculate_hash
                       (json_dumps
                          (PList (seen ++ map (mark_key "description" n s) todo)))))
      /\ (existsb (id_matches n) todo = false ->
          files w' !! TaskManager.FILE = files w !! TaskManager.FILE
          /\ hash_file w' = hash_file w).
Proof.
  intros Hne Hok. induction todo as [|t todo IH];
    intros seen w c HK Hc Hcan Hts Hids;
    cbn [TaskManager.update_description_loop].
  - exists w. split; [reflexivity|]. cbn [existsb].
    split; [discriminate|auto].
  - apply Forall_cons in Hids as (Ht & Hids).
    destruct t as [| | | | |d]; try contradiction.
    destruct Ht as (v & Hv).
    unfold bind at 1. cbn [py_getitem]. rewrite Hv. cbn [lift_opt].
    unfold ret at 1.
    assert (Hm : id_matches n (PDict d) = py_eq_int v n).
    { cbn [id_matches]. rewrite Hv. reflexivity. }
    cbn [existsb map]. rewrite Hm.
    destruct (py_eq_int v n) eqn:Ev.
    + unfold bind at 1. cbn [py_setitem]. unfold ret at 1.
      cbn [with_items].
      assert (Hmark : mark_key "description" n s (PDict d)
                      = PDict (dict_set "description" (PStr s) d)).
      { cbn [mark_key]. rewrite Hm. reflexivity. }
      rewrite Hmark.
      destruct (tm_save_tasks_ok w K c
                  (PList (seen ++ PDict (dict_set "description" (PStr s) d) :: todo))
                  HK Hne Hok Hc Hcan (Hts 0%nat))
        as (w1 & Hrun & Hf & Hh & He & Hcl & _ & _ & _ & _ & _ & Hcan1).
      unfold bind at 1. rewrite Hrun.
      unfold bind at 1. unfold logging at 1.
      unfold bind at 1. unfold print at 1.
      match goal with
      | |- context [TaskManager.update_description_loop _ _ _ ?sn todo ?w2] =>
          destruct (IH sn w2
                      (fernet_encrypt (str_encode K) (urandom w 0%nat)
                         (str_encode (json_dumps (PList
                            (seen ++ PDict (dict_set "description" (PStr s) d)
                                  :: todo))))))
            as (w' & Hrun' & Hsome & Hnone)
      end.
      * mred. congruence.
      * mred. rewrite Hf. apply lookup_insert_eq.
      * exact Hcan1.
      * intros i. mred. rewrite Hcl. apply Hts.
      * exact Hids.
      * exists w'. split; [exact Hrun'|]. cbn [orb].
        split; [|discriminate]. intros _.
        destruct (existsb (id_matches n) todo) eqn:Ex.
        -- rewrite <- app_assoc in Hsome. cbn [app] in Hsome.
           apply Hsome. reflexivity.
        -- destruct (Hnone eq_refl) as (Hf' & Hh').
           mred_in Hf'. mred_in Hh'.
           rewrite (mark_key_no_match "description" n s todo Ex).
           rewrite Hf', Hh', Hh, Hf. rewrite lookup_insert_eq.
           split; [eexists; reflexivity|reflexivity].
    + assert (Hmark : mark_key "description" n s (PDict d) = PDict d).
      { cbn [mark_key]. rewrite Hm. reflexivity. }
      rewrite Hmark. cbn [orb].
      destruct (IH (seen ++ [PDict d]) w c HK Hc Hcan Hts Hids)
        as (w' & Hrun' & Hsome & Hnone).
      exists w'. split; [exact Hrun'|].
      rewrite <- app_assoc in Hsome. cbn [app] in Hsome.
      split; assumption.
Qed.

Lemma tm_update_task_description_spec (w : world) (K : string)
    (enc raw : list Byte.byte) (js : string) (l : list pyval)
    (id_line answer : string) (rest : list string) (n : Z) :
  environ w = Some K -> K <> "" ->
  fernet_key_ok (str_encode K) = true ->
  files w !! TaskManager.FILE = Some enc -> enc <> [] ->
  fernet_decrypt (str_encode K) enc = Some raw ->
  bytes_decode raw = Some js ->
  json_loads js = Some (PList l) ->
  hash_file w = None \/ hash_file w = Some (TaskManager.calculate_hash js) ->
  Forall has_id l ->
  stdin w = id_line :: answer :: rest ->
  py_int (strip id_line) = Some n ->
  existsb (id_matches n) l = true ->
  (strip answer <> "" ->
   can_snapshot w = true ->
   (forall i, has_slash (clock w i) = false) ->
   exists w' l' nonce,
     TaskManager.update_task_description w = (Ok tt, w')
     /\ files w' !! TaskManager.FILE
        = Some (fernet_encrypt (str_encode K) nonce
                  (str_encode (json_dumps (PList l'))))
     /\ hash_file w'
        = Some (TaskManager.calculate_hash (json_dumps (PList l')))
     /\ only_key_changed "description" n (strip answer) l l')
  /\ (strip answer = "" ->
      exists w',
        TaskManager.update_task_description w = (Ok tt, w')
        /\ files w' = files w /\ hash_file w' = hash_file w
        /\ writes w' = writes w).
Proof.
  intros HK Hne Hok Hfile Henc Hdec Hraw Hjs Hhash Hids Hin Hint Hex.
  destruct (tm_load_tasks_ok w K enc raw js (PList l)
              HK Hne Hok Hfile Henc Hdec Hraw Hjs Hhash)
    as (wa & Hla & Hfa & Hha & Hea & Hsa).
  destruct (tm_load_tasks_only_logs w wa enc _ Hfile Hla) as (lga & Hlga).
  assert (Hwa : writes wa = writes w) by (rewrite Hlga; reflexivity).
  assert (Hprefix : forall k : Z -> M unit,
    bind TaskManager.get_valid_task_id k w
    = k n (set_stdin (answer :: rest)
             (set_stdout (stdout wa ++ ["Enter task ID: "]) wa))).
  { intros k. unfold TaskManager.get_valid_task_id.
    unfold bind at 1. unfold bind at 1. rewrite Hla. cbn beta.
    rewrite (tm_get_valid_task_id_first wa id_line (answer :: rest) n l);
      [reflexivity|congruence|exact Hint|exact Hids|exact Hex]. }
  unfold TaskManager.update_task_description. rewrite Hprefix.
  split.
  - intros Hanswer Hcan Hts.
    unfold bind at 1. unfold input at 1. cbn [stdin set_stdin set_stdout].
    destruct (strip answer) as [|a1 t1] eqn:Eanswer; [congruence|].
    cbn [str_empty]. rewrite <- Eanswer.
    match goal with |- context [bind TaskManager.load_tasks _ ?w2] =>
      destruct (tm_load_tasks_ok w2 K enc raw js (PList l))
        as (wc & Hlc & Hfc & Hhc & Hec & Hsc);
        [mred; congruence|exact Hne|exact Hok
        |mred; congruence|exact Henc|exact Hdec|exact Hraw|exact Hjs
        |mred; rewrite Hha; exact Hhash|]
    end.
    match type of Hlc with TaskManager.load_tasks ?w2 = _ =>
      assert (Hwc : exists lgc, wc = set_log lgc w2)
        by (apply (tm_load_tasks_only_logs w2 wc enc (Ok (PList l)));
            [mred; congruence|exact Hlc])
    end.
    destruct Hwc as (lgc & Hwc).
    unfold bind at 1. rewrite Hlc.
    unfold bind at 1. cbn [py_iter]. unfold ret at 1.
    destruct (tm_update_description_loop_spec K n (strip answer) l Hne Hok
                l [] wc enc)
      as (w' & Hrun & Hsome & _).
    { rewrite Hec. mred. congruence. }
    { rewrite Hfc. mred. congruence. }
    { rewrite Hwc, Hlga. exact Hcan. }
    { intros i. rewrite Hwc, Hlga. apply Hts. }
    { exact Hids. }
    destruct (Hsome Hex) as ((nonce & Hstore) & Hdigest).
    exists w', (map (mark_key "description" n (strip answer)) l), nonce.
    split; [exact Hrun|]. split; [exact Hstore|]. split; [exact Hdigest|].
    apply mark_key_only.
  - intros Hblank.
    unfold bind at 1. unfold input at 1. cbn [stdin set_stdin set_stdout].
    rewrite Hblank. cbn [str_empty]. mred.
    eexists. split; [reflexivity|]. mred. auto.
Qed.

(** [update_task_title] and [update_task_description] of [TaskManager.py]
    on a stored list whose items all carry an id, one of them the id typed
    in: on an answer that is not blank, in a process that can take
    snapshots, the store and the digest become those of the list with
    that field of the matching items set to the stripped answer and
    nothing else changed; a blank answer is turned down and no file is
    written. *)
Theorem tm_update_title_and_description (w : world) (K : string)
    (enc raw : list Byte.byte) (js : string) (l : list pyval)
    (id_line answer : string) (rest : list string) (n : Z) :
  environ w = Some K -> K <> "" ->
  fernet_key_ok (str_encode K) = true ->
  files w !! TaskManager.FILE = Some enc -> enc <> [] ->
  fernet_decrypt (str_encode K) enc = Some raw ->
  bytes_decode raw = Some js ->
  json_loads js = Some (PList l) ->
  hash_file w = None \/ hash_file w = Some (TaskManager.calculate_hash js) ->
  Forall has_id l ->
  stdin w = id_line :: answer :: rest ->
  py_int (strip id_line) = Some n ->
  existsb (id_matches n) l = true ->
  (strip answer <> "" ->
   can_snapshot w = true ->
   (forall i, has_slash (clock w i) = false) ->
   (exists w' l' nonce,
      TaskManager.update_task_title w = (Ok tt, w')
      /\ files w' !! TaskManager.FILE
         = Some (fernet_encrypt (str_encode K) nonce
                   (str_encode (json_dumps (PList l'))))
      /\ hash_file w'
         = Some (TaskManager.calculate_hash (json_dumps (PList l')))
      /\ only_key_changed "title" n (strip answer) l l')
   /\ (exists w' l' nonce,
         TaskManager.update_task_description w = (Ok tt, w')
         /\ files w' !! TaskManager.FILE
            = Some (fernet_encrypt (str_encode K) nonce
                      (str_encode (json_dumps (PList l'))))
         /\ hash_file w'
            = Some (TaskManager.calculate_hash (json_dumps (PList l')))
         /\ only_key_changed "description" n (strip answer) l l'))
  /\ (strip answer = "" ->
      (exists w',
         TaskManager.update_task_title w = (Ok tt, w')
         /\ files w' = files w /\ hash_file w' = hash_file w
         /\ writes w' = writes w)
      /\ (exists w',
            TaskManager.update_task_description w = (Ok tt, w')
            /\ files w' = files w /\ hash_file w' = hash_file w
            /\ writes w' = writes w)).
Proof.
  intros HK Hne Hok Hfile Henc Hdec Hraw Hjs Hhash Hids Hin Hint Hex.
  destruct (tm_update_task_title_spec w K enc raw js l id_line answer rest n
              HK Hne Hok Hfile Henc Hdec Hraw Hjs Hhash Hids Hin Hint Hex)
    as (Ht1 & Ht2).
  destruct (tm_update_task_description_spec w K enc raw js l id_line answer
              rest n
              HK Hne Hok Hfile Henc Hdec Hraw Hjs Hhash Hids Hin Hint Hex)
    as (Hd1 & Hd2).
  split.
  - intros Ha Hcan Hts. split; auto.
  - intros Ha. split; auto.
Qed.

End TaskManagerRename.

(** ** Which files the programs write *)

Section WritesWithin.
Context `{Platform}.

Lemma ww_silent {A} (allowed : string -> Prop) (c : M A) :
  silent c -> writes_within allowed c.
Proof.
  intros Hc w r w' E. exists []. rewrite app_nil_r.
  split; [exact (Hc w r w' E)|constructor].
Qed.

Lemma ww_seq {A B} (allowed : string -> Prop) (c : M A) (k : A -> M B) :
  writes_within allowed c ->
  (forall a, writes_within allowed (k a)) ->
  writes_within allowed (bind c k).
Proof.
  intros Hc Hk w r w' E. unfold bind in E.
  destruct (c w) as [[a|e] w1] eqn:Ec.
  - destruct (Hc w _ w1 Ec) as (new1 & Hw1 & Hs1).
    destruct (Hk a w1 r w' E) as (new2 & Hw2 & Hs2).
    exists (new1 ++ new2). rewrite Hw2, Hw1, app_assoc.
    split; [reflexivity|]. apply Forall_app. split; assumption.
  - injection E as _ <-. exact (Hc w _ w1 Ec).
Qed.

Lemma ww_file_write (allowed : string -> Prop) (p : string)
    (data : list Byte.byte) :
  allowed p -> writes_within allowed (file_write p data).
Proof.
  intros Hp w r w' E. unfold file_write in E. injection E as _ <-.
  exists [(p, data)]. split; [reflexivity|].
  constructor; [exact Hp|constructor].
Qed.

Lemma ww_shutil_copy (allowed : string -> Prop) (src dst : string) :
  allowed dst -> writes_within allowed (shutil_copy src dst).
Proof.
  intros Hp w r w' E. unfold shutil_copy in E.
  destruct (files w !! src) as [b|];
    [destruct (write_refused w dst)|]; injection E as _ <-.
  - exists []. rewrite app_nil_r. split; [reflexivity|constructor].
  - exists [(dst, b)]. split; [reflexivity|].
    constructor; [exact Hp|constructor].
  - exists []. rewrite app_nil_r. split; [reflexivity|constructor].
Qed.

End WritesWithin.

(** Decomposes a goal [writes_within a c] along the shape of [c]. *)
Ltac ww_steps :=
  repeat first
    [ solve [auto using ww_silent with writes]
    | apply ww_seq; [|intros ?]
    | match goal with
      | |- writes_within _ (if ?b then _ else _) => destruct b
      | |- writes_within _ (match ?x with _ => _ end) => destruct x
      end ].

Section TaskManagerWritesWithin.
Context `{Platform}.

Lemma ww_tm_secure_file_creation :
  writes_within store_digest_or_snapshot
    (TaskManager.secure_file_creation TaskManager.FILE).
Proof.
  unfold TaskManager.secure_file_creation.
  pose proof silent_tm_encrypt_data.
  pose proof (fun d => ww_file_write store_digest_or_snapshot TaskManager.FILE d
                         (or_introl eq_refl)).
  ww_steps.
Qed.

Lemma ww_tm_save_hash h :
  writes_within store_digest_or_snapshot (TaskManager.save_hash h).
Proof.
  intros w r w' E. unfold TaskManager.save_hash in E. injection E as _ <-.
  eexists. split; [reflexivity|].
  constructor; [|constructor]. right. left. reflexivity.
Qed.

Lemma ww_tm_create_backup :
  writes_within store_digest_or_snapshot TaskManager.create_backup.
Proof.
  unfold TaskManager.create_backup.
  pose proof (fun ts => ww_shutil_copy store_digest_or_snapshot TaskManager.FILE
                          (TaskManager.backup_path ts)
                          (or_intror (or_intror (backup_path_in_folder ts)))).
  ww_steps.
Qed.

Lemma ww_tm_save_tasks (tasks : pyval) :
  writes_within store_digest_or_snapshot (TaskManager.save_tasks tasks).
Proof.
  unfold TaskManager.save_tasks.
  pose proof ww_tm_create_backup. pose proof silent_tm_encrypt_data.
  pose proof ww_tm_save_hash.
  pose proof (fun d => ww_file_write store_digest_or_snapshot TaskManager.FILE d
                         (or_introl eq_refl)).
  ww_steps.
Qed.

Lemma ww_tm_load_tasks :
  writes_within store_digest_or_snapshot TaskManager.load_tasks.
Proof.
  unfold TaskManager.load_tasks.
  apply ww_seq; [apply ww_tm_secure_file_creation|]. intros _.
  apply ww_silent.
  pose proof silent_tm_decrypt_data. pose proof silent_tm_verify_integrity.
  silent_steps.
Qed.

Lemma ww_tm_get_valid_task_id :
  writes_within store_digest_or_snapshot TaskManager.get_valid_task_id.
Proof.
  unfold TaskManager.get_valid_task_id.
  apply ww_seq; [apply ww_tm_load_tasks|]. intros tasks.
  apply ww_silent. intros w r w' E.
  exact (silent_tm_get_valid_task_id_loop tasks (stdin w) w r w' E).
Qed.

Lemma ww_tm_add_task : writes_within store_digest_or_snapshot TaskManager.add_task.
Proof.
  unfold TaskManager.add_task.
  pose proof ww_tm_load_tasks. pose proof ww_tm_save_tasks. ww_steps.
Qed.

Lemma ww_tm_display_tasks :
  writes_within store_digest_or_snapshot TaskManager.display_tasks.
Proof.
  unfold TaskManager.display_tasks.
  apply ww_seq; [apply ww_tm_load_tasks|]. intros tasks.
  apply ww_silent. pose proof silent_tm_display_loop. silent_steps.
Qed.

Lemma ww_tm_update_status_loop tasks task_id new_status seen todo :
  writes_within store_digest_or_snapshot
    (TaskManager.update_status_loop tasks task_id new_status seen todo).
Proof.
  pose proof ww_tm_save_tasks.
  revert seen. induction todo as [|t todo IH]; intros seen;
    cbn [TaskManager.update_status_loop]; ww_steps.
Qed.

Lemma ww_tm_update_title_loop tasks task_id new_title seen todo :
  writes_within store_digest_or_snapshot
    (TaskManager.update_title_loop tasks task_id new_title seen todo).
Proof.
  pose proof ww_tm_save_tasks.
  revert seen. induction todo as [|t todo IH]; intros seen;
    cbn [TaskManager.update_title_loop]; ww_steps.
Qed.

Lemma ww_tm_update_description_loop tasks task_id new_description seen todo :
  writes_within store_digest_or_snapshot
    (TaskManager.update_description_loop tasks task_id new_description
       seen todo).
Proof.
  pose proof ww_tm_save_tasks.
  revert seen. induction todo as [|t todo IH]; intros seen;
    cbn [TaskManager.update_description_loop]; ww_steps.
Qed.

Lemma ww_tm_update_task_status :
  writes_within store_digest_or_snapshot TaskManager.update_task_status.
Proof.
  unfold TaskManager.update_task_status.
  apply ww_seq; [apply ww_tm_get_valid_task_id|]. intros task_id.
  apply ww_seq; [auto using ww_silent with writes|]. intros _.
  apply ww_seq.
  { apply ww_silent. intros w r w' E.
    exact (silent_tm_status_choice_loop (stdin w) w r w' E). }
  intros new_status.
  apply ww_seq; [apply ww_tm_load_tasks|]. intros tasks.
  apply ww_seq; [auto using ww_silent with writes|]. intros items.
  apply ww_tm_update_status_loop.
Qed.

Lemma ww_tm_update_task_title :
  writes_within store_digest_or_snapshot TaskManager.update_task_title.
Proof.
  unfold TaskManager.update_task_title.
  pose proof ww_tm_get_valid_task_id. pose proof ww_tm_load_tasks.
  pose proof ww_tm_update_title_loop. ww_steps.
Qed.

Lemma ww_tm_update_task_description :
  writes_within store_digest_or_snapshot TaskManager.update_task_description.
Proof.
  unfold TaskManager.update_task_description.
  pose proof ww_tm_get_valid_task_id. pose proof ww_tm_load_tasks.
  pose proof ww_tm_update_description_loop. ww_steps.
Qed.

Lemma ww_tm_main (rounds : nat) :
  writes_within store_digest_or_snapshot (TaskManager.main rounds).
Proof.
  pose proof ww_tm_display_tasks. pose proof ww_tm_add_task.
  pose proof ww_tm_update_task_status. pose proof ww_tm_update_task_title.
  pose proof ww_tm_update_task_description.
  induction rounds as [|rounds IH]; cbn [TaskManager.main]; ww_steps.
Qed.

(** [TaskManager.py] as a program, however many rounds of its menu run
    and whatever is typed: every [file.write] and [shutil.copy] goes to
    the store, to the integrity file or to a snapshot under [backups/];
    the key file is never written. *)
Theorem tm_program_writes_its_files_only (rounds : nat) (w : world) :
  exists new,
    writes (snd (TaskManager.script rounds w)) = writes w ++ new
    /\ Forall (fun pb => store_digest_or_snapshot (fst pb)
                         /\ fst pb <> TaskManager.KEY_FILE) new.
Proof.
  assert (Hscript : writes_within store_digest_or_snapshot
                      (TaskManager.script rounds)).
  { unfold TaskManager.script.
    apply ww_seq; [auto using ww_silent with writes|]. intros _.
    apply ww_tm_main. }
  destruct (Hscript w _ _ (surjective_pairing _)) as (new & Hw & Hall).
  exists new. split; [exact Hw|].
  eapply Forall_impl; [exact Hall|].
  intros [p b] Hp. cbn [fst] in *. split; [exact Hp|].
  intros ->. destruct Hp as [Hp|[Hp|Hp]]; discriminate.
Qed.

End TaskManagerWritesWithin.

Section TrackerEncryptionWrites.
Context `{Platform}.

Lemma woc_te_load_key :
  writes_only_ciphertext TrackerEncryption.FILE TrackerEncryption.load_key.
Proof.
  unfold TrackerEncryption.load_key, TrackerEncryption.generate_key.
  pose proof (fun d => woc_file_write_other TrackerEncryption.FILE
                         TrackerEncryption.KEY_FILE d
                         ltac:(discriminate)).
  woc_steps.
Qed.

Lemma woc_te_Fernet key :
  writes_only_ciphertext TrackerEncryption.FILE (TrackerEncryption.Fernet key).
Proof. unfold TrackerEncryption.Fernet. woc_steps. Qed.

Lemma woc_te_encrypt_data data :
  writes_only_ciphertext TrackerEncryption.FILE
    (TrackerEncryption.encrypt_data data).
Proof.
  unfold TrackerEncryption.encrypt_data, TrackerEncryption.Fernet_encrypt.
  pose proof woc_te_load_key. pose proof woc_te_Fernet. woc_steps.
Qed.

Lemma woc_te_decrypt_data enc :
  writes_only_ciphertext TrackerEncryption.FILE
    (TrackerEncryption.decrypt_data enc).
Proof.
  unfold TrackerEncryption.decrypt_data, TrackerEncryption.Fernet_decrypt.
  pose proof woc_te_load_key. pose proof woc_te_Fernet. woc_steps.
Qed.

(** What [encrypt_data] returns is a token of its argument. *)
Lemma te_encrypt_data_yields (data : string) :
  yields (fun enc => exists key nonce,
            enc = fernet_encrypt key nonce (str_encode data))
    (TrackerEncryption.encrypt_data data).
Proof.
  intros w enc w' E. unfold TrackerEncryption.encrypt_data in E.
  apply bind_ok_inv in E as (key & w1 & _ & E).
  apply bind_ok_inv in E as (f & w2 & _ & E).
  apply bind_ok_inv in E as (tok & w3 & Et & E).
  apply ret_inv in E as (<- & _).
  unfold TrackerEncryption.Fernet_encrypt in Et.
  apply bind_ok_inv in Et as (nonce & w4 & _ & Et).
  apply ret_inv in Et as (<- & _). eauto.
Qed.

Lemma woc_te_secure_file_creation :
  writes_only_ciphertext TrackerEncryption.FILE
    (TrackerEncryption.secure_file_creation TrackerEncryption.FILE).
Proof.
  unfold TrackerEncryption.secure_file_creation.
  apply woc_seq; [auto using woc_silent with writes|]. intros e.
  destruct (negb e); [|auto using woc_silent with writes].
  apply woc_seq; [auto using woc_silent with writes|]. intros _.
  apply woc_seq; [auto using woc_silent with writes|]. intros _.
  eapply woc_bind.
  - apply woc_te_encrypt_data.
  - apply te_encrypt_data_yields.
  - intros enc (key & nonce & ->).
    apply woc_file_write_token. exists key, nonce, (PList []). reflexivity.
Qed.

Lemma woc_te_save_tasks (tasks : pyval) :
  writes_only_ciphertext TrackerEncryption.FILE
    (TrackerEncryption.save_tasks tasks).
Proof.
  unfold TrackerEncryption.save_tasks, TrackerEncryption.backup_tasks_file.
  apply woc_seq.
  { pose proof (woc_shutil_copy TrackerEncryption.FILE TrackerEncryption.FILE
                  (TrackerEncryption.FILE +:+ ".bak") ltac:(discriminate)).
    woc_steps. }
  intros _.
  apply woc_seq; [auto using woc_silent with writes|]. intros _.
  eapply woc_bind.
  - apply woc_te_encrypt_data.
  - apply te_encrypt_data_yields.
  - intros enc (key & nonce & ->).
    apply woc_file_write_token. exists key, nonce, tasks. reflexivity.
Qed.

Lemma woc_te_load_tasks :
  writes_only_ciphertext TrackerEncryption.FILE TrackerEncryption.load_tasks.
Proof.
  unfold TrackerEncryption.load_tasks.
  pose proof woc_te_secure_file_creation. pose proof woc_te_decrypt_data.
  woc_steps.
Qed.

Lemma silent_te_any_id_eq items task_id :
  silent (TrackerEncryption.any_id_eq items task_id).
Proof.
  induction items as [|t items IH]; cbn [TrackerEncryption.any_id_eq];
    silent_steps.
Qed.

Lemma silent_te_get_valid_task_id_loop tasks pending :
  silent (TrackerEncryption.get_valid_task_id_loop tasks pending).
Proof.
  pose proof silent_te_any_id_eq.
  induction pending as [|l pending IH];
    cbn [TrackerEncryption.get_valid_task_id_loop]; silent_steps.
Qed.

Lemma silent_te_status_choice_loop pending :
  silent (TrackerEncryption.status_choice_loop pending).
Proof.
  induction pending as [|l pending IH];
    cbn [TrackerEncryption.status_choice_loop]; silent_steps.
Qed.

Lemma silent_te_display_loop items :
  silent (TrackerEncryption.display_loop items).
Proof.
  induction items as [|t items IH]; cbn [TrackerEncryption.display_loop];
    silent_steps.
Qed.

Lemma woc_te_get_valid_task_id :
  writes_only_ciphertext TrackerEncryption.FILE
    TrackerEncryption.get_valid_task_id.
Proof.
  unfold TrackerEncryption.get_valid_task_id.
  apply woc_seq; [apply woc_te_load_tasks|]. intros tasks.
  apply woc_silent. intros w r w' E.
  exact (silent_te_get_valid_task_id_loop tasks (stdin w) w r w' E).
Qed.

Lemma woc_te_add_task :
  writes_only_ciphertext TrackerEncryption.FILE TrackerEncryption.add_task.
Proof.
  unfold TrackerEncryption.add_task.
  pose proof woc_te_load_tasks. pose proof woc_te_save_tasks. woc_steps.
Qed.

Lemma woc_te_display_tasks :
  writes_only_ciphertext TrackerEncryption.FILE
    TrackerEncryption.display_tasks.
Proof.
  unfold TrackerEncryption.display_tasks.
  apply woc_seq; [apply woc_te_load_tasks|]. intros tasks.
  apply woc_silent. pose proof silent_te_display_loop. silent_steps.
Qed.

Lemma woc_te_update_status_loop tasks task_id new_status seen todo :
  writes_only_ciphertext TrackerEncryption.FILE
    (TrackerEncryption.update_status_loop tasks task_id new_status seen todo).
Proof.
  pose proof woc_te_save_tasks.
  revert seen. induction todo as [|t todo IH]; intros seen;
    cbn [TrackerEncryption.update_status_loop]; woc_steps.
Qed.

Lemma woc_te_update_title_loop tasks task_id new_title seen todo :
  writes_only_ciphertext TrackerEncryption.FILE
    (TrackerEncryption.update_title_loop tasks task_id new_title seen todo).
Proof.
  pose proof woc_te_save_tasks.
  revert seen. induction todo as [|t todo IH]; intros seen;
    cbn [TrackerEncryption.update_title_loop]; woc_steps.
Qed.

Lemma woc_te_update_description_loop tasks task_id new_description seen todo :
  writes_only_ciphertext TrackerEncryption.FILE
    (TrackerEncryption.update_description_loop tasks task_id new_description
       seen todo).
Proof.
  pose proof woc_te_save_tasks.
  revert seen. induction todo as [|t todo IH]; intros seen;
    cbn [TrackerEncryption.update_description_loop]; woc_steps.
Qed.

Lemma woc_te_update_task_status :
  writes_only_ciphertext TrackerEncryption.FILE
    TrackerEncryption.update_task_status.
Proof.
  unfold TrackerEncryption.update_task_status.
  apply woc_seq; [apply woc_te_get_valid_task_id|]. intros task_id.
  apply woc_seq; [auto using woc_silent with writes|]. intros _.
  apply woc_seq.
  { apply woc_silent. intros w r w' E.
    exact (silent_te_status_choice_loop (stdin w) w r w' E). }
  intros new_status.
  apply woc_seq; [apply woc_te_load_tasks|]. intros tasks.
  apply woc_seq; [auto using woc_silent with writes|]. intros items.
  apply woc_te_update_status_loop.
Qed.

Lemma woc_te_update_task_title :
  writes_only_ciphertext TrackerEncryption.FILE
    TrackerEncryption.update_task_title.
Proof.
  unfold TrackerEncryption.update_task_title.
  pose proof woc_te_get_valid_task_id. pose proof woc_te_load_tasks.
  pose proof woc_te_update_title_loop. woc_steps.
Qed.

Lemma woc_te_update_task_description :
  writes_only_ciphertext TrackerEncryption.FILE
    TrackerEncryption.update_task_description.
Proof.
  unfold TrackerEncryption.update_task_description.
  pose proof woc_te_get_valid_task_id. pose proof woc_te_load_tasks.
  pose proof woc_te_update_description_loop. woc_steps.
Qed.

(** [tracker_Encryption.py] as a program, however many rounds of its menu
    run and whatever is typed: every byte sequence written to the store
    file is a [Fernet.encrypt] token of the encoded [json.dumps] of some
    object. *)
Theorem te_program_store_writes_are_tokens (rounds : nat) (w : world) :
  exists new,
    writes (snd (TrackerEncryption.main rounds w)) = writes w ++ new
    /\ Forall (fun pb => fst pb = TrackerEncryption.FILE ->
                 is_ciphertext (snd pb)) new.
Proof.
  assert (Hmain : writes_only_ciphertext TrackerEncryption.FILE
                    (TrackerEncryption.main rounds)).
  { pose proof woc_te_display_tasks. pose proof woc_te_add_task.
    pose proof woc_te_update_task_status.
    pose proof woc_te_update_task_title.
    pose proof woc_te_update_task_description.
    induction rounds as [|rounds IH]; cbn [TrackerEncryption.main];
      woc_steps. }
  exact (Hmain w _ _ (surjective_pairing _)).
Qed.

End TrackerEncryptionWrites.

(** ** The logging variant stores as the console variant does *)

Section SameStorage.
Context `{Platform}.

Lemma ss_ret {A} (a : A) : same_storage (ret a) (ret a).
Proof. intros w1 w2 Hd. split; [reflexivity|exact Hd]. Qed.

Lemma ss_raise {A} (e : exn) : same_storage (@raise A e) (raise e).
Proof. intros w1 w2 Hd. split; [reflexivity|exact Hd]. Qed.

Lemma ss_lift_opt {A} (o : option A) (e : exn) :
  same_storage (lift_opt o e) (lift_opt o e).
Proof. destruct o; [apply ss_ret|apply ss_raise]. Qed.

Lemma ss_bind {A B} (c1 c2 : M A) (k1 k2 : A -> M B) :
  same_storage c1 c2 -> (forall a, same_storage (k1 a) (k2 a)) ->
  same_storage (bind c1 k1) (bind c2 k2).
Proof.
  intros Hc Hk w1 w2 Hd. unfold bind.
  destruct (Hc w1 w2 Hd) as (Hr & Hd').
  destruct (c1 w1) as [[a1|e1] w1'], (c2 w2) as [[a2|e2] w2'];
    cbn [fst snd] in *; try discriminate.
  - injection Hr as ->. apply Hk. exact Hd'.
  - injection Hr as ->. split; [reflexivity|exact Hd'].
Qed.

(** A step that leaves the disk alone, on either side. *)
Lemma ss_quiet (c1 c2 : M unit) :
  (forall w, fst (c1 w) = Ok tt /\ disk_eq (snd (c1 w)) w) ->
  (forall w, fst (c2 w) = Ok tt /\ disk_eq (snd (c2 w)) w) ->
  same_storage c1 c2.
Proof.
  intros H1 H2 w1 w2 (Hf & Hd & Hu & Hm & Hs & Hdm & Hsu).
  destruct (H1 w1) as (-> & Hf1 & Hd1 & Hu1 & Hm1 & Hs1 & Hdm1 & Hsu1).
  destruct (H2 w2) as (-> & Hf2 & Hd2 & Hu2 & Hm2 & Hs2 & Hdm2 & Hsu2).
  split; [reflexivity|]. unfold disk_eq. repeat split; congruence.
Qed.

Lemma quiet_logging lv msg (w : world) :
  fst (logging lv msg w) = Ok tt /\ disk_eq (snd (logging lv msg w)) w.
Proof. unfold disk_eq. mred. auto 10. Qed.

Lemma quiet_print msg (w : world) :
  fst (print msg w) = Ok tt /\ disk_eq (snd (print msg w)) w.
Proof. unfold disk_eq. mred. auto 10. Qed.

Lemma ss_logging_print lv msg msg' :
  same_storage (logging lv msg) (print msg').
Proof. apply ss_quiet; [apply quiet_logging|apply quiet_print]. Qed.

(** A log record more on the left, after or before a step. *)
Lemma ss_then_logging (c1 c2 : M unit) lv msg :
  same_storage c1 c2 ->
  same_storage (bind c1 (fun _ => logging lv msg)) c2.
Proof.
  intros Hc w1 w2 Hd. unfold bind.
  destruct (Hc w1 w2 Hd) as (Hr & Hd').
  destruct (c1 w1) as [[[]|e1] w1']; cbn [fst snd] in *.
  - split; [exact Hr|].
    destruct (quiet_logging lv msg w1') as (_ & Hf & Hdi & Hu & Hm & Hs & Hdm & Hsu).
    destruct Hd' as (Hf' & Hdi' & Hu' & Hm' & Hs' & Hdm' & Hsu').
    unfold disk_eq. repeat split; congruence.
  - split; [exact Hr|exact Hd'].
Qed.

Lemma ss_logging_then {A} (c1 c2 : M A) lv msg :
  same_storage c1 c2 ->
  same_storage (bind (logging lv msg) (fun _ => c1)) c2.
Proof.
  intros Hc w1 w2 Hd. unfold bind, logging. apply Hc.
  destruct Hd as (Hf & Hdi & Hu & Hm & Hs & Hdm & Hsu). unfold disk_eq. mred. auto 10.
Qed.

Lemma ss_os_path_exists p : same_storage (os_path_exists p) (os_path_exists p).
Proof.
  intros w1 w2 (Hf & Hd & Hu & Hm & Hs & Hdm & Hsu). unfold os_path_exists. cbn [fst snd].
  rewrite Hf, Hd. split; [reflexivity|]. unfold disk_eq. auto 10.
Qed.

Lemma ss_os_umask m : same_storage (os_umask m) (os_umask m).
Proof.
  intros w1 w2 (Hf & Hd & Hu & Hm & Hs & Hdm & Hsu). unfold disk_eq. mred. auto 10.
Qed.

Lemma ss_open_wb p : same_storage (open_wb p) (open_wb p).
Proof.
  intros w1 w2 (Hf & Hd & Hu & Hm & Hs & Hdm & Hsu). unfold disk_eq. mred.
  rewrite Hf. auto 10.
Qed.

Lemma ss_file_write p data : same_storage (file_write p data) (file_write p data).
Proof.
  intros w1 w2 (Hf & Hd & Hu & Hm & Hs & Hdm & Hsu). unfold disk_eq. mred.
  rewrite Hf. auto 10.
Qed.

Lemma ss_read_rb p : same_storage (read_rb p) (read_rb p).
Proof.
  intros w1 w2 (Hf & Hd & Hu & Hm & Hs & Hdm & Hsu). unfold read_rb. rewrite Hf.
  destruct (files w2 !! p); cbn [fst snd]; unfold disk_eq; auto 10.
Qed.

Lemma ss_shutil_copy src dst :
  same_storage (shutil_copy src dst) (shutil_copy src dst).
Proof.
  intros w1 w2 (Hf & Hd & Hu & Hm & Hs & Hdm & Hsu).
  assert (Hr : write_refused w1 dst = write_refused w2 dst).
  { unfold write_refused. rewrite Hf, Hd, Hdm, Hsu. reflexivity. }
  unfold shutil_copy. rewrite Hf, Hr.
  destruct (files w2 !! src); [destruct (write_refused w2 dst)|];
    unfold disk_eq; mred; rewrite ?Hf; auto 10.
Qed.

Lemma ss_os_urandom : same_storage os_urandom os_urandom.
Proof.
  intros w1 w2 (Hf & Hd & Hu & Hm & Hs & Hdm & Hsu). unfold disk_eq. mred.
  rewrite Hu. auto 10.
Qed.

Lemma ss_generate_key :
  same_storage TrackerLog.generate_key TrackerEncryption.generate_key.
Proof.
  unfold TrackerLog.generate_key, TrackerEncryption.generate_key.
  apply ss_bind; [apply ss_os_urandom|]. intros r.
  apply ss_bind; [apply ss_open_wb|]. intros _.
  apply ss_bind; [apply ss_file_write|]. intros _.
  apply ss_logging_print.
Qed.

Lemma ss_load_key :
  same_storage TrackerLog.load_key TrackerEncryption.load_key.
Proof.
  unfold TrackerLog.load_key, TrackerEncryption.load_key.
  apply ss_bind; [apply ss_os_path_exists|]. intros e.
  apply ss_bind; [|intros _; apply ss_read_rb].
  destruct (negb e).
  - apply ss_bind; [apply ss_logging_print|]. intros _.
    apply ss_generate_key.
  - apply ss_logging_print.
Qed.

Lemma ss_Fernet key :
  same_storage (TrackerLog.Fernet key) (TrackerEncryption.Fernet key).
Proof.
  unfold TrackerLog.Fernet, TrackerEncryption.Fernet.
  destruct (fernet_key_ok key); [apply ss_ret|apply ss_raise].
Qed.

Lemma ss_encrypt_data data :
  same_storage (TrackerLog.encrypt_data data)
    (TrackerEncryption.encrypt_data data).
Proof.
  unfold TrackerLog.encrypt_data, TrackerEncryption.encrypt_data,
    TrackerLog.Fernet_encrypt, TrackerEncryption.Fernet_encrypt.
  apply ss_bind; [apply ss_load_key|]. intros key.
  apply ss_bind; [apply ss_Fernet|]. intros f.
  apply ss_bind; [|intros enc; apply ss_ret].
  apply ss_bind; [apply ss_os_urandom|]. intros nonce. apply ss_ret.
Qed.

Lemma ss_decrypt_data enc :
  same_storage (TrackerLog.decrypt_data enc)
    (TrackerEncryption.decrypt_data enc).
Proof.
  unfold TrackerLog.decrypt_data, TrackerEncryption.decrypt_data,
    TrackerLog.Fernet_decrypt, TrackerEncryption.Fernet_decrypt.
  apply ss_bind; [apply ss_load_key|]. intros key.
  apply ss_bind; [apply ss_Fernet|]. intros f.
  apply ss_bind; [apply ss_lift_opt|]. intros raw.
  apply ss_bind; [apply ss_lift_opt|]. intros dec. apply ss_ret.
Qed.

Lemma ss_backup_tasks_file :
  same_storage TrackerLog.backup_tasks_file
    TrackerEncryption.backup_tasks_file.
Proof.
  unfold TrackerLog.backup_tasks_file, TrackerEncryption.backup_tasks_file.
  apply ss_bind; [apply ss_os_path_exists|]. intros e.
  destruct e; [|apply ss_ret].
  apply ss_bind; [apply ss_shutil_copy|]. intros _. apply ss_logging_print.
Qed.

Lemma ss_save_tasks tasks :
  same_storage (TrackerLog.save_tasks tasks)
    (TrackerEncryption.save_tasks tasks).
Proof.
  unfold TrackerLog.save_tasks, TrackerEncryption.save_tasks.
  apply ss_bind; [apply ss_backup_tasks_file|]. intros _.
  apply ss_bind; [apply ss_open_wb|]. intros _.
  apply ss_bind; [apply ss_encrypt_data|]. intros enc.
  apply ss_then_logging. apply ss_file_write.
Qed.

Lemma ss_secure_file_creation filepath :
  same_storage (TrackerLog.secure_file_creation filepath)
    (TrackerEncryption.secure_file_creation filepath).
Proof.
  unfold TrackerLog.secure_file_creation,
    TrackerEncryption.secure_file_creation.
  apply ss_bind; [apply ss_os_path_exists|]. intros e.
  destruct (negb e); [|apply ss_ret].
  apply ss_bind; [apply ss_os_umask|]. intros _.
  apply ss_bind; [apply ss_open_wb|]. intros _.
  apply ss_bind; [apply ss_encrypt_data|]. intros enc.
  apply ss_then_logging. apply ss_file_write.
Qed.

Lemma ss_load_tasks :
  same_storage TrackerLog.load_tasks TrackerEncryption.load_tasks.
Proof.
  unfold TrackerLog.load_tasks, TrackerEncryption.load_tasks.
  apply ss_bind; [apply ss_secure_file_creation|]. intros _.
  apply ss_bind; [apply ss_read_rb|]. intros enc.
  destruct enc as [|b enc]; [apply ss_ret|].
  apply ss_bind; [apply ss_decrypt_data|]. intros dec.
  apply ss_logging_then. apply ss_lift_opt.
Qed.

Lemma disk_eq_refl (w : world) : disk_eq w w.
Proof. unfold disk_eq. auto 10. Qed.

(** The storage functions of [tracker_Log.py] and of
    [tracker_Encryption.py] agree: from one world, Load and Save return or
    raise the same and leave the same files, whatever the state of the key
    file and of the store; the variants differ in their messages only. *)
Theorem tracker_log_stores_as_tracker_encryption (w : world)
    (tasks : pyval) :
  (fst (TrackerLog.load_tasks w) = fst (TrackerEncryption.load_tasks w)
   /\ files (snd (TrackerLog.load_tasks w))
      = files (snd (TrackerEncryption.load_tasks w)))
  /\ (fst (TrackerLog.save_tasks tasks w)
      = fst (TrackerEncryption.save_tasks tasks w)
      /\ files (snd (TrackerLog.save_tasks tasks w))
         = files (snd (TrackerEncryption.save_tasks tasks w))).
Proof.
  destruct (ss_load_tasks w w (disk_eq_refl w)) as (Hr1 & Hf1 & _).
  destruct (ss_save_tasks tasks w w (disk_eq_refl w)) as (Hr2 & Hf2 & _).
  auto 10.
Qed.

End SameStorage.

Section KeyFileRoundTrip.
Context `{Platform}.

(** Save then Load in the key-file variant: with a valid key file, what
    [save_tasks] stored is what [load_tasks] returns. *)
Theorem te_save_then_load (w : world) (k c : list Byte.byte)
    (tasks : pyval) :
  fernet_roundtrip -> codec_roundtrip -> token_nonempty ->
  json_loads (json_dumps tasks) = Some tasks ->
  files w !! TrackerEncryption.KEY_FILE = Some k ->
  fernet_key_ok k = true ->
  files w !! TrackerEncryption.FILE = Some c ->
  fst ((TrackerEncryption.save_tasks tasks ;; TrackerEncryption.load_tasks) w)
  = Ok tasks.
Proof.
  intros Hfernet Hcodec Hnonempty Hjson Hk Hok Hc.
  destruct (te_save_tasks_ok w k c tasks Hk Hok Hc) as (w1 & Hrun & Hf & _).
  unfold bind at 1. rewrite Hrun.
  destruct (te_load_tasks_ok w1 k
              (fernet_encrypt k (urandom w 0%nat)
                 (str_encode (json_dumps tasks)))
              (str_encode (json_dumps tasks)) (json_dumps tasks) tasks)
    as (w2 & Hload & _).
  - rewrite Hf. rewrite lookup_insert_ne by discriminate.
    rewrite lookup_insert_ne by discriminate. exact Hk.
  - exact Hok.
  - rewrite Hf. apply lookup_insert_eq.
  - apply Hnonempty. exact Hok.
  - apply Hfernet. exact Hok.
  - apply Hcodec.
  - exact Hjson.
  - rewrite Hload. reflexivity.
Qed.

End KeyFileRoundTrip.

Section TrackerLogCommands.
Context `{Platform}.

Lemma ss_print msg : same_storage (print msg) (print msg).
Proof. apply ss_quiet; apply quiet_print. Qed.

Lemma ss_input prompt : same_storage (input prompt) (input prompt).
Proof.
  intros w1 w2 (Hf & Hd & Hu & Hm & Hs & Hdm & Hsu). unfold input. rewrite Hs.
  destruct (stdin w2) eqn:E2; unfold disk_eq; mred;
    repeat split; congruence.
Qed.

Lemma ss_py_getitem x k : same_storage (py_getitem x k) (py_getitem x k).
Proof.
  destruct x; cbn [py_getitem]; try apply ss_raise. apply ss_lift_opt.
Qed.

Lemma ss_py_setitem x k v :
  same_storage (py_setitem x k v) (py_setitem x k v).
Proof. destruct x; cbn [py_setitem]; try apply ss_raise; apply ss_ret. Qed.

Lemma ss_py_len x : same_storage (py_len x) (py_len x).
Proof. destruct x; cbn [py_len]; try apply ss_raise; apply ss_ret. Qed.

Lemma ss_py_append x v : same_storage (py_append x v) (py_append x v).
Proof. destruct x; cbn [py_append]; try apply ss_raise; apply ss_ret. Qed.

Lemma ss_py_iter x : same_storage (py_iter x) (py_iter x).
Proof. destruct x; cbn [py_iter]; try apply ss_raise; apply ss_ret. Qed.

Lemma ss_py_get x k d : same_storage (py_get x k d) (py_get x k d).
Proof. destruct x; cbn [py_get]; try apply ss_raise; apply ss_ret. Qed.

(** A computation that picks up the pending input on either side. *)
Lemma ss_on_stdin {A} (f1 f2 : list pystr -> M A) :
  (forall pending, same_storage (f1 pending) (f2 pending)) ->
  same_storage (fun w => f1 (stdin w) w) (fun w => f2 (stdin w) w).
Proof.
  intros Hf w1 w2 Hd. pose proof Hd as (_ & _ & _ & _ & Hs & _).
  rewrite Hs. apply Hf. exact Hd.
Qed.

Lemma ss_add_task :
  same_storage TrackerLog.add_task TrackerEncryption.add_task.
Proof.
  unfold TrackerLog.add_task, TrackerEncryption.add_task.
  apply ss_bind; [apply ss_input|]. intros raw_title.
  destruct (str_empty (strip raw_title)).
  { apply ss_logging_then, ss_print. }
  apply ss_bind; [apply ss_input|]. intros raw_description.
  destruct (str_empty (strip raw_description)).
  { apply ss_logging_then, ss_print. }
  apply ss_bind; [apply ss_load_tasks|]. intros tasks.
  apply ss_bind; [apply ss_py_len|]. intros n.
  apply ss_bind; [apply ss_py_append|]. intros tasks'.
  apply ss_bind; [apply ss_save_tasks|]. intros _.
  apply ss_logging_then, ss_print.
Qed.

Lemma ss_display_loop items :
  same_storage (TrackerLog.display_loop items)
    (TrackerEncryption.display_loop items).
Proof.
  induction items as [|task rest IH];
    cbn [TrackerLog.display_loop TrackerEncryption.display_loop].
  - apply ss_ret.
  - apply ss_bind; [apply ss_py_get|]. intros description.
    apply ss_bind; [apply ss_py_getitem|]. intros id.
    apply ss_bind; [apply ss_py_getitem|]. intros title.
    apply ss_bind; [apply ss_py_getitem|]. intros status.
    apply ss_bind; [apply ss_print|]. intros _. exact IH.
Qed.

Lemma ss_display_tasks :
  same_storage TrackerLog.display_tasks TrackerEncryption.display_tasks.
Proof.
  unfold TrackerLog.display_tasks, TrackerEncryption.display_tasks.
  apply ss_bind; [apply ss_load_tasks|]. intros tasks.
  destruct (negb (py_truthy tasks)).
  - apply ss_logging_then, ss_print.
  - apply ss_bind; [apply ss_print|]. intros _.
    apply ss_bind; [apply ss_py_iter|]. intros items.
    apply ss_display_loop.
Qed.

Lemma ss_any_id_eq items task_id :
  same_storage (TrackerLog.any_id_eq items task_id)
    (TrackerEncryption.any_id_eq items task_id).
Proof.
  induction items as [|task rest IH];
    cbn [TrackerLog.any_id_eq TrackerEncryption.any_id_eq].
  - apply ss_ret.
  - apply ss_bind; [apply ss_py_getitem|]. intros v.
    destruct (py_eq_int v task_id); [apply ss_ret|exact IH].
Qed.

Lemma ss_get_valid_task_id_loop tasks pending :
  same_storage (TrackerLog.get_valid_task_id_loop tasks pending)
    (TrackerEncryption.get_valid_task_id_loop tasks pending).
Proof.
  revert tasks.
  assert (Hbase : forall tasks,
    same_storage (TrackerLog.get_valid_task_id_loop tasks [])
      (TrackerEncryption.get_valid_task_id_loop tasks [])).
  { intros tasks.
    cbn [TrackerLog.get_valid_task_id_loop
         TrackerEncryption.get_valid_task_id_loop].
    apply ss_bind; [apply ss_input|]. intros line.
    destruct (py_int (strip line)) as [task_id|].
    - apply ss_bind; [apply ss_py_iter|]. intros items.
      apply ss_bind; [apply ss_any_id_eq|]. intros found.
      destruct (negb found); [|apply ss_ret].
      apply ss_logging_then.
      apply ss_bind; [apply ss_print|]. intros _. apply ss_raise.
    - apply ss_logging_then.
      apply ss_bind; [apply ss_print|]. intros _. apply ss_raise. }
  induction pending as [|l pending IH]; intros tasks; [apply Hbase|].
  cbn [TrackerLog.get_valid_task_id_loop
       TrackerEncryption.get_valid_task_id_loop].
  apply ss_bind; [apply ss_input|]. intros line.
  destruct (py_int (strip line)) as [task_id|].
  - apply ss_bind; [apply ss_py_iter|]. intros items.
    apply ss_bind; [apply ss_any_id_eq|]. intros found.
    destruct (negb found); [|apply ss_ret].
    apply ss_logging_then.
    apply ss_bind; [apply ss_print|]. intros _. apply IH.
  - apply ss_logging_then.
    apply ss_bind; [apply ss_print|]. intros _. apply IH.
Qed.

Lemma ss_get_valid_task_id :
  same_storage TrackerLog.get_valid_task_id
    TrackerEncryption.get_valid_task_id.
Proof.
  unfold TrackerLog.get_valid_task_id, TrackerEncryption.get_valid_task_id.
  apply ss_bind; [apply ss_load_tasks|]. intros tasks.
  apply (ss_on_stdin (TrackerLog.get_valid_task_id_loop tasks)
           (TrackerEncryption.get_valid_task_id_loop tasks)).
  apply ss_get_valid_task_id_loop.
Qed.

Lemma ss_status_choice_loop pending :
  same_storage (TrackerLog.status_choice_loop pending)
    (TrackerEncryption.status_choice_loop pending).
Proof.
  induction pending as [|l pending IH];
    cbn [TrackerLog.status_choice_loop TrackerEncryption.status_choice_loop];
    (apply ss_bind; [apply ss_input|]); intros raw;
    destruct (String.eqb (strip raw) "1"); try apply ss_ret;
    destruct (String.eqb (strip raw) "2"); try apply ss_ret;
    apply ss_logging_then;
    (apply ss_bind; [apply ss_print|]); intros _.
  - apply ss_raise.
  - exact IH.
Qed.

Lemma ss_update_status_loop tasks task_id new_status todo :
  forall seen,
    same_storage
      (TrackerLog.update_status_loop tasks task_id new_status seen todo)
      (TrackerEncryption.update_status_loop tasks task_id new_status seen
         todo).
Proof.
  induction todo as [|task rest IH]; intros seen;
    cbn [TrackerLog.update_status_loop TrackerEncryption.update_status_loop].
  - apply ss_ret.
  - apply ss_bind; [apply ss_py_getitem|]. intros v.
    destruct (py_eq_int v task_id); [|apply IH].
    apply ss_bind; [apply ss_py_setitem|]. intros task'.
    apply ss_bind; [apply ss_save_tasks|]. intros _.
    apply ss_logging_then.
    apply ss_bind; [apply ss_print|]. intros _. apply IH.
Qed.

Lemma ss_update_task_status :
  same_storage TrackerLog.update_task_status
    TrackerEncryption.update_task_status.
Proof.
  unfold TrackerLog.update_task_status, TrackerEncryption.update_task_status.
  apply ss_bind; [apply ss_get_valid_task_id|]. intros task_id.
  apply ss_bind; [apply ss_print|]. intros _.
  apply ss_bind.
  { apply (ss_on_stdin TrackerLog.status_choice_loop
             TrackerEncryption.status_choice_loop).
    apply ss_status_choice_loop. }
  intros new_status.
  apply ss_bind; [apply ss_load_tasks|]. intros tasks.
  apply ss_bind; [apply ss_py_iter|]. intros items.
  apply ss_update_status_loop.
Qed.

(** The commands of [tracker_Log.py] behave as those of
    [tracker_Encryption.py]: from one world, [add_task],
    [update_task_status], [display_tasks] and [get_valid_task_id] return
    or raise the same, leave the same files and consume the same input;
    the log records are all that [tracker_Log.py] adds. *)
Theorem tracker_log_commands_as_tracker_encryption (w : world) :
  (fst (TrackerLog.add_task w) = fst (TrackerEncryption.add_task w)
   /\ files (snd (TrackerLog.add_task w))
      = files (snd (TrackerEncryption.add_task w))
   /\ stdin (snd (TrackerLog.add_task w))
      = stdin (snd (TrackerEncryption.add_task w)))
  /\ (fst (TrackerLog.update_task_status w)
      = fst (TrackerEncryption.update_task_status w)
      /\ files (snd (TrackerLog.update_task_status w))
         = files (snd (TrackerEncryption.update_task_status w))
      /\ stdin (snd (TrackerLog.update_task_status w))
         = stdin (snd (TrackerEncryption.update_task_status w)))
  /\ (fst (TrackerLog.display_tasks w)
      = fst (TrackerEncryption.display_tasks w)
      /\ files (snd (TrackerLog.display_tasks w))
         = files (snd (TrackerEncryption.display_tasks w))
      /\ stdin (snd (TrackerLog.display_tasks w))
         = stdin (snd (TrackerEncryption.display_tasks w)))
  /\ (fst (TrackerLog.get_valid_task_id w)
      = fst (TrackerEncryption.get_valid_task_id w)
      /\ files (snd (TrackerLog.get_valid_task_id w))
         = files (snd (TrackerEncryption.get_valid_task_id w))
      /\ stdin (snd (TrackerLog.get_valid_task_id w))
         = stdin (snd (TrackerEncryption.get_valid_task_id w))).
Proof.
  destruct (ss_add_task w w (disk_eq_refl w))
    as (Hr1 & Hf1 & _ & _ & _ & Hs1 & _).
  destruct (ss_update_task_status w w (disk_eq_refl w))
    as (Hr2 & Hf2 & _ & _ & _ & Hs2 & _).
  destruct (ss_display_tasks w w (disk_eq_refl w))
    as (Hr3 & Hf3 & _ & _ & _ & Hs3 & _).
  destruct (ss_get_valid_task_id w w (disk_eq_refl w))
    as (Hr4 & Hf4 & _ & _ & _ & Hs4 & _).
  auto 20.
Qed.

End TrackerLogCommands.

(** * The further properties on the reference platform *)

Lemma reference_json_empty :
  json_loads (Platform := Reference.platform)
    (json_dumps (Platform := Reference.platform) (PList []))
  = Some (PList []).
Proof. reflexivity. Qed.

Lemma reference_json_sample :
  json_loads (Platform := Reference.platform)
    (json_dumps (Platform := Reference.platform) Reference.sample)
  = Some Reference.sample.
Proof. vm_compute. reflexivity. Qed.

Lemma tm_first_load_creates_store_witness :
  exists w',
    TaskManager.load_tasks (H := Reference.platform) Reference.w0
    = (Ok (PList []), w')
    /\ umask w' = 127%Z.
Proof.
  destruct (@tm_first_load_creates_store Reference.platform Reference.w0 "k")
    as (w' & Hrun & _ & Hm & _).
  - exact reference_fernet_roundtrip.
  - exact reference_codec_roundtrip.
  - exact reference_token_nonempty.
  - exact reference_json_empty.
  - reflexivity.
  - discriminate.
  - reflexivity.
  - reflexivity.
  - cbn. apply not_elem_of_empty.
  - exists w'. split; [exact Hrun|exact Hm].
Defined.

Lemma tm_load_without_key_witness :
  TaskManager.load_tasks (H := Reference.platform) Reference.w_saved_unbound
  = (Raise (ValueError "ENCRYPTION_KEY environment variable not set"),
     Reference.w_saved_unbound).
Proof.
  apply (@tm_load_without_key Reference.platform Reference.w_saved_unbound
           (String.list_byte_of_string "k" ++
            String.list_byte_of_string (Reference.dumps Reference.sample))).
  - vm_compute. reflexivity.
  - discriminate.
  - reflexivity.
Defined.

Lemma tm_load_bad_token_witness :
  TaskManager.load_tasks (H := Reference.platform)
    Reference.w_saved_other_key
  = (Raise InvalidToken, Reference.w_saved_other_key).
Proof.
  apply (@tm_load_bad_token Reference.platform Reference.w_saved_other_key
           "x"
           (String.list_byte_of_string "k" ++
            String.list_byte_of_string (Reference.dumps Reference.sample))).
  - vm_compute. reflexivity.
  - discriminate.
  - reflexivity.
  - discriminate.
  - reflexivity.
  - vm_compute. reflexivity.
Defined.

Lemma tm_load_existing_is_read_only_witness :
  files (snd (TaskManager.load_tasks (H := Reference.platform)
                Reference.w_tampered))
  = files Reference.w_tampered.
Proof.
  destruct (@tm_load_existing_is_read_only Reference.platform
              Reference.w_tampered
              (snd (TaskManager.load_tasks (H := Reference.platform)
                      Reference.w_tampered))
              (String.list_byte_of_string "k" ++
               String.list_byte_of_string (Reference.dumps Reference.sample))
              (fst (TaskManager.load_tasks (H := Reference.platform)
                      Reference.w_tampered)))
    as (Hf & _).
  - vm_compute. reflexivity.
  - apply surjective_pairing.
  - exact Hf.
Defined.

Lemma tm_failed_first_load_leaves_empty_store_witness :
  exists w',
    TaskManager.load_tasks (H := Reference.platform) Reference.w_unbound
    = (Raise (ValueError "ENCRYPTION_KEY environment variable not set"), w')
    /\ TaskManager.load_tasks (H := Reference.platform) w'
       = (Ok (PList []), w').
Proof.
  destruct (@tm_failed_first_load_leaves_empty_store Reference.platform
              Reference.w_unbound) as (w' & Hrun & _ & Hnext).
  - reflexivity.
  - cbn. apply not_elem_of_empty.
  - reflexivity.
  - exists w'. split; [exact Hrun|exact Hnext].
Defined.

Lemma tm_save_without_key_keeps_store_witness :
  exists w',
    TaskManager.save_tasks (H := Reference.platform) (PList [])
      Reference.w_saved_unbound
    = (Raise (ValueError "ENCRYPTION_KEY environment variable not set"), w')
    /\ files w' !! TaskManager.FILE
       = files Reference.w_saved_unbound !! TaskManager.FILE.
Proof.
  destruct (@tm_save_without_key_keeps_store Reference.platform
              Reference.w_saved_unbound
              (String.list_byte_of_string "k" ++
               String.list_byte_of_string (Reference.dumps Reference.sample))
              (PList []))
    as (w' & Hrun & Hf & _).
  - vm_compute. reflexivity.
  - reflexivity.
  - vm_compute. reflexivity.
  - vm_compute. reflexivity.
  - exists w'. split; [exact Hrun|]. rewrite Hf. vm_compute. reflexivity.
Defined.

Lemma tm_save_then_load_witness :
  fst ((TaskManager.save_tasks (H := Reference.platform) Reference.sample ;;
        TaskManager.load_tasks (H := Reference.platform)) Reference.w_store)
  = Ok Reference.sample.
Proof.
  apply (@tm_save_then_load Reference.platform Reference.w_store "k"
           (String.list_byte_of_string "k[]")).
  - exact reference_fernet_roundtrip.
  - exact reference_codec_roundtrip.
  - exact reference_token_nonempty.
  - exact reference_json_sample.
  - reflexivity.
  - discriminate.
  - reflexivity.
  - vm_compute. reflexivity.
  - vm_compute. reflexivity.
  - vm_compute. reflexivity.
Defined.

Lemma te_save_then_load_witness :
  fst ((TrackerEncryption.save_tasks (H := Reference.platform)
          Reference.sample ;;
        TrackerEncryption.load_tasks (H := Reference.platform))
         Reference.w_keyfile)
  = Ok Reference.sample.
Proof.
  apply (@te_save_then_load Reference.platform Reference.w_keyfile
           (String.list_byte_of_string "k")
           (String.list_byte_of_string "k[]")).
  - exact reference_fernet_roundtrip.
  - exact reference_codec_roundtrip.
  - exact reference_token_nonempty.
  - exact reference_json_sample.
  - vm_compute. reflexivity.
  - reflexivity.
  - vm_compute. reflexivity.
Defined.

Lemma tm_add_task_after_mismatch_witness :
  exists w',
    TaskManager.add_task (H := Reference.platform) Reference.w_tampered_add
    = (Ok tt, w')
    /\ hash_file w'
       = Some (Reference.dumps
                 (PList [PDict [("id", PInt 1); ("title", PStr "B");
                                ("description", PStr "e");
                                ("status", PStr "not done")]])).
Proof.
  destruct (@tm_add_task_after_mismatch Reference.platform
              Reference.w_tampered_add "k"
              (String.list_byte_of_string "k" ++
               String.list_byte_of_string (Reference.dumps Reference.sample))
              (String.list_byte_of_string (Reference.dumps Reference.sample))
              (Reference.dumps Reference.sample) "0000" "B" "e" [])
    as (w' & Hrun & _ & _).
  - reflexivity.
  - discriminate.
  - reflexivity.
  - vm_compute. reflexivity.
  - discriminate.
  - vm_compute. reflexivity.
  - vm_compute. reflexivity.
  - reflexivity.
  - intros E. vm_compute in E. discriminate E.
  - reflexivity.
  - intros E. vm_compute in E. discriminate E.
  - intros E. vm_compute in E. discriminate E.
  - vm_compute. reflexivity.
  - vm_compute. reflexivity.
  - exists w'. split; [exact Hrun|].
    assert (E : hash_file (snd (TaskManager.add_task
                                  (H := Reference.platform)
                                  Reference.w_tampered_add))
                = Some (Reference.dumps
                   (PList [PDict [("id", PInt 1); ("title", PStr "B");
                                  ("description", PStr "e");
                                  ("status", PStr "not done")]])))
      by (vm_compute; reflexivity).
    rewrite Hrun in E. exact E.
Defined.


Lemma empty_store_loads_as_empty_list_witness :
  TrackerEncryption.load_tasks (H := Reference.platform)
    (snd (TrackerEncryption.save_tasks (H := Reference.platform)
            Reference.sample Reference.w_rejected_key))
  = (Ok (PList []),
     snd (TrackerEncryption.save_tasks (H := Reference.platform)
            Reference.sample Reference.w_rejected_key)).
Proof.
  apply (@empty_store_loads_as_empty_list Reference.platform).
  vm_compute. reflexivity.
Defined.

Lemma save_with_rejected_key_empties_store_witness :
  exists w',
    TrackerEncryption.save_tasks (H := Reference.platform) Reference.sample
      Reference.w_rejected_key
    = (Raise (ValueError
                "Fernet key must be 32 url-safe base64-encoded bytes."), w')
    /\ files w' !! "tasks.json" = Some []
    /\ files w' !! BAK = Some (String.list_byte_of_string "k[]").
Proof.
  apply (proj1 (@save_with_rejected_key_empties_store Reference.platform
                  Reference.w_rejected_key [] (String.list_byte_of_string "k[]")
                  Reference.sample eq_refl eq_refl eq_refl)).
Defined.

Lemma te_load_key_generates_once_witness :
  exists w1 w2,
    TrackerEncryption.load_key (H := Reference.platform) Reference.w0
    = (Ok (String.list_byte_of_string "k"), w1)
    /\ TrackerEncryption.load_key (H := Reference.platform) w1
       = (Ok (String.list_byte_of_string "k"), w2).
Proof.
  destruct (@te_load_key_generates_once Reference.platform Reference.w0)
    as (w1 & w2 & H1 & _ & H2 & _).
  - reflexivity.
  - cbn. apply not_elem_of_empty.
  - exists w1, w2. split; [exact H1|exact H2].
Defined.

Lemma te_first_run_witness :
  exists w',
    TrackerEncryption.load_tasks (H := Reference.platform) Reference.w0
    = (Ok (PList []), w')
    /\ files w' !! "tasks.json" = Some (String.list_byte_of_string "k[]").
Proof.
  destruct (@te_first_run Reference.platform Reference.w0)
    as (w' & Hrun & _ & Hf & _).
  - exact reference_generated_key_ok.
  - exact reference_fernet_roundtrip.
  - exact reference_codec_roundtrip.
  - exact reference_token_nonempty.
  - exact reference_json_empty.
  - reflexivity.
  - cbn. apply not_elem_of_empty.
  - reflexivity.
  - cbn. apply not_elem_of_empty.
  - exists w'. split; [exact Hrun|]. rewrite Hf. reflexivity.
Defined.

Lemma prompts_return_validated_answers_witness :
  exists tasks items w1 w0,
    TaskManager.load_tasks (H := Reference.platform) Reference.w_update
    = (Ok tasks, w1)
    /\ py_iter tasks w0 = (Ok items, w0)
    /\ existsb (id_matches 1) items = true.
Proof.
  apply (proj1 (@prompts_return_validated_answers Reference.platform)
           Reference.w_update
           (snd (TaskManager.get_valid_task_id (H := Reference.platform)
                   Reference.w_update)) 1%Z).
  vm_compute. reflexivity.
Defined.

Lemma tm_get_valid_task_id_skips_rejected_witness :
  exists w',
    TaskManager.get_valid_task_id_loop (H := Reference.platform)
      Reference.sample (stdin Reference.w_retry) Reference.w_retry
    = (Ok 1%Z, w')
    /\ stdin w' = ["5"]
    /\ length (log w') = (length (log Reference.w_retry) + 2)%nat.
Proof.
  destruct (@tm_get_valid_task_id_skips_rejected Reference.platform
              [PDict [("id", PInt 1); ("title", PStr "A");
                      ("description", PStr "d"); ("status", PStr "not done")]]
              ["abc"; "2"] "1" ["5"] 1%Z)
    with (w := Reference.w_retry) as (w' & Hrun & Hs & Hl & _).
  - constructor; [|constructor]. exists (PInt 1). reflexivity.
  - vm_compute. reflexivity.
  - vm_compute. reflexivity.
  - reflexivity.
  - reflexivity.
  - exists w'. split; [exact Hrun|]. split; [exact Hs|exact Hl].
Defined.

Lemma tm_update_title_and_description_witness :
  exists w' l' nonce,
    TaskManager.update_task_title (H := Reference.platform)
      Reference.w_rename3 = (Ok tt, w')
    /\ files w' !! TaskManager.FILE
       = Some (fernet_encrypt (Platform := Reference.platform)
                 (String.list_byte_of_string "k") nonce
                 (String.list_byte_of_string (Reference.dumps (PList l'))))
    /\ only_key_changed "title" 2 "Z" Reference.three_tasks l'
    /\ files w' !! TaskManager.FILE
       = Some (String.list_byte_of_string "k" ++
               String.list_byte_of_string
                 (Reference.dumps
                    (PList
                       [PDict [("id", PInt 1); ("title", PStr "A");
                               ("description", PStr "d");
                               ("status", PStr "not done")];
                        PDict [("id", PInt 2); ("title", PStr "Z");
                               ("description", PStr "e");
                               ("status", PStr "not done")];
                        PDict [("id", PInt 3); ("title", PStr "C");
                               ("description", PStr "f");
                               ("status", PStr "in progress")]]))).
Proof.
  destruct (@tm_update_title_and_description Reference.platform
              Reference.w_rename3 "k"
              (String.list_byte_of_string "k" ++
               String.list_byte_of_string
                 (Reference.dumps (PList Reference.three_tasks)))
              (String.list_byte_of_string
                 (Reference.dumps (PList Reference.three_tasks)))
              (Reference.dumps (PList Reference.three_tasks))
              Reference.three_tasks "2" " Z " [] 2%Z)
    as (Hset & _).
  - reflexivity.
  - discriminate.
  - reflexivity.
  - vm_compute. reflexivity.
  - discriminate.
  - vm_compute. reflexivity.
  - vm_compute. reflexivity.
  - vm_compute. reflexivity.
  - right. vm_compute. reflexivity.
  - repeat constructor; eexists; reflexivity.
  - reflexivity.
  - vm_compute. reflexivity.
  - reflexivity.
  - destruct Hset as ((w' & l' & nonce & Hrun & Hf & _ & Honly) & _).
    + intros E. vm_compute in E. discriminate E.
    + vm_compute. reflexivity.
    + tick_clock 1%nat.
    + exists w', l', nonce. split; [exact Hrun|]. split; [exact Hf|].
      split; [exact Honly|].
      assert (E : files (snd (TaskManager.update_task_title
                                (H := Reference.platform)
                                Reference.w_rename3)) !! TaskManager.FILE
                  = Some (String.list_byte_of_string "k" ++
               String.list_byte_of_string
                 (Reference.dumps
                    (PList
                       [PDict [("id", PInt 1); ("title", PStr "A");
                               ("description", PStr "d");
                               ("status", PStr "not done")];
                        PDict [("id", PInt 2); ("title", PStr "Z");
                               ("description", PStr "e");
                               ("status", PStr "not done")];
                        PDict [("id", PInt 3); ("title", PStr "C");
                               ("description", PStr "f");
                               ("status", PStr "in progress")]]))))
        by (vm_compute; reflexivity).
      rewrite Hrun in E. exact E.
Defined.

Lemma tm_first_run_locks_backup_folder_witness :
  exists w1 w2,
    TaskManager.load_tasks (H := Reference.platform) Reference.w0
    = (Ok (PList []), w1)
    /\ TaskManager.save_tasks (H := Reference.platform) Reference.sample w1
       = (Raise (PermissionError "backups/tasks_20240101_120000.json"), w2)
    /\ dir_mode w2 "backups/" = 384%Z
    /\ fst (TaskManager.save_tasks (H := Reference.platform) (PList [])
              (set_umask 18 w2))
       = Raise (PermissionError "backups/tasks_20240101_120001.json").
Proof.
  destruct (@tm_first_run_locks_backup_folder Reference.platform
              Reference.w0 "k" Reference.sample)
    as (w1 & w2 & Hload & Hsave & _ & _ & _ & Hmode & Hlater).
  - exact reference_fernet_roundtrip.
  - exact reference_codec_roundtrip.
  - exact reference_token_nonempty.
  - reflexivity.
  - reflexivity.
  - discriminate.
  - reflexivity.
  - reflexivity.
  - cbn. apply not_elem_of_empty.
  - reflexivity.
  - cbn. apply not_elem_of_empty.
  - reflexivity.
  - tick_clock 0%nat.
  - exists w1, w2. split; [exact Hload|]. split; [exact Hsave|].
    split; [exact Hmode|].
    destruct (Hlater 18%Z (PList [])) as (w3 & Hrun3 & _).
    rewrite Hrun3. reflexivity.
Defined.
